(** * MT5 trading bot: indicators, signals, risk levels, trailing stops,
      kill switch and the per-bar sequence

    A shallow embedding of [strategy/indicators.py], [strategy/signals.py],
    [strategy/risk_manager.py], [strategy/kill_switch.py],
    [strategy/executor.py] and of [TradingBot.on_bar] and [TradingBot.run]
    in [main.py], followed by the properties of the design specification
    that were checked against it and by further properties of the code.

    Numbers.  The program computes on IEEE binary64 values (Python [float],
    [numpy.float64]).  Here a value is either [NaN] or an exact rational:
    the undefined marker and every comparison, truthiness test and branch
    on it behave as in the program, while rounding, overflow, infinities and
    the sign of zero are abstracted away (arithmetic is exact).  Python
    integers that meet floats ([0], [period - 1], ...) are injected exactly.
    The properties are meant of the rounded program as well: they speak
    of the values the program computes and of their order, which rounding
    keeps; they claim no strict inequality between a value and the result
    of adding to it or subtracting from it (a small distance is absorbed)
    and no product of positive numbers to be positive (it can underflow to
    zero); the one threshold of a quotient they state (an equity of 9500
    for a starting equity of 10000 and a limit of 0.05) is the example of
    the specification, which the rounded quotient meets too; and where a
    statement needs the computation to stay finite it says so or bounds
    its inputs ([ranges.all_moderate]).

    Failure.  A Python exception is a value [Raise e] of the [result] type;
    array indexing follows numpy (negative indices wrap once, anything else
    out of range raises [IndexError]).

    Collaborators.  The MetaTrader5 terminal is a record of answers
    ([mt5.Terminal] below); the calls a method makes are returned as a
    trace next to its result, so that "does not ask again" is a statement
    about the trace.  For the methods of the executor the terminal
    ([executor.Broker]) answers a call from the calls made before it, so
    that two calls of one method need not be answered alike.  Logging is
    modelled where a property refers to what is reported: in
    [TrailingStopManager.update]. *)

From Stdlib Require Import QArith Qabs Lia Lqa.
From stdpp Require Import base option list gmap strings.

Set Default Proof Using "Type".
Local Open Scope Z_scope.

(** ** binary64 values, with exact arithmetic *)

Module Float64.

Inductive float64 : Type :=
| NaN
| Num (q : Q).

Definition of_Z (z : Z) : float64 := Num (inject_Z z).

Definition isnan (a : float64) : bool :=
  match a with NaN => true | Num _ => false end.

Definition lift2 (f : Q -> Q -> Q) (a b : float64) : float64 :=
  match a, b with
  | Num x, Num y => Num (f x y)
  | _, _ => NaN
  end.

Definition add : float64 -> float64 -> float64 := lift2 Qplus.
Definition sub : float64 -> float64 -> float64 := lift2 Qminus.
Definition mul : float64 -> float64 -> float64 := lift2 Qmult.

Definition neg (a : float64) : float64 :=
  match a with NaN => NaN | Num x => Num (- x) end.

Definition abs (a : float64) : float64 :=
  match a with NaN => NaN | Num x => Num (Qabs x) end.

(** numpy division.  IEEE gives NaN for 0/0 and NaN/0 and an infinity for
    any other zero divisor; infinities are outside this model, and the
    embedded code reaches a zero divisor only as 0/0 or NaN/0 (the mean
    of an empty slice, a smoothing step of period 0). *)
Definition div (a b : float64) : float64 :=
  match a, b with
  | Num x, Num y => if Qeq_bool y 0 then NaN else Num (x / y)
  | _, _ => NaN
  end.

(** Comparisons: every ordered comparison with a NaN operand is false. *)
Definition ltb (a b : float64) : bool :=
  match a, b with
  | Num x, Num y => negb (Qle_bool y x)
  | _, _ => false
  end.

Definition leb (a b : float64) : bool :=
  match a, b with
  | Num x, Num y => Qle_bool x y
  | _, _ => false
  end.

Definition eqb (a b : float64) : bool :=
  match a, b with
  | Num x, Num y => Qeq_bool x y
  | _, _ => false
  end.

Definition gtb (a b : float64) : bool := ltb b a.
Definition geb (a b : float64) : bool := leb b a.

(** [bool(x)] of a float: false exactly for zero; NaN is truthy. *)
Definition truthy (a : float64) : bool :=
  match a with
  | NaN => true
  | Num x => negb (Qeq_bool x 0)
  end.

(** Python's [max(a, b, c)]: keeps the earlier argument unless a later one
    compares strictly greater. *)
Definition max2 (a b : float64) : float64 := if gtb b a then b else a.
Definition max3 (a b c : float64) : float64 := max2 (max2 a b) c.

(** The same number, whatever the fraction that denotes it. *)
Definition same (a b : float64) : Prop :=
  match a, b with
  | NaN, NaN => True
  | Num x, Num y => Qeq x y
  | _, _ => False
  end.

End Float64.

Export Float64.

Declare Scope float64_scope.
Delimit Scope float64_scope with F.
Bind Scope float64_scope with float64.
Infix "+" := add : float64_scope.
Infix "-" := sub : float64_scope.
Infix "*" := mul : float64_scope.
Infix "/" := div : float64_scope.
Infix "<?" := ltb : float64_scope.
Infix "<=?" := leb : float64_scope.
Infix ">?" := gtb : float64_scope.
Infix ">=?" := geb : float64_scope.
Infix "=?" := eqb : float64_scope.

(** ** Python results, numpy arrays, loops *)

Module Py.

Inductive exn : Type :=
| IndexError
| ZeroDivisionError.

Inductive result (A : Type) : Type :=
| Ok (a : A)
| Raise (e : exn).
Arguments Ok {A} a.
Arguments Raise {A} e.

#[global] Instance result_ret : MRet result := fun A a => Ok a.
#[global] Instance result_bind : MBind result := fun A B f m =>
  match m with
  | Ok a => f a
  | Raise e => Raise e
  end.

(** [len(a)] as a Python int. *)
Definition len {A} (a : list A) : Z := Z.of_nat (length a).

(** The position a Python index denotes in a sequence of [n] items. *)
Definition norm_index (n : Z) (i : Z) : option nat :=
  let j := if i <? 0 then i + n else i in
  if (0 <=? j) && (j <? n) then Some (Z.to_nat j) else None.

(** [a[i]] *)
Definition getitem {A} (a : list A) (i : Z) : result A :=
  match norm_index (len a) i with
  | Some k =>
      match a !! k with
      | Some x => Ok x
      | None => Raise IndexError
      end
  | None => Raise IndexError
  end.

(** [a[i] = v] *)
Definition setitem {A} (a : list A) (i : Z) (v : A) : result (list A) :=
  match norm_index (len a) i with
  | Some k => Ok (<[k := v]> a)
  | None => Raise IndexError
  end.

(** A slice bound: negative bounds count from the end, all are clipped. *)
Definition slice_bound (n : Z) (i : Z) : nat :=
  Z.to_nat (if i <? 0 then Z.max 0 (i + n) else Z.min i n).

(** [a[start:stop]] *)
Definition slice {A} (a : list A) (start stop : Z) : list A :=
  let s := slice_bound (len a) start in
  let e := slice_bound (len a) stop in
  take (e - s)%nat (drop s a).

(** [a[:stop]] *)
Definition slice_to {A} (a : list A) (stop : Z) : list A := slice a 0 stop.

(** [for i in range(start, start + count): s = body(i, s)] *)
Fixpoint for_loop {S : Type} (start : Z) (count : nat)
    (body : Z -> S -> result S) (s : S) : result S :=
  match count with
  | O => Ok s
  | Datatypes.S count' =>
      match body start s with
      | Ok s' => for_loop (start + 1) count' body s'
      | Raise e => Raise e
      end
  end.

(** [for i in range(start, stop)] *)
Definition for_range {S : Type} (start stop : Z)
    (body : Z -> S -> result S) (s : S) : result S :=
  for_loop start (Z.to_nat (stop - start)) body s.

(** Python float division [a / b]: a zero divisor raises. *)
Definition py_div (a b : float64) : result float64 :=
  match b with
  | Num y => if Qeq_bool y 0 then Raise ZeroDivisionError else Ok (a / b)%F
  | NaN => Ok (a / b)%F
  end.

(** [np.full_like(a, np.nan)], [np.zeros(n)] *)
Definition full_nan {A} (a : list A) : list float64 := replicate (length a) NaN.
Definition zeros (n : Z) : list float64 := replicate (Z.to_nat n) (of_Z 0).

(** [np.mean(a)]: sum over count; NaN for an empty array. *)
Definition np_sum (a : list float64) : float64 := foldl add (of_Z 0) a.
Definition np_mean (a : list float64) : float64 := (np_sum a / of_Z (len a))%F.

(** [np.diff(a)] *)
Fixpoint np_diff (a : list float64) : list float64 :=
  match a with
  | x :: (y :: _) as tl => (y - x)%F :: np_diff tl
  | _ => []
  end.

End Py.

Export Py.

(** ** strategy/indicators.py *)

Module indicators.

Definition calculate_ema (data : list float64) (period : Z)
    : result (list float64) :=
  let ema := full_nan data in
  if len data <? period then Ok ema
  else
    ema ← setitem ema (period - 1) (np_mean (slice_to data period));
    multiplier ← py_div (of_Z 2) (of_Z (period + 1));
    for_range period (len data) (fun i ema =>
      d ← getitem data i;
      prev ← getitem ema (i - 1);
      setitem ema i ((d - prev) * multiplier + prev)%F) ema.

(** One RSI value from the running averages. *)
Definition rsi_value (avg_gain avg_loss : float64) : float64 :=
  if (avg_loss =? of_Z 0)%F then of_Z 100
  else
    let rs := (avg_gain / avg_loss)%F in
    (of_Z 100 - of_Z 100 / (of_Z 1 + rs))%F.

Definition calculate_rsi (data : list float64) (period : Z)
    : result (list float64) :=
  let rsi := full_nan data in
  if len data <? period + 1 then Ok rsi
  else
    let deltas := np_diff data in
    let gains := (fun d => if (d >? of_Z 0)%F then d else of_Z 0) <$> deltas in
    let losses := (fun d => if (d <? of_Z 0)%F then neg d else of_Z 0) <$> deltas in
    let avg_gain := np_mean (slice_to gains period) in
    let avg_loss := np_mean (slice_to losses period) in
    rsi ← setitem rsi period (rsi_value avg_gain avg_loss);
    '(_, _, rsi) ← for_range period (len deltas) (fun i '(avg_gain, avg_loss, rsi) =>
      g ← getitem gains i;
      avg_gain ← Ok ((avg_gain * of_Z (period - 1) + g) / of_Z period)%F;
      l ← getitem losses i;
      avg_loss ← Ok ((avg_loss * of_Z (period - 1) + l) / of_Z period)%F;
      rsi ← setitem rsi (i + 1) (rsi_value avg_gain avg_loss);
      Ok (avg_gain, avg_loss, rsi)) (avg_gain, avg_loss, rsi);
    Ok rsi.

Definition calculate_atr (high low close : list float64) (period : Z)
    : result (list float64) :=
  let atr := full_nan close in
  if len close <? period + 1 then Ok atr
  else
    let tr := zeros (len close) in
    h0 ← getitem high 0;
    l0 ← getitem low 0;
    tr ← setitem tr 0 (h0 - l0)%F;
    tr ← for_range 1 (len close) (fun i tr =>
      h ← getitem high i;
      l ← getitem low i;
      let hl := (h - l)%F in
      pc ← getitem close (i - 1);
      let hpc := abs (h - pc) in
      let lpc := abs (l - pc) in
      setitem tr i (max3 hl hpc lpc)) tr;
    atr ← setitem atr period (np_mean (slice tr 1 (period + 1)));
    for_range (period + 1) (len close) (fun i atr =>
      prev ← getitem atr (i - 1);
      t ← getitem tr i;
      setitem atr i ((prev * of_Z (period - 1) + t) / of_Z period)%F) atr.

End indicators.

(** ** strategy/signals.py *)

Module signals.

Inductive SignalType : Type :=
| NONE
| LONG
| SHORT.

Record Signal : Type := {
  signal_type : SignalType;
  entry_price : float64;
  ema_value : float64;
  rsi_value : float64
}.

Definition is_valid (s : Signal) : bool :=
  match signal_type s with
  | NONE => false
  | _ => true
  end.

Record SignalGenerator : Type := {
  ema_period : Z;
  rsi_period : Z;
  rsi_oversold : float64;
  rsi_overbought : float64
}.

(** [current_price if current_price else close_prices[-1]] *)
Definition current_close_of (close_prices : list float64)
    (current_price : option float64) : result float64 :=
  match current_price with
  | Some p => if truthy p then Ok p else getitem close_prices (-1)
  | None => getitem close_prices (-1)
  end.

Definition generate (self : SignalGenerator) (close_prices : list float64)
    (current_price : option float64) : result Signal :=
  if len close_prices <? Z.max (ema_period self) (rsi_period self) + 2 then
    Ok {| signal_type := NONE; entry_price := of_Z 0;
          ema_value := of_Z 0; rsi_value := of_Z 0 |}
  else
    ema ← indicators.calculate_ema close_prices (ema_period self);
    rsi ← indicators.calculate_rsi close_prices (rsi_period self);
    current_close ← current_close_of close_prices current_price;
    current_ema ← getitem ema (-1);
    current_rsi ← getitem rsi (-1);
    previous_rsi ← getitem rsi (-2);
    if isnan current_ema || isnan current_rsi || isnan previous_rsi then
      Ok {| signal_type := NONE; entry_price := current_close;
            ema_value := if negb (isnan current_ema) then current_ema else of_Z 0;
            rsi_value := if negb (isnan current_rsi) then current_rsi else of_Z 0 |}
    else
      let signal_type :=
        if (current_close >? current_ema)%F then
          if (previous_rsi <=? rsi_oversold self)%F
             && (rsi_oversold self <? current_rsi)%F then LONG else NONE
        else if (current_close <? current_ema)%F then
          if (previous_rsi >=? rsi_overbought self)%F
             && (rsi_overbought self >? current_rsi)%F then SHORT else NONE
        else NONE in
      Ok {| signal_type := signal_type; entry_price := current_close;
            ema_value := current_ema; rsi_value := current_rsi |}.

End signals.

(** ** strategy/risk_manager.py *)

Module risk_manager.

Import signals.

Record RiskLevels : Type := {
  stop_loss : float64;
  take_profit : float64;
  atr_value : float64;
  risk_distance : float64
}.

Record RiskManager : Type := {
  atr_period : Z;
  sl_multiplier : float64;
  tp_multiplier : float64
}.

Definition calculate_levels (self : RiskManager) (signal_type : SignalType)
    (entry_price : float64) (high_prices low_prices close_prices : list float64)
    : result (option RiskLevels) :=
  match signal_type with
  | NONE => Ok None
  | _ =>
      atr ← indicators.calculate_atr high_prices low_prices close_prices
              (atr_period self);
      current_atr ← getitem atr (-1);
      if isnan current_atr || (current_atr <=? of_Z 0)%F then Ok None
      else
        let sl_distance := (current_atr * sl_multiplier self)%F in
        let tp_distance := (current_atr * tp_multiplier self)%F in
        let '(stop_loss, take_profit) :=
          match signal_type with
          | LONG => ((entry_price - sl_distance)%F, (entry_price + tp_distance)%F)
          | _ => ((entry_price + sl_distance)%F, (entry_price - tp_distance)%F)
          end in
        Ok (Some {| stop_loss := stop_loss; take_profit := take_profit;
                    atr_value := current_atr; risk_distance := sl_distance |})
  end.

Record TrailingState : Type := {
  ticket : Z;
  ts_entry_price : float64;
  initial_sl : float64;
  current_sl : float64;
  ts_risk_distance : float64;
  is_breakeven : bool;
  is_trailing : bool
}.

Record TrailingStopManager : Type := {
  breakeven_rr : float64;
  trailing_atr_mult : float64;
  _positions : gmap Z TrailingState
}.

(** What [update] writes to the module logger. *)
Inductive log_record : Type :=
| WarningNotFound (ticket : Z)
| InfoBreakeven (ticket : Z) (entry : float64)
| InfoTrailing (ticket : Z) (old_sl new_sl : float64).

(** [TrailingStopManager(breakeven_rr, trailing_atr_mult)] *)
Definition new (breakeven_rr trailing_atr_mult : float64) : TrailingStopManager :=
  {| breakeven_rr := breakeven_rr; trailing_atr_mult := trailing_atr_mult;
     _positions := ∅ |}.

Definition with_positions (self : TrailingStopManager)
    (m : gmap Z TrailingState) : TrailingStopManager :=
  {| breakeven_rr := breakeven_rr self;
     trailing_atr_mult := trailing_atr_mult self;
     _positions := m |}.

Definition register_position (self : TrailingStopManager) (ticket : Z)
    (entry_price stop_loss risk_distance : float64) : TrailingStopManager :=
  with_positions self
    (<[ticket := {| ticket := ticket; ts_entry_price := entry_price;
                    initial_sl := stop_loss; current_sl := stop_loss;
                    ts_risk_distance := risk_distance;
                    is_breakeven := false; is_trailing := false |}]>
       (_positions self)).

Definition unregister_position (self : TrailingStopManager) (ticket : Z)
    : TrailingStopManager :=
  match _positions self !! ticket with
  | Some _ => with_positions self (delete ticket (_positions self))
  | None => self
  end.

Definition get_state (self : TrailingStopManager) (ticket : Z)
    : option TrailingState :=
  _positions self !! ticket.

Definition clear_all (self : TrailingStopManager) : TrailingStopManager :=
  with_positions self ∅.

(** [profit_distance / state.risk_distance if state.risk_distance > 0 else 0] *)
Definition profit_rr (state : TrailingState) (current_price : float64)
    (is_long : bool) : float64 :=
  let profit_distance :=
    if is_long then (current_price - ts_entry_price state)%F
    else (ts_entry_price state - current_price)%F in
  if (ts_risk_distance state >? of_Z 0)%F
  then (profit_distance / ts_risk_distance state)%F
  else of_Z 0.

(** [state.current_sl = v], with the breakeven flags as given; the state
    object lives in the dictionary, so the write is a write to the map. *)
Definition set_stop (state : TrailingState) (be tr : bool) (v : float64)
    : TrailingState :=
  {| ticket := ticket state; ts_entry_price := ts_entry_price state;
     initial_sl := initial_sl state; current_sl := v;
     ts_risk_distance := ts_risk_distance state;
     is_breakeven := be; is_trailing := tr |}.

(** The result is the returned value, the manager after the call and what
    was logged. *)
Definition update (self : TrailingStopManager) (ticket : Z)
    (current_price current_atr : float64) (is_long : bool)
    : option float64 * TrailingStopManager * list log_record :=
  match _positions self !! ticket with
  | None => (None, self, [WarningNotFound ticket])
  | Some state =>
      if negb (is_breakeven state)
         && (profit_rr state current_price is_long >=? breakeven_rr self)%F
      then
        let state' := set_stop state true true (ts_entry_price state) in
        (Some (ts_entry_price state),
         with_positions self (<[ticket := state']> (_positions self)),
         [InfoBreakeven ticket (ts_entry_price state)])
      else if is_trailing state then
        let trailing_distance := (current_atr * trailing_atr_mult self)%F in
        if is_long then
          let potential_sl := (current_price - trailing_distance)%F in
          if (potential_sl >? current_sl state)%F then
            let state' :=
              set_stop state (is_breakeven state) (is_trailing state) potential_sl in
            (Some potential_sl,
             with_positions self (<[ticket := state']> (_positions self)),
             [InfoTrailing ticket (current_sl state) potential_sl])
          else (None, self, [])
        else
          let potential_sl := (current_price + trailing_distance)%F in
          if (potential_sl <? current_sl state)%F then
            let state' :=
              set_stop state (is_breakeven state) (is_trailing state) potential_sl in
            (Some potential_sl,
             with_positions self (<[ticket := state']> (_positions self)),
             [InfoTrailing ticket (current_sl state) potential_sl])
          else (None, self, [])
      else (None, self, [])
  end.

End risk_manager.

(** ** The MetaTrader5 terminal, as the program sees it *)

Module mt5.

(** Constants of the MetaTrader5 package. *)
Definition ORDER_TYPE_BUY : Z := 0.
Definition ORDER_TYPE_SELL : Z := 1.
Definition TRADE_ACTION_DEAL : Z := 1.
Definition ORDER_TIME_GTC : Z := 0.
Definition ORDER_FILLING_IOC : Z := 1.
Definition TRADE_RETCODE_DONE : Z := 10009.

Record AccountInfo : Type := { equity : float64 }.

Record TradePosition : Type := {
  pos_ticket : Z;
  pos_symbol : string;
  pos_type : Z;
  pos_volume : float64;
  pos_price_open : float64;
  pos_sl : float64;
  pos_tp : float64;
  pos_profit : float64;
  pos_magic : Z
}.

Record Tick : Type := { bid : float64; ask : float64 }.

Record Rate : Type := {
  rate_open : float64;
  rate_high : float64;
  rate_low : float64;
  rate_close : float64;
  rate_time : Z
}.

(** The request dictionary handed to [order_send] by the kill switch. *)
Record TradeRequest : Type := {
  req_action : Z;
  req_position : Z;
  req_symbol : string;
  req_volume : float64;
  req_type : Z;
  req_price : float64;
  req_deviation : Z;
  req_magic : Z;
  req_comment : string;
  req_type_time : Z;
  req_type_filling : Z
}.

Record OrderSendResult : Type := { retcode : Z }.

(** The answers of the terminal.  The last field is the order method of
    [MT5Executor], the brokerage boundary of the design: the ticket that
    [open_position] returns for an order, if any. *)
Record Terminal : Type := {
  account_info : option AccountInfo;
  positions_get : option (list TradePosition);
  positions_get_symbol : string -> option (list TradePosition);
  symbol_info_tick : string -> option Tick;
  order_send : TradeRequest -> option OrderSendResult;
  copy_rates_from_pos : option (list Rate);
  open_position : string -> bool -> float64 -> float64 -> float64 -> option Z
}.

(** The calls made on the terminal, in order. *)
Inductive call : Type :=
| AccountInfoCall
| PositionsGetCall
| PositionsGetSymbolCall (symbol : string)
| SymbolInfoTickCall (symbol : string)
| OrderSendCall (request : TradeRequest)
| CopyRatesCall
| ModifyPositionCall (ticket : Z) (stop_loss : float64)
| OpenPositionCall (symbol : string) (is_long : bool)
    (volume stop_loss take_profit : float64).

End mt5.

(** ** strategy/kill_switch.py *)

Module kill_switch.

Import mt5.

Record KillSwitch : Type := {
  drawdown_limit : float64;
  magic_number : Z;
  _starting_equity : option float64;
  _is_triggered : bool;
  _is_initialized : bool
}.

(** [KillSwitch(drawdown_limit=0.05, magic_number=0)] *)
Definition new (drawdown_limit : float64) (magic_number : Z) : KillSwitch :=
  {| drawdown_limit := drawdown_limit; magic_number := magic_number;
     _starting_equity := None; _is_triggered := false;
     _is_initialized := false |}.

(** The constructor defaults [0.05] and [0].  A float literal of the
    program stands here for the decimal it is written as.  The binary64
    nearest to 0.05 lies a little above 1/20; the rounded quotient
    500/10000 is that same binary64, so the comparison at an equity of
    9500 comes out in the program as it does here. *)
Definition default_drawdown_limit : float64 := Num (5 # 100).
Definition default_magic_number : Z := 0.

Definition set_triggered (self : KillSwitch) : KillSwitch :=
  {| drawdown_limit := drawdown_limit self; magic_number := magic_number self;
     _starting_equity := _starting_equity self; _is_triggered := true;
     _is_initialized := _is_initialized self |}.

Definition initialize (t : Terminal) (self : KillSwitch)
    : bool * KillSwitch * list call :=
  match account_info t with
  | None => (false, self, [AccountInfoCall])
  | Some info =>
      (true,
       {| drawdown_limit := drawdown_limit self;
          magic_number := magic_number self;
          _starting_equity := Some (equity info);
          _is_triggered := false; _is_initialized := true |},
       [AccountInfoCall])
  end.

Definition check (t : Terminal) (self : KillSwitch)
    : result (bool * KillSwitch * list call) :=
  if _is_triggered self then Ok (true, self, [])
  else
    match _is_initialized self, _starting_equity self with
    | true, Some starting_equity =>
        match account_info t with
        | None => Ok (true, set_triggered self, [AccountInfoCall])
        | Some info =>
            drawdown ← py_div (starting_equity - equity info)%F starting_equity;
            if (drawdown >=? drawdown_limit self)%F
            then Ok (true, set_triggered self, [AccountInfoCall])
            else Ok (false, self, [AccountInfoCall])
        end
    | _, _ => Ok (false, self, [])
    end.

(** The closing order for a position at a tick. *)
Definition close_request (pos : TradePosition) (tick : Tick) : TradeRequest :=
  let close_type :=
    if pos_type pos =? ORDER_TYPE_BUY then ORDER_TYPE_SELL else ORDER_TYPE_BUY in
  let price := if pos_type pos =? ORDER_TYPE_BUY then bid tick else ask tick in
  {| req_action := TRADE_ACTION_DEAL;
     req_position := pos_ticket pos;
     req_symbol := pos_symbol pos;
     req_volume := pos_volume pos;
     req_type := close_type;
     req_price := price;
     req_deviation := 50;
     req_magic := pos_magic pos;
     req_comment := "KILL SWITCH";
     req_type_time := ORDER_TIME_GTC;
     req_type_filling := ORDER_FILLING_IOC |}.

(** One turn of the loop of [execute_kill]: the count so far and the calls
    so far, after [pos]. *)
Definition kill_one (t : Terminal) (self : KillSwitch)
    (acc : Z * list call) (pos : TradePosition) : Z * list call :=
  let '(closed_count, calls) := acc in
  if (magic_number self >? 0) && negb (pos_magic pos =? magic_number self)
  then (closed_count, calls)
  else
    match symbol_info_tick t (pos_symbol pos) with
    | None => (closed_count, calls ++ [SymbolInfoTickCall (pos_symbol pos)])
    | Some tick =>
        let request := close_request pos tick in
        let calls :=
          calls ++ [SymbolInfoTickCall (pos_symbol pos); OrderSendCall request] in
        match order_send t request with
        | Some r =>
            if retcode r =? TRADE_RETCODE_DONE
            then (closed_count + 1, calls)
            else (closed_count, calls)
        | None => (closed_count, calls)
        end
    end.

(** Returns the count, the kill switch (which the method never writes) and
    the calls made. *)
Definition execute_kill (t : Terminal) (self : KillSwitch)
    : Z * KillSwitch * list call :=
  if negb (_is_triggered self) then (0, self, [])
  else
    match positions_get t with
    | None => (0, self, [PositionsGetCall])
    | Some positions =>
        let '(closed_count, calls) :=
          foldl (kill_one t self) (0, [PositionsGetCall]) positions in
        (closed_count, self, calls)
    end.

End kill_switch.

(** ** config.py: the strategy settings *)

Module config.

Definition SYMBOL : string := "EURUSD".
Definition MAGIC_NUMBER : Z := 234000.
Definition LOT_SIZE : float64 := Num (1 # 100).
Definition EMA_PERIOD : Z := 200.
Definition RSI_PERIOD : Z := 14.
Definition ATR_PERIOD : Z := 14.
Definition RSI_OVERSOLD : float64 := of_Z 30.
Definition RSI_OVERBOUGHT : float64 := of_Z 70.
Definition ATR_SL_MULTIPLIER : float64 := Num (15 # 10).
Definition ATR_TP_MULTIPLIER : float64 := of_Z 2.
Definition TRAILING_ATR_MULTIPLIER : float64 := of_Z 1.
Definition BREAKEVEN_RR_RATIO : float64 := of_Z 1.
Definition EQUITY_DRAWDOWN_LIMIT : float64 := Num (5 # 100).

End config.

(** ** main.py: [TradingBot] and its per-bar handler *)

Module main.

Import mt5 signals.

(** The part of [MT5Executor] that [on_bar] reads. *)
Record PositionInfo : Type := {
  pi_ticket : Z;
  pi_type : Z;
  pi_magic : Z
}.

Definition is_long (p : PositionInfo) : bool := pi_type p =? ORDER_TYPE_BUY.

(** [MT5Executor.get_open_positions(symbol)] for a non-empty symbol. *)
Definition get_open_positions (t : Terminal) (magic_number : Z) (symbol : string)
    : list PositionInfo :=
  match positions_get_symbol t symbol with
  | None => []
  | Some positions =>
      (fun pos => {| pi_ticket := pos_ticket pos; pi_type := pos_type pos;
                     pi_magic := pos_magic pos |})
        <$> filter (fun pos => pos_magic pos = magic_number) positions
  end.

Record TradingBot : Type := {
  signal_generator : SignalGenerator;
  the_risk_manager : risk_manager.RiskManager;
  trailing_manager : risk_manager.TrailingStopManager;
  executor_magic_number : Z;
  the_kill_switch : kill_switch.KillSwitch;
  _is_running : bool
}.

(** [TradingBot()]: every component is built from [config]. *)
Definition new : TradingBot :=
  {| signal_generator :=
       {| ema_period := config.EMA_PERIOD; rsi_period := config.RSI_PERIOD;
          rsi_oversold := config.RSI_OVERSOLD;
          rsi_overbought := config.RSI_OVERBOUGHT |};
     the_risk_manager :=
       {| risk_manager.atr_period := config.ATR_PERIOD;
          risk_manager.sl_multiplier := config.ATR_SL_MULTIPLIER;
          risk_manager.tp_multiplier := config.ATR_TP_MULTIPLIER |};
     trailing_manager :=
       risk_manager.new config.BREAKEVEN_RR_RATIO config.TRAILING_ATR_MULTIPLIER;
     executor_magic_number := config.MAGIC_NUMBER;
     the_kill_switch :=
       kill_switch.new config.EQUITY_DRAWDOWN_LIMIT config.MAGIC_NUMBER;
     _is_running := false |}.

Definition with_trailing (self : TradingBot)
    (tm : risk_manager.TrailingStopManager) : TradingBot :=
  {| signal_generator := signal_generator self;
     the_risk_manager := the_risk_manager self;
     trailing_manager := tm;
     executor_magic_number := executor_magic_number self;
     the_kill_switch := the_kill_switch self;
     _is_running := _is_running self |}.

Definition with_kill_switch (self : TradingBot) (ks : kill_switch.KillSwitch)
    (running : bool) : TradingBot :=
  {| signal_generator := signal_generator self;
     the_risk_manager := the_risk_manager self;
     trailing_manager := trailing_manager self;
     executor_magic_number := executor_magic_number self;
     the_kill_switch := ks;
     _is_running := running |}.

(** [fetch_ohlc_data()]: the high, low and close columns. *)
Definition fetch_ohlc_data (t : Terminal)
    : option (list float64 * list float64 * list float64) :=
  match copy_rates_from_pos t with
  | None => None
  | Some [] => None
  | Some rates =>
      Some (rate_high <$> rates, rate_low <$> rates, rate_close <$> rates)
  end.

(** [atr[-1] if not np.isnan(atr[-1]) else 0] *)
Definition current_atr_of (atr : list float64) : result float64 :=
  last_atr ← getitem atr (-1);
  Ok (if negb (isnan last_atr) then last_atr else of_Z 0).

(** One turn of the position loop of step 3. *)
Definition manage_one (current_price current_atr : float64)
    (acc : risk_manager.TrailingStopManager * list call) (pos : PositionInfo)
    : risk_manager.TrailingStopManager * list call :=
  let '(tm, calls) := acc in
  let '(new_sl, tm', _) :=
    risk_manager.update tm (pi_ticket pos) current_price current_atr (is_long pos) in
  match new_sl with
  | Some v => (tm', calls ++ [ModifyPositionCall (pi_ticket pos) v])
  | None => (tm', calls)
  end.

(** Steps 4 and 5, reached with no open position. *)
Definition enter_trade (t : Terminal) (self : TradingBot)
    (high_prices low_prices close_prices : list float64)
    (current_price : float64) (calls : list call)
    : result (TradingBot * list call) :=
  signal ← generate (signal_generator self) close_prices (Some current_price);
  if negb (is_valid signal) then Ok (self, calls)
  else
    risk_levels ← risk_manager.calculate_levels (the_risk_manager self)
                    (signal_type signal) (entry_price signal)
                    high_prices low_prices close_prices;
    match risk_levels with
    | None => Ok (self, calls)
    | Some levels =>
        let long :=
          match signal_type signal with LONG => true | _ => false end in
        let calls :=
          calls ++ [OpenPositionCall config.SYMBOL long config.LOT_SIZE
                      (risk_manager.stop_loss levels)
                      (risk_manager.take_profit levels)] in
        match open_position t config.SYMBOL long config.LOT_SIZE
                (risk_manager.stop_loss levels)
                (risk_manager.take_profit levels) with
        | Some ticket =>
            if ticket =? 0 then Ok (self, calls)
            else
              Ok (with_trailing self
                    (risk_manager.register_position (trailing_manager self)
                       ticket (entry_price signal)
                       (risk_manager.stop_loss levels)
                       (risk_manager.risk_distance levels)),
                  calls)
        | None => Ok (self, calls)
        end
    end.

Definition on_bar (t : Terminal) (self : TradingBot)
    : result (TradingBot * list call) :=
  '(triggered, ks, calls) ← kill_switch.check t (the_kill_switch self);
  if triggered : bool then
    let '(_, ks, kcalls) := kill_switch.execute_kill t ks in
    Ok (with_kill_switch self ks false, calls ++ kcalls)
  else
    let self := with_kill_switch self ks (_is_running self) in
    let calls := calls ++ [CopyRatesCall] in
    match fetch_ohlc_data t with
    | None => Ok (self, calls)
    | Some (high_prices, low_prices, close_prices) =>
        current_price ← getitem close_prices (-1);
        atr ← indicators.calculate_atr high_prices low_prices close_prices
                config.ATR_PERIOD;
        current_atr ← current_atr_of atr;
        let positions :=
          get_open_positions t (executor_magic_number self) config.SYMBOL in
        let calls := calls ++ [PositionsGetSymbolCall config.SYMBOL] in
        let '(tm, calls) :=
          foldl (manage_one current_price current_atr)
            (trailing_manager self, calls) positions in
        let self := with_trailing self tm in
        if 0 <? len positions then Ok (self, calls)
        else enter_trade t self high_prices low_prices close_prices
               current_price calls
    end.

End main.

(** ** Sequences of [update] calls *)

Module updates.

Import risk_manager.

(** The arguments of one call [update(ticket, current_price, current_atr,
    is_long)]. *)
Record call : Type := {
  c_ticket : Z;
  c_price : float64;
  c_atr : float64;
  c_long : bool
}.

Definition outcome : Type :=
  (option float64 * TrailingStopManager * list log_record)%type.

Definition step (self : TrailingStopManager) (c : call) : outcome :=
  update self (c_ticket c) (c_price c) (c_atr c) (c_long c).

Definition after (self : TrailingStopManager) (c : call) : TrailingStopManager :=
  (step self c).1.2.

(** The manager after a sequence of calls. *)
Definition run (self : TrailingStopManager) (cs : list call)
    : TrailingStopManager :=
  foldl after self cs.

(** What each call of a sequence produced. *)
Fixpoint outcomes (self : TrailingStopManager) (cs : list call) : list outcome :=
  match cs with
  | [] => []
  | c :: cs => step self c :: outcomes (after self c) cs
  end.

(** The stop stored for a ticket. *)
Definition stop_of (self : TrailingStopManager) (t : Z) : option float64 :=
  current_sl <$> get_state self t.

(** [b] lies strictly in the profit direction from [a]: above it for a
    long position, below it for a short one; and the weak version. *)
Definition beyond (is_long : bool) (a b : float64) : bool :=
  if is_long then (a <? b)%F else (b <? a)%F.

Definition not_behind (is_long : bool) (a b : float64) : bool :=
  if is_long then (a <=? b)%F else (b <=? a)%F.

(** The calls on ticket [t] all pass the direction [l]. *)
Definition same_direction (t : Z) (l : bool) (cs : list call) : Prop :=
  Forall (fun c => c_ticket c = t -> c_long c = l) cs.

(** The breakeven branch ran for ticket [t] in this call. *)
Definition fired (t : Z) (o : outcome) : bool :=
  match o.2 with
  | [InfoBreakeven t' _] => t' =? t
  | _ => false
  end.

(** The state [register_position] stores. *)
Definition fresh (t : Z) (entry stop rd : float64) : TrailingState :=
  {| ticket := t; ts_entry_price := entry; initial_sl := stop;
     current_sl := stop; ts_risk_distance := rd;
     is_breakeven := false; is_trailing := false |}.

(** The call is on [t] and its profit ratio reaches the threshold. *)
Definition qualifies (rr : float64) (s : TrailingState)
    (t : Z) (c : call) : bool :=
  (c_ticket c =? t)
  && (profit_rr s (c_price c) (c_long c) >=? rr)%F.

(** What the stop stored for a position satisfies, for a position of
    direction [l], from registration on: it is a number, and until
    breakeven the position is not trailing and the entry price lies
    strictly beyond the stop. *)
Definition stop_inv (l : bool) (s : TrailingState) : Prop :=
  isnan (current_sl s) = false /\
  (is_breakeven s = false ->
     is_trailing s = false /\ beyond l (current_sl s) (ts_entry_price s) = true).

(** The position of ticket [t] in [m] still has the entry price and the
    risk distance of [s0], its breakeven flag is [be], and the threshold of
    [m] is [rr]. *)
Definition tracks (rr : float64) (t : Z) (s0 : TrailingState)
    (m : TrailingStopManager) (be : bool) : Prop :=
  breakeven_rr m = rr /\
  exists s,
    get_state m t = Some s /\
    ts_entry_price s = ts_entry_price s0 /\
    ts_risk_distance s = ts_risk_distance s0 /\
    is_breakeven s = be.

End updates.

(** ** Reading the trace of terminal calls *)

Module traces.

Import mt5.

(** The order requests of a trace, in the order they were sent. *)
Definition orders_sent (calls : list call) : list TradeRequest :=
  omap (fun c => match c with OrderSendCall r => Some r | _ => None end) calls.

(** The closing order [execute_kill] sends for a position, when the
    terminal has a tick for its symbol. *)
Definition closing (t : Terminal) (pos : TradePosition) : option TradeRequest :=
  kill_switch.close_request pos <$> symbol_info_tick t (pos_symbol pos).

(** The stop modifications of a trace. *)
Definition modifications (calls : list call) : list (Z * float64) :=
  omap (fun c => match c with
                 | ModifyPositionCall ticket v => Some (ticket, v)
                 | _ => None
                 end) calls.

End traces.

(** ** Concrete runs used below *)

Module scenarios.

Import risk_manager updates.

(** A decimal literal [n / 10^k]. *)
Definition dec (n : Z) (k : positive) : float64 := Num (n # 10 ^ k).

(** [TrailingStopManager()] with its default arguments 1.0 and 1.0. *)
Definition tsm : TrailingStopManager := new (of_Z 1) (of_Z 1).

(** A long position: entry 100, stop 95, risk distance 5. *)
Definition tsm_long : TrailingStopManager :=
  register_position tsm 1 (of_Z 100) (of_Z 95) (of_Z 5).

(** The same entry, registered with a stop above it. *)
Definition tsm_stop_above : TrailingStopManager :=
  register_position tsm 1 (of_Z 100) (of_Z 105) (of_Z 5).

Definition call_at (t price atr : Z) (l : bool) : call :=
  {| c_ticket := t; c_price := of_Z price; c_atr := of_Z atr; c_long := l |}.

(** A terminal: the equity it reports, the open positions, whether it has
    ticks, and the bars it returns.  Every order is answered "done". *)
Definition terminal (eq : option float64) (positions : list mt5.TradePosition)
    (ticks : bool) (rates : list mt5.Rate) : mt5.Terminal :=
  {| mt5.account_info := (fun e => {| mt5.equity := e |}) <$> eq;
     mt5.positions_get := Some positions;
     mt5.positions_get_symbol := fun sym =>
       Some (filter (fun pos => mt5.pos_symbol pos = sym) positions);
     mt5.symbol_info_tick := fun _ =>
       if ticks then Some {| mt5.bid := dec 110000 5; mt5.ask := dec 110010 5 |}
       else None;
     mt5.order_send := fun _ => Some {| mt5.retcode := mt5.TRADE_RETCODE_DONE |};
     mt5.copy_rates_from_pos := Some rates;
     mt5.open_position := fun _ _ _ _ _ => Some 42 |}.

(** An open buy position of 0.01 lots on a symbol, with a magic number. *)
Definition position (ticket : Z) (symbol : string) (magic : Z) : mt5.TradePosition :=
  {| mt5.pos_ticket := ticket; mt5.pos_symbol := symbol;
     mt5.pos_type := mt5.ORDER_TYPE_BUY; mt5.pos_volume := dec 1 2;
     mt5.pos_price_open := dec 110000 5; mt5.pos_sl := dec 109700 5;
     mt5.pos_tp := dec 110400 5; mt5.pos_profit := of_Z 0;
     mt5.pos_magic := magic |}.

(** A kill switch built with the constructor defaults, armed at an equity
    of 10000; and the same after it has triggered. *)
Definition armed : kill_switch.KillSwitch :=
  (kill_switch.initialize (terminal (Some (of_Z 10000)) [] true [])
     (kill_switch.new kill_switch.default_drawdown_limit
        kill_switch.default_magic_number)).1.2.

Definition triggered : kill_switch.KillSwitch := kill_switch.set_triggered armed.

(** Two open positions, one of the strategy and one of another magic
    number; a terminal that has ticks for them, and one that has none. *)
Definition two_positions : list mt5.TradePosition :=
  [position 11 "EURUSD" 234000; position 12 "GBPUSD" 777].

Definition terminal_ticks : mt5.Terminal :=
  terminal (Some (of_Z 9400)) two_positions true [].

Definition terminal_no_ticks : mt5.Terminal :=
  terminal (Some (of_Z 9400)) two_positions false [].

(** A signal generator with both periods 1 and the default thresholds.
    With an EMA period of 1 the EMA is the price itself. *)
Definition generator_1 : signals.SignalGenerator :=
  {| signals.ema_period := 1; signals.rsi_period := 1;
     signals.rsi_oversold := of_Z 30; signals.rsi_overbought := of_Z 70 |}.

(** Closes 3, 1, 2: the RSI of period 1 goes from 0 to 100 at the last bar. *)
Definition closes_312 : list float64 := [of_Z 3; of_Z 1; of_Z 2].

(** Fifteen bars, each with high 1.102, low 1.100 and close 1.101: every
    true range is 0.002, and so is the ATR of period 14. *)
Definition flat_bar : mt5.Rate :=
  {| mt5.rate_open := dec 1101 3; mt5.rate_high := dec 1102 3;
     mt5.rate_low := dec 1100 3; mt5.rate_close := dec 1101 3;
     mt5.rate_time := 0 |}.

Definition flat_bars : list mt5.Rate := replicate 15 flat_bar.

(** The risk manager of the bot (ATR 14, stop 1.5, target 2.0), and one
    with a negative stop multiplier. *)
Definition rm_default : risk_manager.RiskManager := main.the_risk_manager main.new.

Definition rm_negative : risk_manager.RiskManager :=
  {| risk_manager.atr_period := 14;
     risk_manager.sl_multiplier := Num (- 15 # 10);
     risk_manager.tp_multiplier := of_Z 2 |}.

(** Three bars only, closing at 1.10, 1.11 and 1.12: too few for an ATR of
    period 14. *)
Definition bar (close : float64) : mt5.Rate :=
  {| mt5.rate_open := close; mt5.rate_high := (close + dec 1 3)%F;
     mt5.rate_low := (close - dec 1 3)%F; mt5.rate_close := close;
     mt5.rate_time := 0 |}.

Definition three_bars : list mt5.Rate := [bar (dec 110 2); bar (dec 111 2); bar (dec 112 2)].

(** The long position 7 of the strategy, entered at 1.10 with its stop at
    1.097, after the update at 1.11 that moved it to breakeven: its stop is
    1.10 and it is trailing. *)
Definition tsm_trailing : TrailingStopManager :=
  (update (register_position (main.trailing_manager main.new) 7
             (dec 110 2) (dec 1097 3) (dec 3 3))
     7 (dec 111 2) (dec 2 3) true).1.2.

Definition terminal_three_bars : mt5.Terminal :=
  terminal (Some (of_Z 10000)) [position 7 "EURUSD" 234000] true three_bars.

(** The bot with that position, its kill switch armed as [run] arms it. *)
Definition bot_trailing : main.TradingBot :=
  main.with_kill_switch (main.with_trailing main.new tsm_trailing)
    (kill_switch.initialize terminal_three_bars
       (main.the_kill_switch main.new)).1.2
    true.

End scenarios.

(** ** Counting answers *)

Module accounting.

Import mt5.

(** The terminal answers the order [r] with the return code "done". *)
Definition answered_done (t : Terminal) (r : TradeRequest) : bool :=
  match order_send t r with
  | Some res => retcode res =? TRADE_RETCODE_DONE
  | None => false
  end.

(** The position [execute_kill] turns into an order, if any: the magic
    filter first, then the tick. *)
Definition kill_order (t : Terminal) (self : kill_switch.KillSwitch)
    (pos : TradePosition) : option TradeRequest :=
  if (kill_switch.magic_number self >? 0)
     && negb (pos_magic pos =? kill_switch.magic_number self)
  then None else traces.closing t pos.

End accounting.

(** ** Reading the trace of a bar *)

Module bar_trace.

Import mt5.

(** The positions a trace asked the executor to open. *)
Definition opened (calls : list call)
    : list (string * bool * float64 * float64 * float64) :=
  omap (fun c => match c with
                 | OpenPositionCall symbol is_long volume sl tp =>
                     Some (symbol, is_long, volume, sl, tp)
                 | _ => None
                 end) calls.

(** The trace asked for bars. *)
Definition fetched (calls : list call) : bool :=
  existsb (fun c => match c with CopyRatesCall => true | _ => false end) calls.

(** The tickets of the open positions of the strategy, as [on_bar] gets
    them from the executor. *)
Definition open_tickets (t : Terminal) (self : main.TradingBot) : list Z :=
  main.pi_ticket <$>
    main.get_open_positions t (main.executor_magic_number self) config.SYMBOL.

End bar_trace.

(** ** More concrete runs *)

Module more_scenarios.

Import scenarios.

(** A bot with short periods: EMA 2, RSI 1, ATR 1 for the risk levels; the
    other settings as in [config]; no position registered; its kill switch
    armed at 10000. *)
Definition bot_short_periods : main.TradingBot :=
  {| main.signal_generator :=
       {| signals.ema_period := 2; signals.rsi_period := 1;
          signals.rsi_oversold := config.RSI_OVERSOLD;
          signals.rsi_overbought := config.RSI_OVERBOUGHT |};
     main.the_risk_manager :=
       {| risk_manager.atr_period := 1;
          risk_manager.sl_multiplier := config.ATR_SL_MULTIPLIER;
          risk_manager.tp_multiplier := config.ATR_TP_MULTIPLIER |};
     main.trailing_manager := tsm;
     main.executor_magic_number := config.MAGIC_NUMBER;
     main.the_kill_switch := armed;
     main._is_running := true |}.

(** Four bars closing at 3, 3, 1 and 2: the last close is above the EMA of
    period 2 and the RSI of period 1 goes from 0 to 100.  No position is
    open, and the executor answers an order with ticket 42. *)
Definition terminal_four_bars : mt5.Terminal :=
  terminal (Some (of_Z 10000)) [] true
    [bar (of_Z 3); bar (of_Z 3); bar (of_Z 1); bar (of_Z 2)].

(** An account without funds: the terminal reports an equity of 0; and the
    kill switch, built with the constructor defaults, that [initialize]
    arms on it. *)
Definition terminal_no_funds : mt5.Terminal :=
  terminal (Some (of_Z 0)) [] true [].

Definition armed_at_zero : kill_switch.KillSwitch :=
  (kill_switch.initialize terminal_no_funds
     (kill_switch.new kill_switch.default_drawdown_limit
        kill_switch.default_magic_number)).1.2.

End more_scenarios.

(** ** Ranges of values *)

Module ranges.

(** [0 <= v], which holds of numbers only. *)
Definition nonneg (v : float64) : Prop := (of_Z 0 <=? v)%F = true.

(** No value of the array is NaN. *)
Definition nan_free (a : list float64) : Prop :=
  Forall (fun v => isnan v = false) a.

(** Values and periods for which the indicators stay away from the largest
    binary64 (about 2^1024): a finite number of magnitude at most 2^1000,
    and a period of at most 2^20.  A sum of [period] such values, a
    difference of two of them and a smoothing step over them do not
    overflow.  In this model, which has no infinity, the bounds change no
    computation; they mark the inputs for which the binary64 program
    computes without an infinity, as the model does. *)
Definition magnitude_bound : Q := inject_Z (2 ^ 1000).
Definition period_bound : Z := 2 ^ 20.

Definition moderate (v : float64) : bool :=
  match v with
  | NaN => false
  | Num q => Qle_bool (Qabs q) magnitude_bound
  end.

Definition all_moderate (a : list float64) : Prop :=
  Forall (fun v => moderate v = true) a.

End ranges.

(** ** strategy/executor.py *)

Module executor.

Import mt5.

Definition TRADE_ACTION_SLTP : Z := 6.

Record SymbolInfo : Type := { visible : bool }.

(** The request dictionaries of the executor; a key that a request does
    not hold is [None]. *)
Record Request : Type := {
  rq_action : Z;
  rq_position : option Z;
  rq_symbol : string;
  rq_volume : option float64;
  rq_type : option Z;
  rq_price : option float64;
  rq_sl : option float64;
  rq_tp : option float64;
  rq_deviation : option Z;
  rq_magic : option Z;
  rq_comment : option string;
  rq_type_time : option Z;
  rq_type_filling : option Z
}.

Record OrderResult : Type := { res_retcode : Z; res_order : Z }.

(** The calls the executor makes on the terminal. *)
Inductive query : Type :=
| SymbolInfoQuery (symbol : string)
| SymbolSelectQuery (symbol : string) (enable : bool)
| TickQuery (symbol : string)
| PositionsQuery
| PositionsOfSymbolQuery (symbol : string)
| PositionOfTicketQuery (ticket : Z)
| OrderSendQuery (request : Request).

(** The terminal: what it answers to a call, given the calls made before
    it.  Two calls of one method need not be answered alike. *)
Record Broker : Type := {
  symbol_info : list query -> string -> option SymbolInfo;
  symbol_select : list query -> string -> bool -> bool;
  symbol_info_tick : list query -> string -> option Tick;
  positions_get : list query -> option (list TradePosition);
  positions_get_symbol : list query -> string -> option (list TradePosition);
  positions_get_ticket : list query -> Z -> option (list TradePosition);
  order_send : list query -> Request -> option OrderResult
}.

(** A method of the executor: from the calls made so far to its value and
    the calls made after it. *)
Definition M (A : Type) : Type := list query -> A * list query.

#[global] Instance M_ret : MRet M := fun A a h => (a, h).
#[global] Instance M_bind : MBind M := fun A B f m h =>
  let '(a, h') := m h in f a h'.

(** One call: the terminal answers from the history, the call joins it. *)
Definition mt5_call {A} (q : query) (answer : list query -> A) : M A :=
  fun h => (answer h, h ++ [q]).

Record MT5Executor : Type := {
  magic_number : Z;
  slippage : Z
}.

Record PositionInfo : Type := {
  info_ticket : Z;
  info_symbol : string;
  info_type : Z;
  info_volume : float64;
  info_price_open : float64;
  info_sl : float64;
  info_tp : float64;
  info_profit : float64;
  info_magic : Z
}.

Definition is_long (p : PositionInfo) : bool := info_type p =? ORDER_TYPE_BUY.

Definition open_position (b : Broker) (self : MT5Executor) (symbol : string)
    (is_long : bool) (volume stop_loss take_profit : float64) (comment : string)
    : M (option Z) :=
  info ← mt5_call (SymbolInfoQuery symbol) (fun h => symbol_info b h symbol);
  match info with
  | None => mret None
  | Some info =>
      selected ←
        (if negb (visible info)
         then mt5_call (SymbolSelectQuery symbol true)
                (fun h => symbol_select b h symbol true)
         else mret true);
      if negb selected then mret None
      else
        tick ← mt5_call (TickQuery symbol) (fun h => symbol_info_tick b h symbol);
        match tick with
        | None => mret None
        | Some tick =>
            let order_type := if is_long then ORDER_TYPE_BUY else ORDER_TYPE_SELL in
            let price := if is_long then ask tick else bid tick in
            let request :=
              {| rq_action := TRADE_ACTION_DEAL;
                 rq_position := None;
                 rq_symbol := symbol;
                 rq_volume := Some volume;
                 rq_type := Some order_type;
                 rq_price := Some price;
                 rq_sl := Some stop_loss;
                 rq_tp := Some take_profit;
                 rq_deviation := Some (slippage self);
                 rq_magic := Some (magic_number self);
                 rq_comment := Some comment;
                 rq_type_time := Some ORDER_TIME_GTC;
                 rq_type_filling := Some ORDER_FILLING_IOC |} in
            result ← mt5_call (OrderSendQuery request)
                       (fun h => order_send b h request);
            match result with
            | None => mret None
            | Some result =>
                if negb (res_retcode result =? TRADE_RETCODE_DONE) then mret None
                else mret (Some (res_order result))
            end
        end
  end.

(** [x if x is not None else d] *)
Definition or_current (x : option float64) (d : float64) : float64 :=
  match x with
  | Some v => v
  | None => d
  end.

Definition modify_position (b : Broker) (self : MT5Executor) (ticket : Z)
    (stop_loss take_profit : option float64) : M bool :=
  position ← mt5_call (PositionOfTicketQuery ticket)
               (fun h => positions_get_ticket b h ticket);
  match position with
  | None | Some [] => mret false
  | Some (position :: _) =>
      let new_sl := or_current stop_loss (pos_sl position) in
      let new_tp := or_current take_profit (pos_tp position) in
      if (new_sl =? pos_sl position)%F && (new_tp =? pos_tp position)%F
      then mret true
      else
        let request :=
          {| rq_action := TRADE_ACTION_SLTP;
             rq_position := Some ticket;
             rq_symbol := pos_symbol position;
             rq_volume := None;
             rq_type := None;
             rq_price := None;
             rq_sl := Some new_sl;
             rq_tp := Some new_tp;
             rq_deviation := None;
             rq_magic := None;
             rq_comment := None;
             rq_type_time := None;
             rq_type_filling := None |} in
        result ← mt5_call (OrderSendQuery request)
                   (fun h => order_send b h request);
        match result with
        | None => mret false
        | Some result =>
            if negb (res_retcode result =? TRADE_RETCODE_DONE) then mret false
            else mret true
        end
  end.

(** The closing request of [close_position] for a position at a tick. *)
Definition close_request (self : MT5Executor) (ticket : Z)
    (position : TradePosition) (tick : Tick) : Request :=
  let close_type :=
    if pos_type position =? ORDER_TYPE_BUY then ORDER_TYPE_SELL
    else ORDER_TYPE_BUY in
  let price :=
    if pos_type position =? ORDER_TYPE_BUY then bid tick else ask tick in
  {| rq_action := TRADE_ACTION_DEAL;
     rq_position := Some ticket;
     rq_symbol := pos_symbol position;
     rq_volume := Some (pos_volume position);
     rq_type := Some close_type;
     rq_price := Some price;
     rq_sl := None;
     rq_tp := None;
     rq_deviation := Some (slippage self);
     rq_magic := Some (magic_number self);
     rq_comment := Some "Close by strategy";
     rq_type_time := Some ORDER_TIME_GTC;
     rq_type_filling := Some ORDER_FILLING_IOC |}.

Definition close_position (b : Broker) (self : MT5Executor) (ticket : Z)
    : M bool :=
  position ← mt5_call (PositionOfTicketQuery ticket)
               (fun h => positions_get_ticket b h ticket);
  match position with
  | None | Some [] => mret false
  | Some (position :: _) =>
      tick ← mt5_call (TickQuery (pos_symbol position))
               (fun h => symbol_info_tick b h (pos_symbol position));
      match tick with
      | None => mret false
      | Some tick =>
          let request := close_request self ticket position tick in
          result ← mt5_call (OrderSendQuery request)
                     (fun h => order_send b h request);
          match result with
          | None => mret false
          | Some result =>
              if negb (res_retcode result =? TRADE_RETCODE_DONE) then mret false
              else mret true
          end
      end
  end.

Definition position_info (pos : TradePosition) : PositionInfo :=
  {| info_ticket := pos_ticket pos;
     info_symbol := pos_symbol pos;
     info_type := pos_type pos;
     info_volume := pos_volume pos;
     info_price_open := pos_price_open pos;
     info_sl := pos_sl pos;
     info_tp := pos_tp pos;
     info_profit := pos_profit pos;
     info_magic := pos_magic pos |}.

(** [if symbol:] is false for [None] and for the empty string. *)
Definition get_open_positions (b : Broker) (self : MT5Executor)
    (symbol : option string) : M (list PositionInfo) :=
  positions ←
    match symbol with
    | Some (String c s) =>
        mt5_call (PositionsOfSymbolQuery (String c s))
          (fun h => positions_get_symbol b h (String c s))
    | _ => mt5_call PositionsQuery (positions_get b)
    end;
  match positions with
  | None => mret []
  | Some positions =>
      mret (position_info
              <$> filter (fun pos => pos_magic pos = magic_number self) positions)
  end.

(** The loop of [close_all_positions]. *)
Fixpoint close_each (b : Broker) (self : MT5Executor)
    (positions : list PositionInfo) (closed_count : Z) : M Z :=
  match positions with
  | [] => mret closed_count
  | pos :: rest =>
      closed ← close_position b self (info_ticket pos);
      close_each b self rest
        (if closed : bool then closed_count + 1 else closed_count)
  end.

Definition close_all_positions (b : Broker) (self : MT5Executor)
    (symbol : option string) : M Z :=
  positions ← get_open_positions b self symbol;
  close_each b self positions 0.

(** The orders among the calls of a history. *)
Definition orders (h : list query) : list Request :=
  omap (fun q => match q with OrderSendQuery r => Some r | _ => None end) h.

End executor.

(** ** Concrete terminals for the executor *)

Module executor_scenarios.

Import mt5 executor scenarios.

(** [MT5Executor(magic_number=config.MAGIC_NUMBER, slippage=20)], as
    [TradingBot] builds it. *)
Definition the_executor : MT5Executor :=
  {| magic_number := config.MAGIC_NUMBER; slippage := 20 |}.

(** A terminal that holds the given positions, knows every symbol (visible
    or not), has a tick for every symbol, and answers the first order of a
    run with "done" and order number 42, every later one with a requote. *)
Definition broker (positions : list TradePosition) (shown : bool) : Broker :=
  {| symbol_info := fun _ _ => Some {| visible := shown |};
     symbol_select := fun _ _ _ => true;
     symbol_info_tick := fun _ _ =>
       Some {| bid := dec 110000 5; ask := dec 110010 5 |};
     positions_get := fun _ => Some positions;
     positions_get_symbol := fun _ sym =>
       Some (filter (fun pos => pos_symbol pos = sym) positions);
     positions_get_ticket := fun _ ticket =>
       Some (filter (fun pos => pos_ticket pos = ticket) positions);
     order_send := fun h _ =>
       match orders h with
       | [] => Some {| res_retcode := TRADE_RETCODE_DONE; res_order := 42 |}
       | _ => Some {| res_retcode := 10004; res_order := 0 |}
       end |}.

(** Three positions on EURUSD: two of the strategy, one of another magic
    number. *)
Definition three_positions : list TradePosition :=
  [position 11 "EURUSD" 234000; position 12 "EURUSD" 777;
   position 13 "EURUSD" 234000].

End executor_scenarios.

(** ** main.py: the polling loop of [TradingBot.run] *)

Module main_loop.

Import mt5 main.

(** [get_current_bar_time()], from the answer of the terminal to
    [copy_rates_from_pos(SYMBOL, TIMEFRAME, 0, 1)]. *)
Definition get_current_bar_time (rates : option (list Rate)) : option Z :=
  match rates with
  | None | Some [] => None
  | Some (r :: _) => Some (rate_time r)
  end.

(** What one turn of the loop finds: the answer to the question for the
    newest bar, and the terminal as [on_bar] sees it, if it is called. *)
Record Poll : Type := {
  newest : option (list Rate);
  at_bar : Terminal
}.

(** [current_bar_time and current_bar_time != self._last_bar_time] *)
Definition is_new_bar (current_bar_time last_bar_time : option Z) : bool :=
  match current_bar_time with
  | None => false
  | Some t => negb (t =? 0) && negb (bool_decide (last_bar_time = Some t))
  end.

(** The [while self._is_running] loop over the turns given; the turns run
    out where the user interrupts the program.  The state is the bot, its
    [_last_bar_time], and the calls of each bar processed so far. *)
Fixpoint run_loop (polls : list Poll) (self : TradingBot)
    (last_bar_time : option Z) (bars : list (list call))
    : result (TradingBot * option Z * list (list call)) :=
  if negb (_is_running self) then Ok (self, last_bar_time, bars)
  else
    match polls with
    | [] => Ok (self, last_bar_time, bars)
    | p :: polls =>
        let current_bar_time := get_current_bar_time (newest p) in
        if is_new_bar current_bar_time last_bar_time then
          '(self, calls) ← on_bar (at_bar p) self;
          run_loop polls self current_bar_time (bars ++ [calls])
        else run_loop polls self last_bar_time bars
    end.

(** [shutdown()], as far as the bot goes. *)
Definition shutdown (self : TradingBot) : TradingBot :=
  with_kill_switch self (the_kill_switch self) false.

(** [run()]: [t] is the terminal at the start, [first] its answer to the
    first question for the newest bar.  An exception leaves the loop
    through [finally] and goes on to the caller. *)
Definition run (t : Terminal) (first : option (list Rate)) (polls : list Poll)
    (self : TradingBot) : result (TradingBot * list (list call)) :=
  let '(initialized, ks, _) := kill_switch.initialize t (the_kill_switch self) in
  if negb initialized then Ok (with_kill_switch self ks (_is_running self), [])
  else
    let self := with_kill_switch self ks true in
    '(self, _, bars) ← run_loop polls self (get_current_bar_time first) [];
    Ok (shutdown self, bars).

End main_loop.

(** ** Concrete turns of the loop *)

Module loop_scenarios.

Import mt5 main main_loop scenarios.

(** The newest bar, with its time. *)
Definition newest_at (time : Z) : option (list Rate) :=
  Some [{| rate_open := of_Z 1; rate_high := of_Z 1; rate_low := of_Z 1;
           rate_close := of_Z 1; rate_time := time |}].

(** A turn that finds a new bar while the equity is down to 9400, and one
    that finds a later bar with the equity at 10000. *)
Definition poll_drawdown : Poll :=
  {| newest := newest_at 60; at_bar := terminal_ticks |}.

Definition poll_quiet : Poll :=
  {| newest := newest_at 120; at_bar := terminal_three_bars |}.

End loop_scenarios.

(** * Properties *)

(** ** Order facts on float64 *)

Section float64_order.

Implicit Types a b c : float64.

Lemma ltb_true a b :
  (a <? b)%F = true <-> exists x y, a = Num x /\ b = Num y /\ (x < y)%Q.
Proof.
  destruct a as [|x], b as [|y]; simpl; split;
    try discriminate; try (intros (? & ? & ? & ? & _); discriminate).
  - intros H. exists x, y. repeat split.
    apply negb_true_iff in H. apply Qnot_le_lt. intros Hle.
    apply Qle_bool_iff in Hle. congruence.
  - intros (x' & y' & Hx & Hy & Hlt). inversion Hx; inversion Hy; subst.
    apply negb_true_iff. destruct (Qle_bool y' x') eqn:E; [|reflexivity].
    apply Qle_bool_iff in E. exfalso. exact (Qlt_not_le _ _ Hlt E).
Qed.

Lemma leb_true a b :
  (a <=? b)%F = true <-> exists x y, a = Num x /\ b = Num y /\ (x <= y)%Q.
Proof.
  destruct a as [|x], b as [|y]; simpl; split;
    try discriminate; try (intros (? & ? & ? & ? & _); discriminate).
  - intros H. exists x, y. repeat split. by apply Qle_bool_iff.
  - intros (x' & y' & Hx & Hy & Hle). inversion Hx; inversion Hy; subst.
    by apply Qle_bool_iff.
Qed.

Lemma eqb_true a b :
  (a =? b)%F = true <-> exists x y, a = Num x /\ b = Num y /\ (x == y)%Q.
Proof.
  destruct a as [|x], b as [|y]; simpl; split;
    try discriminate; try (intros (? & ? & ? & ? & _); discriminate).
  - intros H. exists x, y. repeat split. by apply Qeq_bool_iff.
  - intros (x' & y' & Hx & Hy & Heq). inversion Hx; inversion Hy; subst.
    by apply Qeq_bool_iff.
Qed.

Lemma ltb_leb a b : (a <? b)%F = true -> (a <=? b)%F = true.
Proof.
  rewrite ltb_true, leb_true. intros (x & y & -> & -> & H).
  exists x, y. repeat split. by apply Qlt_le_weak.
Qed.

Lemma leb_refl_num x : (Num x <=? Num x)%F = true.
Proof. apply leb_true. exists x, x. repeat split. apply Qle_refl. Qed.

Lemma leb_trans a b c :
  (a <=? b)%F = true -> (b <=? c)%F = true -> (a <=? c)%F = true.
Proof.
  rewrite !leb_true. intros (x & y & -> & -> & H1) (y' & z & Hy & -> & H2).
  inversion Hy; subst. exists x, z. repeat split. by eapply Qle_trans.
Qed.

Lemma ltb_irrefl a : (a <? a)%F = false.
Proof.
  destruct (a <? a)%F eqn:E; [|reflexivity].
  apply ltb_true in E as (x & y & -> & Hy & H). inversion Hy; subst.
  exfalso. exact (Qlt_irrefl _ H).
Qed.

Lemma eqb_not_ltb a b : (a =? b)%F = true -> (a <? b)%F = false /\ (b <? a)%F = false.
Proof.
  rewrite eqb_true. intros (x & y & -> & -> & H). simpl.
  rewrite !negb_false_iff, !Qle_bool_iff. rewrite H. split; apply Qle_refl.
Qed.

Lemma ltb_not_nan_l a b : (a <? b)%F = true -> isnan a = false.
Proof. rewrite ltb_true. by intros (x & y & -> & _). Qed.

Lemma ltb_not_nan_r a b : (a <? b)%F = true -> isnan b = false.
Proof. rewrite ltb_true. by intros (x & y & _ & -> & _). Qed.

End float64_order.

(** ** TrailingStopManager *)

Section trailing.

Import risk_manager updates.

Implicit Types (self : TrailingStopManager) (s : TrailingState).

Lemma beyond_not_behind l a b : beyond l a b = true -> not_behind l a b = true.
Proof. destruct l; simpl; apply ltb_leb. Qed.

Lemma beyond_num l a b :
  beyond l a b = true -> isnan a = false /\ isnan b = false.
Proof.
  destruct l; simpl; intros H; split;
    eauto using ltb_not_nan_l, ltb_not_nan_r.
Qed.

Lemma not_behind_refl l a : isnan a = false -> not_behind l a a = true.
Proof. destruct a; [discriminate|]. intros _. destruct l; apply leb_refl_num. Qed.

Lemma not_behind_trans l a b c :
  not_behind l a b = true -> not_behind l b c = true -> not_behind l a c = true.
Proof. destruct l; simpl; eauto using leb_trans. Qed.

Lemma register_position_lookup self t entry stop rd :
  get_state (register_position self t entry stop rd) t = Some (fresh t entry stop rd).
Proof. unfold get_state, register_position; simpl. apply lookup_insert_eq. Qed.

(** A call on another ticket does not touch the position. *)
Lemma update_other self t t' p a l :
  t' <> t -> get_state (update self t' p a l).1.2 t = get_state self t.
Proof.
  intros Hne. unfold update, get_state.
  destruct (_positions self !! t') as [s'|]; [|done].
  repeat (case_match; simpl; try done); by rewrite lookup_insert_ne.
Qed.

(** One call on a position that satisfies the invariant. *)
Lemma update_step self t s p a l :
  get_state self t = Some s -> stop_inv l s ->
  exists s',
    get_state (update self t p a l).1.2 t = Some s' /\
    stop_inv l s' /\
    not_behind l (current_sl s) (current_sl s') = true /\
    match (update self t p a l).1.1 with
    | Some v => current_sl s' = v /\ beyond l (current_sl s) v = true
    | None => (update self t p a l).1.2 = self
    end.
Proof.
  unfold get_state. intros Hs [Hnum Hbe]. unfold update. rewrite Hs.
  destruct (negb (is_breakeven s) && _) eqn:Efire; simpl.
  - apply andb_true_iff in Efire as [Eb _]. apply negb_true_iff in Eb.
    destruct (Hbe Eb) as [_ Hbey].
    eexists. rewrite lookup_insert_eq. split; [reflexivity|]. simpl.
    repeat split; try done.
    + by apply beyond_num in Hbey as [_ ?].
    + by apply beyond_not_behind.
  - assert (Hstay : exists s', _positions self !! t = Some s' /\ stop_inv l s' /\
              not_behind l (current_sl s) (current_sl s') = true /\ self = self).
    { exists s. split; [done|]. split; [by split|].
      split; [by apply not_behind_refl|done]. }
    destruct (is_trailing s) eqn:Etr; [|exact Hstay].
    assert (Hb : is_breakeven s = true).
    { destruct (is_breakeven s); [done|]. by destruct Hbe as [? _]. }
    destruct l; simpl.
    + destruct (_ >? _)%F eqn:Egt; [|exact Hstay]. unfold gtb in Egt.
      eexists. simpl. rewrite lookup_insert_eq. split; [reflexivity|]. simpl.
      split; [split; simpl; [by apply ltb_not_nan_r in Egt|intros ?; congruence]|].
      split; [by apply ltb_leb|]. simpl. by split.
    + destruct (_ <? _)%F eqn:Elt; [|exact Hstay].
      eexists. simpl. rewrite lookup_insert_eq. split; [reflexivity|]. simpl.
      split; [split; simpl; [by apply ltb_not_nan_l in Elt|intros ?; congruence]|].
      split; [by apply ltb_leb|]. simpl. by split.
Qed.

Lemma fresh_inv l t entry stop rd :
  beyond l stop entry = true -> stop_inv l (fresh t entry stop rd).
Proof.
  intros H. split; simpl; [|by intros _].
  by apply beyond_num in H as [? _].
Qed.

(** Along a sequence of calls the invariant is kept and the stop does not
    retreat. *)
Lemma run_inv self t s l cs :
  get_state self t = Some s -> stop_inv l s -> same_direction t l cs ->
  exists s',
    get_state (run self cs) t = Some s' /\ stop_inv l s' /\
    not_behind l (current_sl s) (current_sl s') = true.
Proof.
  intros Hs Hinv Hdir. revert self s Hs Hinv.
  induction Hdir as [|c cs Hc _ IH]; intros self s Hs Hinv.
  - exists s. split; [done|]. split; [done|]. apply not_behind_refl, Hinv.
  - simpl. destruct (decide (c_ticket c = t)) as [Ht|Ht].
    + destruct (update_step self t s (c_price c) (c_atr c) l Hs Hinv)
        as (s1 & Hs1 & Hinv1 & Hle & _).
      destruct (IH (after self c) s1) as (s2 & Hs2 & Hinv2 & Hle2); try done.
      { unfold after, step. by rewrite Ht, (Hc Ht). }
      exists s2. split; [done|]. split; [done|]. by eapply not_behind_trans.
    + destruct (IH (after self c) s) as (s2 & Hs2 & Hinv2 & Hle2); try done.
      { unfold after, step. by rewrite update_other. }
      by exists s2.
Qed.

Lemma run_app self cs1 cs2 : run self (cs1 ++ cs2) = run (run self cs1) cs2.
Proof. apply foldl_app. Qed.

(** X28.  Where the direction constraint holds.  A position registered
    with its stop strictly on the loss side of its entry price (below it
    for a long position, above it for a short one), and updated any number
    of times with that direction, possibly between calls on other tickets:
    the stored stop never retreats from any earlier point of the sequence
    to any later one; a call that returns a new stop returns a value
    strictly beyond the stop stored before it, in the profit direction, and
    stores it; a call that returns no change leaves the manager as it
    was. *)
Theorem X28_stop_never_retreats self0 t entry stop rd l cs1 cs2 p a :
  beyond l stop entry = true ->
  same_direction t l (cs1 ++ cs2) ->
  let self := register_position self0 t entry stop rd in
  exists s1 s2,
    get_state (run self cs1) t = Some s1 /\
    get_state (run self (cs1 ++ cs2)) t = Some s2 /\
    not_behind l (current_sl s1) (current_sl s2) = true /\
    match (update (run self cs1) t p a l).1.1 with
    | Some v =>
        stop_of (update (run self cs1) t p a l).1.2 t = Some v /\
        beyond l (current_sl s1) v = true
    | None => (update (run self cs1) t p a l).1.2 = run self cs1
    end.
Proof.
  intros Hstop Hdir self. apply Forall_app in Hdir as [Hd1 Hd2].
  destruct (run_inv self t (fresh t entry stop rd) l cs1)
    as (s1 & Hs1 & Hinv1 & _);
    [apply register_position_lookup|by apply fresh_inv|done|].
  destruct (run_inv (run self cs1) t s1 l cs2) as (s2 & Hs2 & _ & Hle);
    [done..|].
  exists s1, s2. rewrite run_app. split; [done|]. split; [done|].
  split; [done|].
  destruct (update_step (run self cs1) t s1 p a l Hs1 Hinv1)
    as (s' & Hs' & _ & _ & Hret).
  destruct ((update (run self cs1) t p a l).1.1) as [v|]; [|done].
  destruct Hret as [<- Hbey]. split; [|done].
  unfold stop_of. by rewrite Hs'.
Qed.

(** C5 (as amended).  [update] on a ticket that is not registered raises
    nothing and leaves the manager as it was; it returns [None], the very
    value of a "no stop change" update, and the lookup failure shows only
    as a warning in the log. *)
Theorem C5_unknown_ticket self t p a l :
  get_state self t = None ->
  update self t p a l = (None, self, [WarningNotFound t]).
Proof. unfold get_state, update. by intros ->. Qed.

(** ** Breakeven *)

Lemma update_breakeven_rr self t p a l :
  breakeven_rr (update self t p a l).1.2 = breakeven_rr self.
Proof. unfold update. repeat (case_match; simpl; try done). Qed.

Lemma profit_rr_ext s s' p l :
  ts_entry_price s = ts_entry_price s' ->
  ts_risk_distance s = ts_risk_distance s' ->
  profit_rr s p l = profit_rr s' p l.
Proof. unfold profit_rr. by intros -> ->. Qed.

(** A call on a registered ticket either takes the breakeven branch or
    leaves the entry price, the risk distance and the breakeven flag of
    the position as they were. *)
Lemma update_registered self t s p a l :
  get_state self t = Some s ->
  if negb (is_breakeven s) && (profit_rr s p l >=? breakeven_rr self)%F
  then
    update self t p a l =
      (Some (ts_entry_price s),
       with_positions self
         (<[t := set_stop s true true (ts_entry_price s)]> (_positions self)),
       [InfoBreakeven t (ts_entry_price s)])
  else
    fired t (update self t p a l) = false /\
    exists s',
      get_state (update self t p a l).1.2 t = Some s' /\
      ts_entry_price s' = ts_entry_price s /\
      ts_risk_distance s' = ts_risk_distance s /\
      is_breakeven s' = is_breakeven s.
Proof.
  unfold get_state, update, fired. intros Hs. rewrite Hs.
  destruct (negb (is_breakeven s) && _); [done|].
  repeat (case_match; simpl; try done);
    (split; [done|]); rewrite ?lookup_insert_eq; eauto 10.
Qed.

Lemma update_other_not_fired self t t' p a l :
  t' <> t -> fired t (update self t' p a l) = false.
Proof.
  intros Hne. unfold fired, update.
  repeat (case_match; simpl in *; try done); simplify_eq; by apply Z.eqb_neq.
Qed.

Section breakeven.

Context (rr : float64) (t : Z) (s0 : TrailingState).

Lemma step_tracks m be c :
  tracks rr t s0 m be ->
  fired t (step m c) = qualifies rr s0 t c && negb be /\
  tracks rr t s0 (after m c) (be || qualifies rr s0 t c) /\
  (fired t (step m c) = true ->
     (step m c).1.1 = Some (ts_entry_price s0) /\
     stop_of (after m c) t = Some (ts_entry_price s0)).
Proof.
  intros (Hrr & s & Hs & He & Hd & Hbe). unfold qualifies, after, step.
  destruct (Z.eqb_spec (c_ticket c) t) as [->|Hne]; simpl.
  - pose proof (update_registered m t s (c_price c) (c_atr c) (c_long c) Hs) as Hu.
    rewrite (profit_rr_ext s0 s) by done. rewrite Hrr, Hbe in Hu.
    rewrite andb_comm in Hu. unfold tracks. rewrite update_breakeven_rr.
    destruct (_ && negb be) eqn:E.
    + rewrite Hu. unfold fired, stop_of, get_state; simpl.
      rewrite Z.eqb_refl, lookup_insert_eq; simpl. rewrite He.
      apply andb_true_iff in E as [-> _]. rewrite orb_true_r.
      split; [done|]. split; [|done]. split; [done|]. eauto 10.
    + destruct Hu as (Hf & s' & Hs' & He' & Hd' & Hbe'). rewrite Hf.
      split; [done|]. split; [|done]. split; [done|].
      exists s'. split; [done|]. split; [congruence|]. split; [congruence|].
      rewrite Hbe'. destruct be; [done|]. simpl.
      by rewrite andb_true_r in E.
  - rewrite orb_false_r, update_other_not_fired by done.
    split; [done|]. split; [|done].
    split; [by rewrite update_breakeven_rr|].
    exists s. by rewrite update_other.
Qed.

Lemma run_tracks m be cs :
  tracks rr t s0 m be -> tracks rr t s0 (run m cs) (be || existsb (qualifies rr s0 t) cs).
Proof.
  revert m be. induction cs as [|c cs IH]; intros m be Hm; simpl.
  - by rewrite orb_false_r.
  - rewrite orb_assoc. apply IH. by apply step_tracks.
Qed.

Lemma count_fired m be cs :
  tracks rr t s0 m be ->
  length (filter (fun o => fired t o = true) (outcomes m cs)) =
    if be || negb (existsb (qualifies rr s0 t) cs) then 0%nat else 1%nat.
Proof.
  revert m be. induction cs as [|c cs IH]; intros m be Hm; simpl.
  - by rewrite orb_true_r.
  - destruct (step_tracks m be c Hm) as (Hf & Hm' & _).
    rewrite filter_cons. specialize (IH _ _ Hm').
    destruct (decide (fired t (step m c) = true)) as [E|E]; simpl.
    + rewrite E in Hf. symmetry in Hf.
      apply andb_true_iff in Hf as [Hq Hb]. apply negb_true_iff in Hb.
      rewrite IH, Hq, Hb. by rewrite orb_true_r.
    + rewrite IH. apply not_true_is_false in E. rewrite E in Hf.
      destruct be; [done|]. simpl in *. rewrite andb_true_r in Hf.
      by rewrite <- Hf.
Qed.

End breakeven.

(** C2.  After registration the breakeven branch runs for the position at
    exactly one call of any sequence of updates: the first call on its
    ticket whose profit ratio reaches the threshold.  Whatever calls [cs]
    came before, the next call [c] takes the branch if and only if it
    qualifies and none of [cs] did; it then returns the entry price and
    stores it as the stop.  So over a whole sequence the branch runs once
    when some call qualifies and never when none does, whatever the
    profit ratio of the calls after the first qualifying one. *)
Theorem C2_breakeven_fires_once self0 t entry stop rd cs c :
  let self := register_position self0 t entry stop rd in
  let q := qualifies (breakeven_rr self0) (fresh t entry stop rd) t in
  fired t (step (run self cs) c) = q c && negb (existsb q cs) /\
  (fired t (step (run self cs) c) = true ->
     (step (run self cs) c).1.1 = Some entry /\
     stop_of (after (run self cs) c) t = Some entry) /\
  length (filter (fun o => fired t o = true) (outcomes self cs)) =
    (if existsb q cs then 1%nat else 0%nat).
Proof.
  intros self q.
  assert (H0 : tracks (breakeven_rr self0) t (fresh t entry stop rd) self false).
  { split; [done|]. eexists. split; [apply register_position_lookup|done]. }
  pose proof (run_tracks _ _ _ _ _ cs H0) as Hk. simpl in Hk.
  destruct (step_tracks _ _ _ _ _ c Hk) as (Hf & _ & Hret).
  split; [done|]. split; [done|].
  rewrite (count_fired _ _ _ _ _ _ H0). simpl. fold q. by destruct (existsb q cs).
Qed.

Import scenarios.

(** C1.  The breakeven branch breaks the direction constraint.  The
    position 1 is registered with entry 100, stop 105 and risk distance 5
    and updated as a long position at price 110 with ATR 1: the profit
    ratio 2 reaches the threshold 1, the breakeven branch writes the entry
    price over the stop without comparing the two, and the stored stop of
    the long position goes from 105 down to 100, which is also the value
    returned.  The trailing branch of the same method compares before it
    writes. *)
Lemma C1_counterexample_stop_retreats :
  stop_of tsm_stop_above 1 = Some (of_Z 105) /\
  (update tsm_stop_above 1 (of_Z 110) (of_Z 1) true).1.1 = Some (of_Z 100) /\
  stop_of (update tsm_stop_above 1 (of_Z 110) (of_Z 1) true).1.2 1
    = Some (of_Z 100) /\
  (of_Z 100 <? of_Z 105)%F = true /\
  not_behind true (of_Z 105) (of_Z 100) = false.
Proof. by vm_compute. Qed.

Lemma X28_witness :
  beyond true (of_Z 95) (of_Z 100) = true /\
  same_direction 1 true ([call_at 1 110 1 true] ++ [call_at 1 120 2 true]) /\
  exists s1 s2,
    get_state (run tsm_long [call_at 1 110 1 true]) 1 = Some s1 /\
    get_state (run tsm_long ([call_at 1 110 1 true] ++ [call_at 1 120 2 true])) 1
      = Some s2 /\
    not_behind true (current_sl s1) (current_sl s2) = true /\
    match (update (run tsm_long [call_at 1 110 1 true]) 1
             (of_Z 130) (of_Z 1) true).1.1 with
    | Some v =>
        stop_of (update (run tsm_long [call_at 1 110 1 true]) 1
                   (of_Z 130) (of_Z 1) true).1.2 1 = Some v /\
        beyond true (current_sl s1) v = true
    | None =>
        (update (run tsm_long [call_at 1 110 1 true]) 1
           (of_Z 130) (of_Z 1) true).1.2 = run tsm_long [call_at 1 110 1 true]
    end.
Proof.
  split; [reflexivity|]. split; [by repeat constructor|].
  apply (X28_stop_never_retreats tsm 1 (of_Z 100) (of_Z 95) (of_Z 5) true
           [call_at 1 110 1 true] [call_at 1 120 2 true] (of_Z 130) (of_Z 1));
    [reflexivity|by repeat constructor].
Defined.

(** C5, as stated, fails: the caller gets the same value, [None], from a
    call on the unknown ticket 2 and from a call on the registered
    ticket 1 that changes nothing; only the log differs. *)
Lemma C5_counterexample_same_value :
  get_state tsm_long 2 = None /\
  update tsm_long 2 (of_Z 101) (of_Z 1) true = (None, tsm_long, [WarningNotFound 2]) /\
  update tsm_long 1 (of_Z 101) (of_Z 1) true = (None, tsm_long, []) /\
  (update tsm_long 2 (of_Z 101) (of_Z 1) true).1.1
    = (update tsm_long 1 (of_Z 101) (of_Z 1) true).1.1.
Proof. by vm_compute. Qed.

Lemma C5_witness :
  get_state tsm_long 2 = None /\
  update tsm_long 2 (of_Z 101) (of_Z 1) true = (None, tsm_long, [WarningNotFound 2]).
Proof.
  split; [reflexivity|].
  apply (C5_unknown_ticket tsm_long 2 (of_Z 101) (of_Z 1) true). reflexivity.
Defined.

Lemma C2_witness :
  fired 1 (step (run tsm_long [call_at 1 103 1 true; call_at 1 106 1 true])
             (call_at 1 101 1 true)) = false /\
  fired 1 (step (run tsm_long [call_at 1 103 1 true]) (call_at 1 106 1 true)) = true /\
  (step (run tsm_long [call_at 1 103 1 true]) (call_at 1 106 1 true)).1.1
    = Some (of_Z 100) /\
  length (filter (fun o => fired 1 o = true)
            (outcomes tsm_long [call_at 1 103 1 true; call_at 1 106 1 true;
                                call_at 1 101 1 true; call_at 1 107 1 true]))
    = 1%nat.
Proof.
  pose proof (C2_breakeven_fires_once tsm 1 (of_Z 100) (of_Z 95) (of_Z 5)
                [call_at 1 103 1 true; call_at 1 106 1 true]
                (call_at 1 101 1 true)) as (H1 & _ & _).
  pose proof (C2_breakeven_fires_once tsm 1 (of_Z 100) (of_Z 95) (of_Z 5)
                [call_at 1 103 1 true] (call_at 1 106 1 true)) as (H2 & H3 & _).
  pose proof (C2_breakeven_fires_once tsm 1 (of_Z 100) (of_Z 95) (of_Z 5)
                [call_at 1 103 1 true; call_at 1 106 1 true;
                 call_at 1 101 1 true; call_at 1 107 1 true]
                (call_at 1 101 1 true)) as (_ & _ & H4).
  split; [exact H1|]. split; [exact H2|]. split; [exact (proj1 (H3 H2))|exact H4].
Defined.

End trailing.

(** ** KillSwitch *)

Section kill.

Import mt5 kill_switch traces.

Implicit Types (t : Terminal) (self : KillSwitch).

Lemma geb_drawdown_5pct x :
  ((of_Z 10000 - Num x) / of_Z 10000 >=? Num (5 # 100))%F
  = (Num x <=? of_Z 9500)%F.
Proof.
  unfold geb, leb, sub, div, lift2, of_Z. simpl.
  apply eq_true_iff_eq. rewrite !Qle_bool_iff.
  unfold Qdiv, Qle, Qmult, Qminus, Qplus, Qopp, Qinv, inject_Z; simpl. lia.
Qed.

(** C3 (as amended).  [check] on a triggered switch returns true with no
    call on the terminal, whatever the terminal would answer, and leaves the switch as
    it was; [execute_kill] never writes the switch; so the flag stays set
    through both.  On an armed switch whose starting equity is not zero,
    with the equity readable, [check] reads it once and the switch becomes
    triggered if and only if (start - equity) / start >= limit, which is
    also the value returned.  With the equity unreadable the armed switch
    triggers.  With a starting equity of 10000 and a limit of 0.05 the
    switch triggers exactly when the equity is at most 9500. *)
Theorem C3_check t self :
  (_is_triggered self = true -> check t self = Ok (true, self, [])) /\
  (execute_kill t self).1.2 = self /\
  (forall start,
     _is_triggered self = false -> _is_initialized self = true ->
     _starting_equity self = Some start ->
     (account_info t = None ->
        check t self = Ok (true, set_triggered self, [AccountInfoCall])) /\
     (forall info,
        account_info t = Some info -> (start =? of_Z 0)%F = false ->
        let breach := ((start - equity info) / start >=? drawdown_limit self)%F in
        check t self =
          Ok (breach, if breach then set_triggered self else self,
              [AccountInfoCall]) /\
        forall r self' calls,
          check t self = Ok (r, self', calls) ->
          r = breach /\ _is_triggered self' = breach) /\
     (forall info,
        account_info t = Some info -> start = of_Z 10000 ->
        drawdown_limit self = Num (5 # 100) ->
        exists self' calls,
          check t self = Ok ((equity info <=? of_Z 9500)%F, self', calls) /\
          _is_triggered self' = (equity info <=? of_Z 9500)%F)).
Proof.
  split; [|split].
  - intros Htr. unfold check. by rewrite Htr.
  - unfold execute_kill. by repeat case_match.
  - intros start Htr Hinit Hstart.
    assert (Hdiv : forall a, (start =? of_Z 0)%F = false ->
              py_div a start = Ok (a / start)%F).
    { intros a. unfold py_div, eqb, of_Z. destruct start as [|q]; [done|].
      change (inject_Z 0) with 0%Q. by intros ->. }
    assert (Hc : forall info,
              account_info t = Some info -> (start =? of_Z 0)%F = false ->
              check t self =
                Ok (((start - equity info) / start >=? drawdown_limit self)%F,
                    if ((start - equity info) / start >=? drawdown_limit self)%F
                    then set_triggered self else self,
                    [AccountInfoCall])).
    { intros info Hacc Hnz. unfold check.
      rewrite Htr, Hinit, Hstart, Hacc, Hdiv by done. simpl.
      by destruct (_ >=? _)%F. }
    split; [|split].
    + intros Hacc. unfold check. by rewrite Htr, Hinit, Hstart, Hacc.
    + intros info Hacc Hnz breach. split; [by apply Hc|].
      intros r self' calls. rewrite (Hc info) by done. intros [= <- <- <-].
      split; [done|]. fold breach. destruct breach; [done|]. by rewrite Htr.
    + intros info Hacc -> Hlim. rewrite (Hc info) by done. rewrite Hlim.
      assert (Hb : ((of_Z 10000 - equity info) / of_Z 10000 >=? Num (5 # 100))%F
                   = (equity info <=? of_Z 9500)%F).
      { destruct (equity info) as [|x]; [done|]. apply geb_drawdown_5pct. }
      rewrite Hb. eexists _, _. split; [done|].
      destruct (equity info <=? of_Z 9500)%F; [done|]. by rewrite Htr.
Qed.

(** With a starting equity of zero the armed switch raises
    [ZeroDivisionError] when it reads the equity. *)
Lemma check_zero_start t self info :
  _is_triggered self = false -> _is_initialized self = true ->
  _starting_equity self = Some (of_Z 0) -> account_info t = Some info ->
  check t self = Raise ZeroDivisionError.
Proof. intros Htr Hinit Hstart Hacc. unfold check. by rewrite Htr, Hinit, Hstart, Hacc. Qed.

(** The loop of [execute_kill]: the orders it sends are the closing orders
    of the positions it does not skip and has a tick for, in order. *)
Lemma kill_loop_orders t self positions n calls :
  orders_sent (foldl (kill_one t self) (n, calls) positions).2 =
    orders_sent calls ++
    omap (fun pos =>
            if (magic_number self >? 0) && negb (pos_magic pos =? magic_number self)
            then None else closing t pos) positions.
Proof.
  revert n calls. induction positions as [|pos ps IH]; intros n calls; simpl.
  - by rewrite app_nil_r.
  - destruct (_ && _); [apply IH|]. unfold closing at 1.
    destruct (symbol_info_tick t (pos_symbol pos)) as [tick|]; simpl.
    + assert (Ho : forall k,
                orders_sent (foldl (kill_one t self)
                  (k, calls ++ [SymbolInfoTickCall (pos_symbol pos);
                                OrderSendCall (close_request pos tick)]) ps).2 =
                orders_sent calls ++ close_request pos tick ::
                  omap (fun pos =>
                    if (magic_number self >? 0)
                       && negb (pos_magic pos =? magic_number self)
                    then None else closing t pos) ps).
      { intros k. rewrite IH. unfold orders_sent at 1. rewrite omap_app. simpl.
        by rewrite <- app_assoc. }
      repeat case_match; apply Ho.
    + rewrite IH. unfold orders_sent at 1. rewrite omap_app. simpl.
      by rewrite app_nil_r.
Qed.

Lemma omap_magic_filter t (m : Z) (ps : list TradePosition) :
  omap (fun pos => if negb (pos_magic pos =? m) then None else closing t pos) ps
  = omap (closing t) (filter (fun pos => pos_magic pos = m) ps).
Proof.
  induction ps as [|pos ps IH]; [done|]. rewrite filter_cons. csimpl.
  destruct (Z.eqb_spec (pos_magic pos) m) as [E|E]; simpl.
  - rewrite decide_True by done. csimpl. by rewrite IH.
  - by rewrite decide_False.
Qed.

(** C9 (as amended).  In the triggered state, with the open positions the
    terminal returns: a kill switch whose magic number is 0 (or negative)
    sends a closing order for every returned position for whose symbol the
    terminal has a tick, whatever the magic number of the position; a
    position without a tick is passed over.  The magic numbers are compared
    only when the magic number of the switch is positive, and then the
    positions of another magic number are passed over as well. *)
Theorem C9_execute_kill_magic_filter t self positions :
  _is_triggered self = true ->
  positions_get t = Some positions ->
  (magic_number self <= 0 ->
     orders_sent (execute_kill t self).2 = omap (closing t) positions /\
     forall pos tick,
       pos ∈ positions -> symbol_info_tick t (pos_symbol pos) = Some tick ->
       close_request pos tick ∈ orders_sent (execute_kill t self).2) /\
  (0 < magic_number self ->
     orders_sent (execute_kill t self).2 =
       omap (closing t)
         (filter (fun pos => pos_magic pos = magic_number self) positions)).
Proof.
  intros Htr Hpos.
  assert (He : orders_sent (execute_kill t self).2 =
    omap (fun pos =>
            if (magic_number self >? 0) && negb (pos_magic pos =? magic_number self)
            then None else closing t pos) positions).
  { unfold execute_kill. rewrite Htr, Hpos. simpl.
    pose proof (kill_loop_orders t self positions 0 [PositionsGetCall]) as H.
    by destruct (foldl _ _ _). }
  split.
  - intros Hm.
    assert (Hall : orders_sent (execute_kill t self).2 = omap (closing t) positions).
    { rewrite He. replace (magic_number self >? 0) with false; [done|].
      symmetry. rewrite Z.gtb_ltb. apply Z.ltb_ge. lia. }
    split; [done|]. intros pos tick Hin Htick. rewrite Hall.
    apply list_elem_of_omap. exists pos. split; [done|].
    unfold closing. by rewrite Htick.
  - intros Hm. rewrite He.
    replace (magic_number self >? 0) with true
      by (symmetry; rewrite Z.gtb_ltb; apply Z.ltb_lt; lia). simpl.
    apply omap_magic_filter.
Qed.

Import scenarios.

(** C3, as stated, fails: a switch armed by [initialize] on an account
    whose equity is 0 is armed (initialised, not triggered), and [check]
    neither triggers nor leaves it untriggered: the division by the
    starting equity raises [ZeroDivisionError], whatever the equity read. *)
Lemma C3_counterexample_zero_start :
  (initialize more_scenarios.terminal_no_funds
     (new default_drawdown_limit default_magic_number)).1.1 = true /\
  _is_initialized more_scenarios.armed_at_zero = true /\
  _is_triggered more_scenarios.armed_at_zero = false /\
  _starting_equity more_scenarios.armed_at_zero = Some (of_Z 0) /\
  check more_scenarios.terminal_no_funds more_scenarios.armed_at_zero
    = Raise ZeroDivisionError /\
  check (terminal (Some (of_Z 9500)) [] true []) more_scenarios.armed_at_zero
    = Raise ZeroDivisionError.
Proof. by vm_compute. Qed.

Lemma C3_witness :
  check (terminal (Some (of_Z 9500)) [] true []) armed
    = Ok (true, triggered, [AccountInfoCall]) /\
  check (terminal (Some (dec 950001 2)) [] true []) armed
    = Ok (false, armed, [AccountInfoCall]) /\
  check (terminal None [] true []) armed
    = Ok (true, triggered, [AccountInfoCall]) /\
  check (terminal (Some (of_Z 10000)) [] true []) triggered
    = Ok (true, triggered, []) /\
  (execute_kill terminal_ticks triggered).1.2 = triggered.
Proof.
  destruct (C3_check (terminal (Some (of_Z 9500)) [] true []) armed) as (_ & _ & Ha).
  destruct (Ha (of_Z 10000) eq_refl eq_refl eq_refl) as (_ & Hr & _).
  destruct (Hr {| equity := of_Z 9500 |} eq_refl eq_refl) as [H1 _].
  destruct (C3_check (terminal (Some (dec 950001 2)) [] true []) armed) as (_ & _ & Hb).
  destruct (Hb (of_Z 10000) eq_refl eq_refl eq_refl) as (_ & Hr' & _).
  destruct (Hr' {| equity := dec 950001 2 |} eq_refl eq_refl) as [H2 _].
  destruct (C3_check (terminal None [] true []) armed) as (_ & _ & Hc).
  destruct (Hc (of_Z 10000) eq_refl eq_refl eq_refl) as (H3 & _ & _).
  destruct (C3_check (terminal (Some (of_Z 10000)) [] true []) triggered) as (Hd & _ & _).
  destruct (C3_check terminal_ticks triggered) as (_ & He & _).
  split; [exact H1|]. split; [exact H2|]. split; [exact (H3 eq_refl)|].
  split; [exact (Hd eq_refl)|exact He].
Defined.

(** C9, as stated, fails: the switch has magic number 0 and is triggered,
    the terminal returns two open positions, but it has no tick for their
    symbols, and no closing order is sent for either of them. *)
Lemma C9_counterexample_no_tick :
  magic_number triggered = 0 /\
  _is_triggered triggered = true /\
  positions_get terminal_no_ticks = Some two_positions /\
  execute_kill terminal_no_ticks triggered =
    (0, triggered,
     [PositionsGetCall; SymbolInfoTickCall "EURUSD"; SymbolInfoTickCall "GBPUSD"]) /\
  orders_sent (execute_kill terminal_no_ticks triggered).2 = [].
Proof. by vm_compute. Qed.

Lemma C9_witness :
  _is_triggered triggered = true /\
  positions_get terminal_ticks = Some two_positions /\
  magic_number triggered <= 0 /\
  req_position <$> orders_sent (execute_kill terminal_ticks triggered).2 = [11; 12] /\
  req_magic <$> orders_sent (execute_kill terminal_ticks triggered).2 = [234000; 777].
Proof.
  split; [reflexivity|]. split; [reflexivity|]. split; [by vm_compute|].
  destruct (C9_execute_kill_magic_filter terminal_ticks triggered two_positions
              eq_refl eq_refl) as [H0 _].
  destruct H0 as [-> _]; [by vm_compute|]. split; reflexivity.
Defined.

End kill.

(** ** Arrays and loops *)

Section arrays.

Context {A : Type}.
Implicit Types (a : list A) (i : Z).

Lemma len_nonneg a : 0 <= len a.
Proof. unfold len. lia. Qed.

Lemma len_insert a (k : nat) (v : A) : len (<[k := v]> a) = len a.
Proof. unfold len. by rewrite length_insert. Qed.

Lemma len_fmap {B} (f : A -> B) a : len (f <$> a) = len a.
Proof. unfold len. by rewrite length_fmap. Qed.

Lemma norm_index_nonneg n i : 0 <= i < n -> norm_index n i = Some (Z.to_nat i).
Proof.
  intros H. unfold norm_index.
  replace (i <? 0) with false by (symmetry; apply Z.ltb_ge; lia).
  replace (0 <=? i) with true by (symmetry; apply Z.leb_le; lia).
  by replace (i <? n) with true by (symmetry; apply Z.ltb_lt; lia).
Qed.

Lemma norm_index_neg n i :
  - n <= i < 0 -> norm_index n i = Some (Z.to_nat (i + n)).
Proof.
  intros H. unfold norm_index.
  replace (i <? 0) with true by (symmetry; apply Z.ltb_lt; lia).
  replace (0 <=? i + n) with true by (symmetry; apply Z.leb_le; lia).
  by replace (i + n <? n) with true by (symmetry; apply Z.ltb_lt; lia).
Qed.

Lemma getitem_nonneg a i :
  0 <= i < len a -> exists x, getitem a i = Ok x /\ a !! Z.to_nat i = Some x.
Proof.
  intros H. unfold getitem. rewrite norm_index_nonneg by done.
  destruct (lookup_lt_is_Some_2 a (Z.to_nat i)) as [x Hx]; [unfold len in H; lia|].
  exists x. by rewrite Hx.
Qed.

Lemma getitem_neg a i :
  - len a <= i < 0 ->
  exists x, getitem a i = Ok x /\ a !! Z.to_nat (i + len a) = Some x.
Proof.
  intros H. unfold getitem. rewrite norm_index_neg by done.
  destruct (lookup_lt_is_Some_2 a (Z.to_nat (i + len a))) as [x Hx];
    [unfold len in *; lia|].
  exists x. by rewrite Hx.
Qed.

Lemma setitem_nonneg a i (v : A) :
  0 <= i < len a -> setitem a i v = Ok (<[Z.to_nat i := v]> a).
Proof. intros H. unfold setitem. by rewrite norm_index_nonneg. Qed.

(** A loop whose body keeps an invariant and raises nothing runs to its
    end. *)
Lemma for_loop_inv {St : Type} (P : Z -> St -> Prop) body count :
  forall start (s : St),
    P start s ->
    (forall i s, start <= i < start + Z.of_nat count -> P i s ->
       exists s', body i s = Ok s' /\ P (i + 1) s') ->
    exists s', for_loop start count body s = Ok s' /\ P (start + Z.of_nat count) s'.
Proof.
  induction count as [|n IH]; intros start s Hs Hbody; simpl.
  - exists s. split; [done|]. by replace (start + Z.of_nat 0) with start by lia.
  - destruct (Hbody start s) as (s1 & -> & Hs1); [lia|done|].
    destruct (IH (start + 1) s1 Hs1) as (s2 & -> & Hs2).
    + intros i s' Hi. apply Hbody. lia.
    + exists s2. split; [done|].
      by replace (start + Z.of_nat (S n)) with (start + 1 + Z.of_nat n) by lia.
Qed.

Lemma for_range_inv {St : Type} (P : Z -> St -> Prop) body start stop (s : St) :
  start <= stop ->
  P start s ->
  (forall i s, start <= i < stop -> P i s ->
     exists s', body i s = Ok s' /\ P (i + 1) s') ->
  exists s', for_range start stop body s = Ok s' /\ P stop s'.
Proof.
  intros Hle Hs Hbody. unfold for_range.
  destruct (for_loop_inv P body (Z.to_nat (stop - start)) start s Hs)
    as (s' & Hrun & Hs').
  - intros i s1 Hi. apply Hbody. lia.
  - exists s'. split; [done|].
    by replace (start + Z.of_nat (Z.to_nat (stop - start))) with stop in Hs' by lia.
Qed.

End arrays.

Lemma len_full_nan {A} (a : list A) : len (full_nan a) = len a.
Proof. unfold len, full_nan. by rewrite length_replicate. Qed.

Lemma len_zeros n : 0 <= n -> len (zeros n) = n.
Proof. intros H. unfold len, zeros. rewrite length_replicate. lia. Qed.

Lemma len_np_diff a : len (np_diff a) = Z.max 0 (len a - 1).
Proof.
  unfold len. induction a as [|x [|y a] IH]; simpl in *; lia.
Qed.

Lemma py_div_of_Z a z : z <> 0 -> py_div a (of_Z z) = Ok (a / of_Z z)%F.
Proof.
  intros H. unfold py_div, of_Z.
  destruct (Qeq_bool (inject_Z z) 0) eqn:E; [|done].
  apply Qeq_bool_iff in E. unfold Qeq, inject_Z in E. simpl in E. lia.
Qed.

Lemma truthy_eqb a : truthy a = negb (a =? of_Z 0)%F.
Proof. by destruct a. Qed.

(** ** Indicators *)

Section indicator_facts.

Import indicators.

Implicit Types (data high low close : list float64) (p : Z).

Lemma bind_Ok {A B} (f : A -> result B) (x : A) : (Ok x ≫= f) = f x.
Proof. reflexivity. Qed.

(** C8.  On a series with fewer elements than the period (so the period is
    at least 1), [calculate_ema], [calculate_rsi] and [calculate_atr] raise
    nothing and return an array of the length of the input, every value of
    which is NaN; for [calculate_atr] the series is the close prices. *)
Theorem C8_short_series_all_nan data high low close p :
  (len data < p ->
     calculate_ema data p = Ok (replicate (length data) NaN) /\
     calculate_rsi data p = Ok (replicate (length data) NaN)) /\
  (len close < p ->
     calculate_atr high low close p = Ok (replicate (length close) NaN)).
Proof.
  split.
  - intros H. unfold calculate_ema, calculate_rsi.
    replace (len data <? p) with true by (symmetry; apply Z.ltb_lt; lia).
    by replace (len data <? p + 1) with true by (symmetry; apply Z.ltb_lt; lia).
  - intros H. unfold calculate_atr.
    by replace (len close <? p + 1) with true by (symmetry; apply Z.ltb_lt; lia).
Qed.

Lemma C8_witness :
  len [of_Z 1; of_Z 2] < 3 /\
  calculate_ema [of_Z 1; of_Z 2] 3 = Ok [NaN; NaN] /\
  calculate_rsi [of_Z 1; of_Z 2] 3 = Ok [NaN; NaN] /\
  calculate_atr [] [] [of_Z 1; of_Z 2] 3 = Ok [NaN; NaN].
Proof.
  destruct (C8_short_series_all_nan [of_Z 1; of_Z 2] [] [] [of_Z 1; of_Z 2] 3)
    as [He Ha].
  split; [reflexivity|]. destruct He as [H1 H2]; [reflexivity|].
  split; [exact H1|]. split; [exact H2|]. apply Ha. reflexivity.
Defined.

(** With a period of at least 1 the three functions return an array of the
    length of their input, whatever the input. *)
Lemma calculate_ema_total data p :
  1 <= p -> exists ema, calculate_ema data p = Ok ema /\ len ema = len data.
Proof.
  intros Hp. unfold calculate_ema.
  destruct (len data <? p) eqn:E.
  { eexists. split; [done|]. apply len_full_nan. }
  apply Z.ltb_ge in E.
  rewrite setitem_nonneg by (rewrite len_full_nan; lia). rewrite bind_Ok.
  rewrite py_div_of_Z by lia. rewrite bind_Ok.
  apply (for_range_inv (fun _ ema => len ema = len data)); [done|..].
  - by rewrite len_insert, len_full_nan.
  - intros i ema Hi Hlen.
    destruct (getitem_nonneg data i) as (d & -> & _); [lia|].
    destruct (getitem_nonneg ema (i - 1)) as (prev & -> & _); [lia|].
    rewrite !bind_Ok, setitem_nonneg by lia.
    eexists. split; [done|]. by rewrite len_insert.
Qed.

Lemma calculate_rsi_total data p :
  1 <= p -> exists rsi, calculate_rsi data p = Ok rsi /\ len rsi = len data.
Proof.
  intros Hp. unfold calculate_rsi.
  destruct (len data <? p + 1) eqn:E.
  { eexists. split; [done|]. apply len_full_nan. }
  apply Z.ltb_ge in E.
  rewrite setitem_nonneg by (rewrite len_full_nan; lia). rewrite bind_Ok.
  match goal with
  | |- context [for_range ?a ?b ?f ?s] =>
      destruct (for_range_inv (fun _ st => len st.2 = len data) f a b s)
        as ([[ag al] rsi] & -> & Hlen)
  end.
  - rewrite len_np_diff. lia.
  - simpl. by rewrite len_insert, len_full_nan.
  - intros i [[ag al] rsi] Hi Hlen. simpl in Hlen.
    rewrite len_np_diff in Hi.
    destruct (getitem_nonneg
                ((fun d => if (d >? of_Z 0)%F then d else of_Z 0) <$> np_diff data) i)
      as (g & -> & _); [rewrite len_fmap, len_np_diff; lia|].
    destruct (getitem_nonneg
                ((fun d => if (d <? of_Z 0)%F then neg d else of_Z 0) <$> np_diff data) i)
      as (l & -> & _); [rewrite len_fmap, len_np_diff; lia|].
    rewrite !bind_Ok, setitem_nonneg by lia. rewrite bind_Ok.
    eexists. split; [done|]. simpl. by rewrite len_insert.
  - rewrite bind_Ok. by exists rsi.
Qed.

Lemma calculate_atr_total high low close p :
  1 <= p -> len high = len close -> len low = len close ->
  exists atr, calculate_atr high low close p = Ok atr /\ len atr = len close.
Proof.
  intros Hp Hh Hl. unfold calculate_atr.
  destruct (len close <? p + 1) eqn:E.
  { eexists. split; [done|]. apply len_full_nan. }
  apply Z.ltb_ge in E.
  destruct (getitem_nonneg high 0) as (h0 & -> & _); [lia|].
  destruct (getitem_nonneg low 0) as (l0 & -> & _); [lia|].
  rewrite !bind_Ok, setitem_nonneg by (rewrite len_zeros; lia). rewrite bind_Ok.
  match goal with
  | |- context [for_range 1 ?b ?f ?s ≫= _] =>
      destruct (for_range_inv (fun _ tr => len tr = len close) f 1 b s)
        as (tr & -> & Htr)
  end.
  - lia.
  - rewrite len_insert, len_zeros; lia.
  - intros i tr Hi Hlen.
    destruct (getitem_nonneg high i) as (h & -> & _); [lia|].
    destruct (getitem_nonneg low i) as (l & -> & _); [lia|].
    destruct (getitem_nonneg close (i - 1)) as (pc & -> & _); [lia|].
    rewrite !bind_Ok, setitem_nonneg by lia.
    eexists. split; [done|]. by rewrite len_insert.
  - rewrite bind_Ok, setitem_nonneg by (rewrite len_full_nan; lia).
    rewrite bind_Ok.
    apply (for_range_inv (fun _ atr => len atr = len close)); [lia|..].
    + by rewrite len_insert, len_full_nan.
    + intros i atr Hi Hlen.
      destruct (getitem_nonneg atr (i - 1)) as (prev & -> & _); [lia|].
      destruct (getitem_nonneg tr i) as (x & -> & _); [lia|].
      rewrite !bind_Ok, setitem_nonneg by lia.
      eexists. split; [done|]. by rewrite len_insert.
Qed.

End indicator_facts.

(** ** SignalGenerator *)

Section signal_facts.

Import indicators signals.

Implicit Types (self : SignalGenerator) (close : list float64)
  (cp : option float64) (sig : Signal).

(** A bind that returned: its first computation returned. *)
Ltac bind_inv H :=
  match type of H with
  | (?m ≫= _) = Ok _ =>
      let E := fresh "E" in
      destruct m eqn:E; [rewrite bind_Ok in H|discriminate H]
  end.

(** What a returned signal says about the run that produced it. *)
Lemma generate_inv self close cp sig :
  generate self close cp = Ok sig ->
  (len close < Z.max (ema_period self) (rsi_period self) + 2 /\
   signal_type sig = NONE /\ entry_price sig = of_Z 0) \/
  (Z.max (ema_period self) (rsi_period self) + 2 <= len close /\
   exists ema rsi c e r r',
     calculate_ema close (ema_period self) = Ok ema /\
     calculate_rsi close (rsi_period self) = Ok rsi /\
     current_close_of close cp = Ok c /\
     getitem ema (-1) = Ok e /\
     getitem rsi (-1) = Ok r /\
     getitem rsi (-2) = Ok r' /\
     entry_price sig = c /\
     (signal_type sig = LONG ->
        (c >? e)%F = true /\
        (r' <=? rsi_oversold self)%F = true /\
        (rsi_oversold self <? r)%F = true) /\
     (signal_type sig = SHORT ->
        (c <? e)%F = true /\
        (r' >=? rsi_overbought self)%F = true /\
        (rsi_overbought self >? r)%F = true)).
Proof.
  unfold generate. intros H.
  destruct (len close <? _) eqn:Elen.
  { left. apply Z.ltb_lt in Elen. by injection H as <-. }
  right. apply Z.ltb_ge in Elen. split; [done|].
  bind_inv H. bind_inv H. bind_inv H. bind_inv H. bind_inv H. bind_inv H.
  eexists _, _, _, _, _, _. do 6 (split; [done|]).
  destruct (isnan _ || isnan _ || isnan _).
  { injection H as <-. simpl. by repeat split. }
  destruct (_ >? _)%F eqn:Egt.
  - destruct (_ && _) eqn:Ecross; injection H as <-; simpl;
      (split; [done|]); split; try done.
    intros _. by apply andb_true_iff in Ecross as [? ?].
  - destruct (_ <? _)%F eqn:Elt; [|injection H as <-; simpl; by repeat split].
    destruct (_ && _) eqn:Ecross; injection H as <-; simpl;
      (split; [done|]); split; try done.
    intros _. by apply andb_true_iff in Ecross as [? ?].
Qed.

(** With periods of at least 1, [generate] returns a signal. *)
Lemma generate_total self close cp :
  1 <= ema_period self -> 1 <= rsi_period self ->
  exists sig, generate self close cp = Ok sig.
Proof.
  intros He Hr. unfold generate.
  destruct (len close <? _) eqn:Elen; [by eexists|].
  apply Z.ltb_ge in Elen.
  destruct (calculate_ema_total close (ema_period self) He) as (ema & -> & Hle).
  destruct (calculate_rsi_total close (rsi_period self) Hr) as (rsi & -> & Hlr).
  rewrite !bind_Ok.
  destruct (getitem_neg close (-1)) as (last & Hlast & _); [lia|].
  assert (Hc : exists c, current_close_of close cp = Ok c).
  { unfold current_close_of. rewrite Hlast. destruct cp as [p|]; [|by eexists].
    destruct (truthy p); by eexists. }
  destruct Hc as [c ->].
  destruct (getitem_neg ema (-1)) as (e & -> & _); [lia|].
  destruct (getitem_neg rsi (-1)) as (r & -> & _); [lia|].
  destruct (getitem_neg rsi (-2)) as (r' & -> & _); [lia|].
  rewrite !bind_Ok. destruct (isnan _ || isnan _ || isnan _); by eexists.
Qed.

(** C7.  [generate] returns a signal (periods of at least 1), and whenever
    the current close, the given current price or else the last close,
    compares equal to the current EMA, the last value of [calculate_ema],
    the signal returned is NONE, whatever the RSI values: a LONG signal
    needs the close strictly above the EMA and a SHORT signal needs it
    strictly below. *)
Theorem C7_close_equal_ema_is_none self close cp :
  (1 <= ema_period self -> 1 <= rsi_period self ->
     exists sig, generate self close cp = Ok sig) /\
  (forall sig ema e c,
     generate self close cp = Ok sig ->
     calculate_ema close (ema_period self) = Ok ema ->
     getitem ema (-1) = Ok e ->
     current_close_of close cp = Ok c ->
     (c =? e)%F = true ->
     signal_type sig = NONE).
Proof.
  split; [apply generate_total|].
  intros sig ema e c Hgen Hema He Hc Heq.
  destruct (generate_inv self close cp sig Hgen)
    as [(_ & Hn & _)|(_ & ema' & rsi & c' & e' & r & r' &
                      Hema' & _ & Hc' & He' & _ & _ & _ & Hlong & Hshort)];
    [done|].
  rewrite Hema in Hema'. injection Hema' as <-.
  rewrite He in He'. injection He' as <-.
  rewrite Hc in Hc'. injection Hc' as <-.
  apply eqb_not_ltb in Heq as [Hlt Hgt].
  destruct (signal_type sig); [done|..].
  - destruct Hlong as [Hl _]; [done|]. unfold gtb in Hl. congruence.
  - destruct Hshort as [Hs _]; [done|]. congruence.
Qed.

(** C10.  [generate] returns a signal (periods of at least 1), and with
    sufficient history the entry price of the returned signal is the given
    current price when one is given and it is not zero, and the last close
    of the series otherwise: a current price of 0.0 gives the entry price
    that no current price at all gives, the last close. *)
Theorem C10_zero_price_is_no_price self close :
  (forall cp,
     1 <= ema_period self -> 1 <= rsi_period self ->
     exists sig, generate self close cp = Ok sig) /\
  (forall last,
     Z.max (ema_period self) (rsi_period self) + 2 <= len close ->
     getitem close (-1) = Ok last ->
     (forall cp sig,
        generate self close cp = Ok sig ->
        entry_price sig =
          match cp with
          | Some p => if (p =? of_Z 0)%F then last else p
          | None => last
          end) /\
     (forall sig, generate self close (Some (of_Z 0)) = Ok sig ->
                  entry_price sig = last) /\
     (forall sig, generate self close None = Ok sig -> entry_price sig = last)).
Proof.
  split; [intros cp; apply generate_total|]. intros last Hlen Hlast.
  assert (Hentry : forall cp sig,
            generate self close cp = Ok sig ->
            entry_price sig =
              match cp with
              | Some p => if (p =? of_Z 0)%F then last else p
              | None => last
              end).
  { intros cp sig Hg.
    destruct (generate_inv self close cp sig Hg)
      as [(Hshort & _)|(_ & _ & _ & c & _ & _ & _ & _ & _ & Hc & _ & _ & _ & <- & _)];
      [lia|].
    unfold current_close_of in Hc. rewrite Hlast in Hc.
    destruct cp as [p|]; [|congruence].
    rewrite truthy_eqb in Hc. destruct (p =? of_Z 0)%F; simpl in Hc; congruence. }
  split; [done|]. split; intros sig Hg; by apply Hentry in Hg.
Qed.

End signal_facts.

Section signal_witnesses.

Import indicators signals scenarios.

Lemma C7_witness :
  1 <= ema_period generator_1 /\ 1 <= rsi_period generator_1 /\
  exists sig ema e c,
    generate generator_1 closes_312 None = Ok sig /\
    calculate_ema closes_312 (ema_period generator_1) = Ok ema /\
    getitem ema (-1) = Ok e /\
    current_close_of closes_312 None = Ok c /\
    (c =? e)%F = true /\
    signal_type sig = NONE.
Proof.
  split; [by vm_compute|]. split; [by vm_compute|].
  destruct (C7_close_equal_ema_is_none generator_1 closes_312 None) as [Htot Hnone].
  destruct Htot as [sig Hsig]; [by vm_compute..|].
  exists sig. eexists _, _, _. split; [exact Hsig|].
  split; [vm_compute; reflexivity|]. split; [vm_compute; reflexivity|].
  split; [vm_compute; reflexivity|]. split; [vm_compute; reflexivity|].
  eapply Hnone; [exact Hsig|vm_compute; reflexivity..].
Defined.

(** The same bar gives a LONG signal once the current price is above the
    EMA: 2.5 against 2. *)
Example generate_long_above_ema :
  signal_type <$> (match generate generator_1 closes_312 (Some (dec 25 1)) with
                   | Ok sig => Some sig
                   | Raise _ => None
                   end) = Some LONG.
Proof. by vm_compute. Qed.

Lemma C10_witness :
  1 <= ema_period generator_1 /\ 1 <= rsi_period generator_1 /\
  Z.max (ema_period generator_1) (rsi_period generator_1) + 2 <= len closes_312 /\
  exists sig sig',
    generate generator_1 closes_312 (Some (of_Z 0)) = Ok sig /\
    entry_price sig = of_Z 2 /\
    generate generator_1 closes_312 (Some (dec 25 1)) = Ok sig' /\
    entry_price sig' = dec 25 1.
Proof.
  split; [by vm_compute|]. split; [by vm_compute|]. split; [by vm_compute|].
  destruct (C10_zero_price_is_no_price generator_1 closes_312) as [Htot Hentry].
  destruct (Htot (Some (of_Z 0))) as [sig Hsig]; [by vm_compute..|].
  destruct (Htot (Some (dec 25 1))) as [sig' Hsig']; [by vm_compute..|].
  destruct (Hentry (of_Z 2)) as (Hcp & Hzero & _); [by vm_compute..|].
  exists sig, sig'. split; [exact Hsig|]. split; [exact (Hzero sig Hsig)|].
  split; [exact Hsig'|exact (Hcp _ _ Hsig')].
Defined.

End signal_witnesses.

(** ** RiskManager *)

Section risk_facts.

Import indicators signals risk_manager scenarios.

Implicit Types (self : RiskManager) (high low close : list float64).

(** A product of two positive numbers is not negative.  (It is zero where
    the binary64 product underflows, so no more is claimed.) *)
Lemma mul_nonneg a b :
  (of_Z 0 <? a)%F = true -> (of_Z 0 <? b)%F = true -> (of_Z 0 <=? a * b)%F = true.
Proof.
  rewrite !ltb_true.
  intros (z & x & Hz & -> & Hx) (z' & y & Hz' & -> & Hy).
  injection Hz as <-. injection Hz' as <-.
  change (inject_Z 0) with 0%Q in *. simpl. apply Qle_bool_iff.
  apply Qmult_le_0_compat; by apply Qlt_le_weak.
Qed.

Lemma not_leb_zero_pos a :
  isnan a = false -> (a <=? of_Z 0)%F = false -> (of_Z 0 <? a)%F = true.
Proof. destruct a as [|x]; [done|]. simpl. by intros _ ->. Qed.

(** C6 (as amended).  [calculate_levels] returns no levels for a NONE
    signal, and for a LONG or SHORT signal when the last ATR value is NaN
    or is at most 0.  Otherwise it returns, for LONG, the stop
    entry - ATR * sl_multiplier and the target entry + ATR * tp_multiplier,
    for SHORT the stop entry + ATR * sl_multiplier and the target
    entry - ATR * tp_multiplier, the ATR itself, and the risk distance
    ATR * sl_multiplier; the risk distance is not negative when the stop
    multiplier is positive.  On price arrays of one length that are not empty,
    with a period of at least 1, the ATR is computed and the function
    returns. *)
Theorem C6_calculate_levels self st entry high low close :
  (st = NONE -> calculate_levels self st entry high low close = Ok None) /\
  (forall atr a,
     st <> NONE ->
     calculate_atr high low close (atr_period self) = Ok atr ->
     getitem atr (-1) = Ok a ->
     (isnan a = true \/ (a <=? of_Z 0)%F = true ->
        calculate_levels self st entry high low close = Ok None) /\
     (isnan a = false -> (a <=? of_Z 0)%F = false ->
        calculate_levels self st entry high low close =
          Ok (Some
            {| stop_loss :=
                 match st with
                 | LONG => (entry - a * sl_multiplier self)%F
                 | _ => (entry + a * sl_multiplier self)%F
                 end;
               take_profit :=
                 match st with
                 | LONG => (entry + a * tp_multiplier self)%F
                 | _ => (entry - a * tp_multiplier self)%F
                 end;
               atr_value := a;
               risk_distance := (a * sl_multiplier self)%F |}) /\
        ((of_Z 0 <? sl_multiplier self)%F = true ->
           (of_Z 0 <=? a * sl_multiplier self)%F = true))) /\
  (1 <= atr_period self -> len high = len close -> len low = len close ->
     0 < len close ->
     exists atr a,
       calculate_atr high low close (atr_period self) = Ok atr /\
       getitem atr (-1) = Ok a).
Proof.
  split; [by intros ->|]. split.
  - intros atr a Hst Hatr Ha.
    assert (Hrun : calculate_levels self st entry high low close =
              if isnan a || (a <=? of_Z 0)%F then Ok None
              else Ok (Some
                {| stop_loss :=
                     match st with
                     | LONG => (entry - a * sl_multiplier self)%F
                     | _ => (entry + a * sl_multiplier self)%F
                     end;
                   take_profit :=
                     match st with
                     | LONG => (entry + a * tp_multiplier self)%F
                     | _ => (entry - a * tp_multiplier self)%F
                     end;
                   atr_value := a;
                   risk_distance := (a * sl_multiplier self)%F |})).
    { unfold calculate_levels. rewrite Hatr, bind_Ok, Ha, bind_Ok.
      destruct st; [done|..]; by destruct (isnan a || _). }
    split.
    + intros Hbad. rewrite Hrun.
      destruct Hbad as [-> | ->]; [done|]. by rewrite orb_true_r.
    + intros Hnum Hpos. rewrite Hrun, Hnum, Hpos. split; [done|].
      intros Hsl. apply mul_nonneg; [|done]. by apply not_leb_zero_pos.
  - intros Hp Hh Hl Hne.
    destruct (calculate_atr_total high low close (atr_period self) Hp Hh Hl)
      as (atr & Hatr & Hlen).
    destruct (getitem_neg atr (-1)) as (a & Ha & _); [lia|].
    by exists atr, a.
Qed.

(** C6, as stated, fails: with a stop multiplier of -1.5 and an ATR of
    0.002 the levels are returned and their risk distance is negative. *)
Lemma C6_counterexample_negative_risk_distance :
  exists levels,
    calculate_levels rm_negative LONG (dec 110000 5)
      (mt5.rate_high <$> flat_bars) (mt5.rate_low <$> flat_bars)
      (mt5.rate_close <$> flat_bars) = Ok (Some levels) /\
    same (atr_value levels) (dec 2 3) /\
    same (risk_distance levels) (Num (- 3 # 1000)) /\
    (risk_distance levels <? of_Z 0)%F = true.
Proof. eexists. split; [vm_compute; reflexivity|]. by vm_compute. Qed.

Lemma C6_witness :
  LONG <> NONE /\
  (of_Z 0 <? sl_multiplier rm_default)%F = true /\
  exists levels,
    calculate_levels rm_default LONG (dec 110000 5)
      (mt5.rate_high <$> flat_bars) (mt5.rate_low <$> flat_bars)
      (mt5.rate_close <$> flat_bars) = Ok (Some levels) /\
    same (atr_value levels) (dec 20 4) /\
    same (stop_loss levels) (dec 109700 5) /\
    same (take_profit levels) (dec 110400 5) /\
    (of_Z 0 <=? risk_distance levels)%F = true.
Proof.
  split; [done|]. split; [reflexivity|].
  destruct (C6_calculate_levels rm_default LONG (dec 110000 5)
              (mt5.rate_high <$> flat_bars) (mt5.rate_low <$> flat_bars)
              (mt5.rate_close <$> flat_bars)) as (_ & Hrun & Htot).
  destruct Htot as (atr & a & Hatr & Ha); [by vm_compute..|].
  destruct (Hrun atr a) as [_ Hok]; [done..|].
  vm_compute in Hatr. injection Hatr as <-.
  vm_compute in Ha. injection Ha as <-.
  destruct Hok as [Hlev Hpos]; [reflexivity..|].
  eexists. split; [exact Hlev|].
  split; [by vm_compute|]. split; [by vm_compute|]. split; [by vm_compute|].
  apply Hpos. reflexivity.
Defined.

End risk_facts.

(** ** The per-bar sequence *)

Section bar_facts.

Import indicators risk_manager mt5 main traces updates scenarios.

(** An undefined last ATR value reaches the position loop as zero. *)
Lemma current_atr_of_nan atr :
  getitem atr (-1) = Ok NaN -> current_atr_of atr = Ok (of_Z 0).
Proof. unfold current_atr_of. by intros ->. Qed.

(** With an ATR of zero a trailing long position is trailed at distance
    zero: whenever the price is above the stored stop, the price becomes
    the new stop. *)
Lemma update_zero_atr_trails self t s price :
  get_state self t = Some s ->
  is_breakeven s = true -> is_trailing s = true ->
  (price - of_Z 0 * trailing_atr_mult self >? current_sl s)%F = true ->
  (update self t price (of_Z 0) true).1.1
    = Some (price - of_Z 0 * trailing_atr_mult self)%F /\
  stop_of (update self t price (of_Z 0) true).1.2 t
    = Some (price - of_Z 0 * trailing_atr_mult self)%F.
Proof.
  unfold stop_of, get_state, update. intros -> -> -> ->. simpl.
  split; [done|]. by rewrite lookup_insert_eq.
Qed.

(** C4 fails on the code.  The terminal returns three bars, so the ATR of
    period 14 is undefined at the last bar; position 7 is long, has
    reached breakeven and is trailing with its stop at 1.10; the bar closes
    at 1.12.  [on_bar] passes an ATR of zero to [update], which trails at
    distance zero: the stop of the position is moved to the close, 1.12,
    and a modification of the stop to 1.12 is requested. *)
Theorem C4_undefined_atr_still_trails :
  (atr ← calculate_atr (rate_high <$> three_bars) (rate_low <$> three_bars)
           (rate_close <$> three_bars) config.ATR_PERIOD;
   getitem atr (-1)) = Ok NaN /\
  (exists s, get_state (trailing_manager bot_trailing) 7 = Some s /\
             is_trailing s = true /\ current_sl s = dec 110 2) /\
  exists bot' calls v,
    on_bar terminal_three_bars bot_trailing = Ok (bot', calls) /\
    modifications calls = [(7, v)] /\
    stop_of (trailing_manager bot') 7 = Some v /\
    same v (dec 112 2).
Proof.
  split; [by vm_compute|]. split; [eexists; by vm_compute|].
  eexists _, _, _. split; [vm_compute; reflexivity|]. by vm_compute.
Qed.

End bar_facts.


(** * Further properties of the code *)

(** ** TrailingStopManager: registry and frame *)

Section registry.

Import risk_manager updates scenarios.

Implicit Types (self : TrailingStopManager) (s : TrailingState).

Lemma with_positions_id self : with_positions self (_positions self) = self.
Proof. by destruct self. Qed.

(** X1.  The registry round trip.  [register_position] stores a fresh state
    under the ticket, whatever was stored there before, and
    [unregister_position] removes it; neither touches another ticket;
    unregistering an unknown ticket changes nothing, so registering a new
    ticket and unregistering it gives the manager back; [clear_all] leaves
    no ticket. *)
Theorem X1_registry_round_trip self t t' entry stop rd :
  get_state (register_position self t entry stop rd) t
    = Some (fresh t entry stop rd) /\
  get_state (unregister_position self t) t = None /\
  (t' <> t ->
     get_state (register_position self t entry stop rd) t' = get_state self t' /\
     get_state (unregister_position self t) t' = get_state self t') /\
  (get_state self t = None ->
     unregister_position self t = self /\
     unregister_position (register_position self t entry stop rd) t = self) /\
  get_state (clear_all self) t = None.
Proof.
  unfold get_state, unregister_position, register_position, clear_all.
  split; [apply lookup_insert_eq|]. split.
  { destruct (_positions self !! t) eqn:E; [apply lookup_delete_eq|done]. }
  split.
  { intros Hne. split; simpl; [by apply lookup_insert_ne|].
    destruct (_positions self !! t); [|done]. by apply lookup_delete_ne. }
  split; [|done].
  intros Hnone. rewrite Hnone. split; [done|]. simpl.
  rewrite lookup_insert_eq. unfold with_positions; simpl.
  rewrite delete_insert_eq, delete_id by done. by destruct self.
Qed.

Lemma X1_witness :
  2 <> 1 /\ get_state tsm 1 = None /\
  get_state tsm_long 2 = get_state tsm 2 /\
  unregister_position tsm_long 1 = tsm.
Proof.
  destruct (X1_registry_round_trip tsm 1 2 (of_Z 100) (of_Z 95) (of_Z 5))
    as (_ & _ & Hframe & Hback & _).
  split; [done|]. split; [reflexivity|].
  split; [exact (proj1 (Hframe ltac:(done)))|exact (proj2 (Hback eq_refl))].
Defined.

(** X2.  [update] keeps the registry and the identity of every position:
    a ticket is registered after the call exactly if it was before; the
    ticket number, entry price, initial stop and risk distance of a
    position never change; a breakeven or trailing flag that is set stays
    set; the two thresholds of the manager stay; and only the position of
    the ticket passed can change at all. *)
Theorem X2_update_frame self t t' p a l :
  breakeven_rr (update self t p a l).1.2 = breakeven_rr self /\
  trailing_atr_mult (update self t p a l).1.2 = trailing_atr_mult self /\
  (get_state self t' = None -> get_state (update self t p a l).1.2 t' = None) /\
  (forall s,
     get_state self t' = Some s ->
     exists s',
       get_state (update self t p a l).1.2 t' = Some s' /\
       ticket s' = ticket s /\
       ts_entry_price s' = ts_entry_price s /\
       initial_sl s' = initial_sl s /\
       ts_risk_distance s' = ts_risk_distance s /\
       (is_breakeven s = true -> is_breakeven s' = true) /\
       (is_trailing s = true -> is_trailing s' = true) /\
       (t' <> t -> s' = s)).
Proof.
  split; [apply update_breakeven_rr|].
  split; [unfold update; by repeat (case_match; simpl)|].
  destruct (decide (t' = t)) as [->|Hne].
  - unfold get_state, update. split.
    + intros Hs. by rewrite Hs.
    + intros s Hs. rewrite Hs.
      repeat (case_match; simpl; rewrite ?lookup_insert_eq);
        eexists; (split; [done|]); simpl; repeat split; try done; congruence.
  - rewrite update_other by done. split; [done|].
    intros s Hs. exists s. by repeat split.
Qed.

Lemma X2_witness :
  exists s',
    get_state (update tsm_long 1 (of_Z 106) (of_Z 1) true).1.2 1 = Some s' /\
    ts_entry_price s' = of_Z 100 /\ initial_sl s' = of_Z 95 /\
    is_breakeven s' = true.
Proof.
  destruct (X2_update_frame tsm_long 1 1 (of_Z 106) (of_Z 1) true)
    as (_ & _ & _ & H).
  destruct (H (fresh 1 (of_Z 100) (of_Z 95) (of_Z 5)) eq_refl)
    as (s' & Hs' & _ & He & Hi & _).
  exists s'. split; [exact Hs'|]. split; [exact He|]. split; [exact Hi|].
  vm_compute in Hs'. by injection Hs' as <-.
Defined.

End registry.

(** ** TrailingStopManager: before and after breakeven *)

Section lifecycle.

Import risk_manager updates scenarios.

Implicit Types (self : TrailingStopManager) (s : TrailingState).

(** A call that does not qualify, on a position that has not reached
    breakeven and is not trailing, does nothing. *)
Lemma quiet_step self t s c :
  get_state self t = Some s ->
  is_breakeven s = false -> is_trailing s = false ->
  qualifies (breakeven_rr self) s t c = false ->
  get_state (after self c) t = Some s /\
  breakeven_rr (after self c) = breakeven_rr self /\
  (c_ticket c = t -> step self c = (None, self, [])).
Proof.
  intros Hs Hbe Htr Hq. unfold after, step.
  split; [|split; [apply update_breakeven_rr|]].
  - destruct (decide (c_ticket c = t)) as [E|E]; [|by rewrite update_other].
    unfold qualifies in Hq. rewrite E, Z.eqb_refl in Hq. simpl in Hq.
    revert Hs. unfold get_state, update. rewrite E. intros Hs.
    by rewrite Hs, Hbe, Htr, Hq.
  - intros E. unfold qualifies in Hq. rewrite E, Z.eqb_refl in Hq. simpl in Hq.
    revert Hs. unfold get_state, update. rewrite E. intros Hs.
    by rewrite Hs, Hbe, Htr, Hq.
Qed.

Lemma quiet_run self t s cs :
  get_state self t = Some s ->
  is_breakeven s = false -> is_trailing s = false ->
  existsb (qualifies (breakeven_rr self) s t) cs = false ->
  get_state (run self cs) t = Some s /\
  breakeven_rr (run self cs) = breakeven_rr self.
Proof.
  intros Hs Hbe Htr. revert self Hs.
  induction cs as [|c cs IH]; intros self Hs Hq; simpl in *; [done|].
  apply orb_false_iff in Hq as [Hc Hcs].
  destruct (quiet_step self t s c Hs Hbe Htr Hc) as (Hs' & Hrr & _).
  destruct (IH (after self c) Hs') as [Hr Hrr']; [by rewrite Hrr|].
  split; [done|]. by rewrite Hrr'.
Qed.

(** X3.  No trailing before breakeven.  After registration, as long as no
    call on the ticket has reached the breakeven threshold, the position
    is exactly as registered, whatever prices and ATR values the calls
    carried, and a further call that does not reach the threshold returns
    no change, leaves the manager as it is and logs nothing. *)
Theorem X3_no_trailing_before_breakeven self0 t entry stop rd cs c :
  let self := register_position self0 t entry stop rd in
  let q := qualifies (breakeven_rr self0) (fresh t entry stop rd) t in
  existsb q cs = false ->
  get_state (run self cs) t = Some (fresh t entry stop rd) /\
  (c_ticket c = t -> q c = false ->
     step (run self cs) c = (None, run self cs, [])).
Proof.
  intros self q Hq.
  destruct (quiet_run self t (fresh t entry stop rd) cs) as [Hs Hrr];
    [apply register_position_lookup|done..|].
  split; [done|]. intros Ht Hc.
  destruct (quiet_step (run self cs) t (fresh t entry stop rd) c) as (_ & _ & H);
    [done..|by rewrite Hrr|by apply H].
Qed.

Lemma X3_witness :
  existsb (qualifies (of_Z 1) (fresh 1 (of_Z 100) (of_Z 95) (of_Z 5)) 1)
    [call_at 1 103 1 true; call_at 1 90 7 true] = false /\
  get_state (run tsm_long [call_at 1 103 1 true; call_at 1 90 7 true]) 1
    = Some (fresh 1 (of_Z 100) (of_Z 95) (of_Z 5)) /\
  step (run tsm_long [call_at 1 103 1 true; call_at 1 90 7 true])
    (call_at 1 104 1 true)
    = (None, run tsm_long [call_at 1 103 1 true; call_at 1 90 7 true], []).
Proof.
  destruct (X3_no_trailing_before_breakeven tsm 1 (of_Z 100) (of_Z 95) (of_Z 5)
              [call_at 1 103 1 true; call_at 1 90 7 true] (call_at 1 104 1 true))
    as [H1 H2]; [reflexivity|].
  split; [reflexivity|]. split; [exact H1|]. apply H2; reflexivity.
Defined.

(** X4.  A position registered with a risk distance that is not positive
    (zero, negative or NaN) has a profit ratio of 0 at every price; with a
    positive breakeven threshold it never reaches breakeven and so never
    trails: after any sequence of calls it is exactly as registered, and
    every call on it returns no change. *)
Theorem X4_no_risk_distance_no_breakeven self0 t entry stop rd cs c :
  (rd >? of_Z 0)%F = false ->
  (of_Z 0 <? breakeven_rr self0)%F = true ->
  let self := register_position self0 t entry stop rd in
  get_state (run self cs) t = Some (fresh t entry stop rd) /\
  (c_ticket c = t -> step (run self cs) c = (None, run self cs, [])).
Proof.
  intros Hrd Hrr self.
  assert (Hq : forall c', qualifies (breakeven_rr self0)
                            (fresh t entry stop rd) t c' = false).
  { intros c'. unfold qualifies, profit_rr, fresh.
    cbn [ts_risk_distance ts_entry_price]. rewrite Hrd.
    apply andb_false_intro2. unfold geb.
    apply ltb_true in Hrr as (z & y & Hz & -> & Hlt). injection Hz as <-.
    simpl. destruct (Qle_bool y (inject_Z 0)) eqn:E; [|done].
    apply Qle_bool_iff in E. exfalso. exact (Qlt_not_le _ _ Hlt E). }
  assert (Hcs : existsb (qualifies (breakeven_rr self0)
                           (fresh t entry stop rd) t) cs = false).
  { induction cs as [|c' cs IH]; [done|]. simpl. by rewrite Hq, IH. }
  destruct (quiet_run self t (fresh t entry stop rd) cs) as [Hs Hrr'];
    [apply register_position_lookup|done..|].
  split; [done|]. intros Ht.
  destruct (quiet_step (run self cs) t (fresh t entry stop rd) c) as (_ & _ & H);
    [done..|rewrite Hrr'; apply Hq|by apply H].
Qed.

Lemma X4_witness :
  (of_Z 0 >? of_Z 0)%F = false /\
  (of_Z 0 <? breakeven_rr tsm)%F = true /\
  step (run (register_position tsm 1 (of_Z 100) (of_Z 100) (of_Z 0))
          [call_at 1 150 1 true])
       (call_at 1 200 1 true)
    = (None,
       run (register_position tsm 1 (of_Z 100) (of_Z 100) (of_Z 0))
         [call_at 1 150 1 true], []).
Proof.
  split; [reflexivity|]. split; [reflexivity|].
  destruct (X4_no_risk_distance_no_breakeven tsm 1 (of_Z 100) (of_Z 100) (of_Z 0)
              [call_at 1 150 1 true] (call_at 1 200 1 true)) as [_ H];
    [reflexivity..|].
  apply H. reflexivity.
Defined.

(** X5.  Undefined inputs move nothing.  With a NaN price, a position whose
    risk distance is positive, or which is past breakeven, is left as it
    is: no change is returned and nothing is logged.  With a NaN ATR a
    position past breakeven is left as it is at every price: a NaN
    trailing distance fails both comparisons. *)
Theorem X5_nan_inputs_move_nothing self t s p a l :
  get_state self t = Some s ->
  ((ts_risk_distance s >? of_Z 0)%F = true \/ is_breakeven s = true ->
     update self t NaN a l = (None, self, [])) /\
  (is_breakeven s = true -> update self t p NaN l = (None, self, [])).
Proof.
  unfold get_state. intros Hs. split.
  - intros H. unfold update. rewrite Hs.
    assert (Hfire : negb (is_breakeven s)
                    && (profit_rr s NaN l >=? breakeven_rr self)%F = false).
    { destruct H as [Hrd| ->]; [|done]. apply andb_false_intro2.
      unfold profit_rr. rewrite Hrd.
      destruct l, (ts_entry_price s), (ts_risk_distance s), (breakeven_rr self);
        done. }
    rewrite Hfire. destruct (is_trailing s); [|done].
    destruct l; simpl; unfold gtb; simpl; by destruct (current_sl s).
  - intros Hbe. unfold update. rewrite Hs, Hbe. simpl.
    destruct (is_trailing s); [|done].
    destruct l, p; simpl; unfold gtb; simpl; by destruct (current_sl s).
Qed.

Lemma X5_witness :
  get_state tsm_trailing 7 = Some
    (set_stop (fresh 7 (dec 110 2) (dec 1097 3) (dec 3 3)) true true (dec 110 2)) /\
  update tsm_trailing 7 NaN (of_Z 1) true = (None, tsm_trailing, []) /\
  update tsm_trailing 7 (dec 112 2) NaN true = (None, tsm_trailing, []).
Proof.
  destruct (X5_nan_inputs_move_nothing tsm_trailing 7
              (set_stop (fresh 7 (dec 110 2) (dec 1097 3) (dec 3 3))
                 true true (dec 110 2))
              (dec 112 2) (of_Z 1) true) as [H1 H2]; [reflexivity|].
  split; [reflexivity|]. split; [apply H1; by right|by apply H2].
Defined.

End lifecycle.

Section locked.

Import risk_manager updates scenarios.

Implicit Types (self : TrailingStopManager) (s : TrailingState).

(** A call that does not take the breakeven branch changes at most the
    stop, and changes nothing of a position that is not trailing. *)
Lemma update_quiet_shape self t s p a l s' :
  get_state self t = Some s ->
  negb (is_breakeven s) && (profit_rr s p l >=? breakeven_rr self)%F = false ->
  get_state (update self t p a l).1.2 t = Some s' ->
  is_trailing s' = is_trailing s /\
  is_breakeven s' = is_breakeven s /\
  ts_entry_price s' = ts_entry_price s /\
  (is_trailing s = false -> s' = s).
Proof.
  unfold get_state, update. intros Hs Hf. rewrite Hs, Hf.
  destruct (is_trailing s) eqn:Etr; simpl; [|rewrite Hs; by intros [= <-]].
  repeat case_match; simpl; rewrite ?lookup_insert_eq, ?Hs; intros [= <-];
    by simpl.
Qed.

(** One call keeps what holds of a sane position: the entry price stays,
    the two flags agree, the stop is the initial one until breakeven and is
    not behind the entry price from breakeven on. *)
Lemma locked_step self t s p a l entry stop :
  get_state self t = Some s ->
  stop_inv l s ->
  ts_entry_price s = entry ->
  is_trailing s = is_breakeven s ->
  (is_breakeven s = false -> current_sl s = stop) ->
  (is_breakeven s = true -> not_behind l entry (current_sl s) = true) ->
  exists s',
    get_state (update self t p a l).1.2 t = Some s' /\
    stop_inv l s' /\
    ts_entry_price s' = entry /\
    is_trailing s' = is_breakeven s' /\
    (is_breakeven s' = false -> current_sl s' = stop) /\
    (is_breakeven s' = true -> not_behind l entry (current_sl s') = true).
Proof.
  intros Hs Hinv He Hfl Hpre Hpost.
  destruct (update_step self t s p a l Hs Hinv) as (s' & Hs' & Hinv' & Hle & _).
  exists s'. split; [done|]. split; [done|].
  pose proof (update_registered self t s p a l Hs) as Hu.
  destruct (negb (is_breakeven s) && _) eqn:Efire.
  - rewrite Hu in Hs'. unfold get_state in Hs'. simpl in Hs'.
    rewrite lookup_insert_eq in Hs'. injection Hs' as <-. simpl.
    split; [done|]. split; [done|]. split; [done|]. intros _. rewrite He.
    apply not_behind_refl. rewrite <- He.
    apply andb_true_iff in Efire as [Eb _]. apply negb_true_iff in Eb.
    destruct Hinv as [_ Hbey]. destruct (Hbey Eb) as [_ Hb].
    by apply beyond_num in Hb as [_ ?].
  - destruct (update_quiet_shape self t s p a l s' Hs Efire Hs')
      as (Htr' & Hbe' & He' & Hsame).
    split; [congruence|]. split; [congruence|].
    destruct (is_breakeven s) eqn:Eb.
    + split; [congruence|]. intros _.
      eapply not_behind_trans; [by apply Hpost|done].
    + rewrite (Hsame Hfl). split; [by intros _; apply Hpre|congruence].
Qed.

(** X6.  For a position registered with its stop strictly on the loss side
    of its entry, after any sequence of calls made with its direction: the
    two flags are equal (a position trails exactly from breakeven on);
    until breakeven the stop is still the one registered; and from
    breakeven on the stop is never on the loss side of the entry price, so
    the position can no longer close at a loss. *)
Theorem X6_locked_after_breakeven self0 t entry stop rd l cs :
  beyond l stop entry = true ->
  same_direction t l cs ->
  exists s,
    get_state (run (register_position self0 t entry stop rd) cs) t = Some s /\
    ts_entry_price s = entry /\
    is_trailing s = is_breakeven s /\
    (is_breakeven s = false -> current_sl s = stop) /\
    (is_breakeven s = true -> not_behind l entry (current_sl s) = true).
Proof.
  intros Hstop Hdir.
  assert (Hgen : forall self s,
            get_state self t = Some s -> stop_inv l s ->
            ts_entry_price s = entry -> is_trailing s = is_breakeven s ->
            (is_breakeven s = false -> current_sl s = stop) ->
            (is_breakeven s = true -> not_behind l entry (current_sl s) = true) ->
            exists s',
              get_state (run self cs) t = Some s' /\
              ts_entry_price s' = entry /\
              is_trailing s' = is_breakeven s' /\
              (is_breakeven s' = false -> current_sl s' = stop) /\
              (is_breakeven s' = true -> not_behind l entry (current_sl s') = true)).
  { induction Hdir as [|c cs Hc _ IH]; intros self s Hs Hinv He Hfl Hpre Hpost.
    - by exists s.
    - simpl. destruct (decide (c_ticket c = t)) as [Ht|Ht].
      + destruct (locked_step self t s (c_price c) (c_atr c) l entry stop)
          as (s1 & Hs1 & Hinv1 & He1 & Hfl1 & Hpre1 & Hpost1); [done..|].
        apply (IH (after self c) s1); try done.
        unfold after, step. by rewrite Ht, (Hc Ht).
      + apply (IH (after self c) s); try done.
        unfold after, step. by rewrite update_other. }
  apply (Hgen _ (fresh t entry stop rd));
    [apply register_position_lookup|by apply fresh_inv|done..].
Qed.

Lemma X6_witness :
  beyond true (of_Z 95) (of_Z 100) = true /\
  same_direction 1 true [call_at 1 106 1 true; call_at 1 103 1 true] /\
  exists s,
    get_state (run tsm_long [call_at 1 106 1 true; call_at 1 103 1 true]) 1
      = Some s /\
    is_breakeven s = true /\
    not_behind true (of_Z 100) (current_sl s) = true.
Proof.
  split; [reflexivity|]. split; [by repeat constructor|].
  destruct (X6_locked_after_breakeven tsm 1 (of_Z 100) (of_Z 95) (of_Z 5) true
              [call_at 1 106 1 true; call_at 1 103 1 true])
    as (s & Hs & _ & _ & _ & Hpost); [reflexivity|by repeat constructor|].
  exists s. split; [exact Hs|].
  assert (Hb : is_breakeven s = true).
  { vm_compute in Hs. by injection Hs as <-. }
  split; [exact Hb|exact (Hpost Hb)].
Defined.

End locked.

(** ** KillSwitch: counting and thresholds *)

Section kill_more.

Import mt5 kill_switch traces accounting scenarios.

Implicit Types (t : Terminal) (self : KillSwitch).

Lemma kill_loop_count t self positions n calls :
  (foldl (kill_one t self) (n, calls) positions).1 =
    n + Z.of_nat (length (filter (fun r => answered_done t r = true)
                            (omap (kill_order t self) positions))).
Proof.
  revert n calls. induction positions as [|pos ps IH]; intros n calls.
  - simpl. lia.
  - cbn [foldl].
    change (omap (kill_order t self) (pos :: ps)) with
      (match kill_order t self pos with
       | Some y => y :: omap (kill_order t self) ps
       | None => omap (kill_order t self) ps
       end).
    unfold kill_one at 2. unfold kill_order at 1.
    destruct (_ && _); [apply IH|]. unfold closing.
    destruct (symbol_info_tick t (pos_symbol pos)) as [tick|];
      cbn [fmap option_fmap option_map]; [|apply IH].
    rewrite filter_cons.
    destruct (decide (answered_done t (close_request pos tick) = true)) as [Hd|Hd];
      unfold answered_done in Hd;
      destruct (order_send t (close_request pos tick)) as [r|];
      [destruct (retcode r =? TRADE_RETCODE_DONE)|
      |destruct (retcode r =? TRADE_RETCODE_DONE)|];
      try done; rewrite IH; cbn [length]; lia.
Qed.

Lemma length_omap_le {A B} (f : A -> option B) (l : list A) :
  (length (omap f l) <= length l)%nat.
Proof. induction l as [|x l IH]; csimpl; [done|]. destruct (f x); simpl; lia. Qed.

(** X7.  What [execute_kill] reports.  A switch that is not triggered makes
    no call at all and reports 0.  A triggered one reports the number of
    orders it sent that the terminal answered "done": never more than the
    orders sent, which are never more than the positions returned, one
    order at most for each. *)
Theorem X7_execute_kill_count t self positions :
  (_is_triggered self = false -> execute_kill t self = (0, self, [])) /\
  (_is_triggered self = true -> positions_get t = Some positions ->
     let '(closed_count, _, calls) := execute_kill t self in
     closed_count =
       Z.of_nat (length (filter (fun r => answered_done t r = true)
                           (orders_sent calls))) /\
     orders_sent calls = omap (kill_order t self) positions /\
     0 <= closed_count <= Z.of_nat (length (orders_sent calls)) /\
     (length (orders_sent calls) <= length positions)%nat).
Proof.
  split; [unfold execute_kill; by intros ->|].
  intros Htr Hpos. unfold execute_kill. rewrite Htr, Hpos. simpl.
  pose proof (kill_loop_count t self positions 0 [PositionsGetCall]) as Hn.
  pose proof (kill_loop_orders t self positions 0 [PositionsGetCall]) as Ho.
  destruct (foldl _ _ _) as [n calls]. simpl in *.
  fold (kill_order t self) in Ho.
  assert (Ho' : orders_sent calls = omap (kill_order t self) positions) by done.
  rewrite Ho'. split; [lia|]. split; [done|]. split.
  - rewrite Hn. split; [lia|].
    pose proof (length_filter (fun r => answered_done t r = true)
                  (omap (kill_order t self) positions)). lia.
  - apply length_omap_le.
Qed.

Lemma X7_witness :
  _is_triggered triggered = true /\
  positions_get terminal_ticks = Some two_positions /\
  (execute_kill terminal_ticks triggered).1.1 = 2 /\
  length (orders_sent (execute_kill terminal_ticks triggered).2) = 2%nat.
Proof.
  split; [reflexivity|]. split; [reflexivity|].
  pose proof (X7_execute_kill_count terminal_ticks triggered two_positions)
    as [_ H].
  specialize (H eq_refl eq_refl).
  destruct (execute_kill terminal_ticks triggered) as [[n ks] calls] eqn:E.
  destruct H as (Hn & Ho & _). simpl. rewrite Hn, Ho. split; reflexivity.
Defined.

(** What an armed switch with a positive starting equity does when it can
    read the equity. *)
Lemma check_armed t self (s : Q) info :
  _is_triggered self = false -> _is_initialized self = true ->
  _starting_equity self = Some (Num s) -> (0 < s)%Q ->
  account_info t = Some info ->
  let breach := ((Num s - equity info) / Num s >=? drawdown_limit self)%F in
  check t self =
    Ok (breach, if breach then set_triggered self else self, [AccountInfoCall]).
Proof.
  intros Htr Hinit Hstart Hs Hacc. unfold check.
  rewrite Htr, Hinit, Hstart, Hacc. unfold py_div.
  replace (Qeq_bool s 0) with false.
  2:{ symmetry. apply not_true_is_false. intros E.
      apply Qeq_bool_iff in E. lra. }
  rewrite bind_Ok. by destruct (_ >=? _)%F.
Qed.

(** The drawdown computed from a positive starting equity does not fall
    when the equity falls; it is at most 0 for an equity at or above the
    starting equity, and at least 1 for an equity at or below 0. *)
Lemma drawdown_order (s e e' : Q) :
  (0 < s)%Q ->
  ((e' <= e)%Q -> ((s - e) / s <= (s - e') / s)%Q) /\
  ((s <= e)%Q -> ((s - e) / s <= 0)%Q) /\
  ((e <= 0)%Q -> (1 <= (s - e) / s)%Q).
Proof.
  intros Hs. split; [|split]; intros H.
  - apply Qle_shift_div_l; [done|].
    assert (H1 : ((s - e) / s * s == s - e)%Q) by (field; lra). lra.
  - apply Qle_shift_div_r; [done|]. lra.
  - apply Qle_shift_div_l; [done|]. lra.
Qed.

(** X8.  The trigger follows the equity.  For an armed switch with a
    positive starting equity that reads the equity: if it triggers at one
    equity it triggers at every equity at or below that one; with a
    positive limit it does not trigger at an equity at or above the
    starting equity; and with a limit of at most 1 it triggers at every
    equity at or below 0.  (Each of the three holds of the rounded
    binary64 quotient as well, since rounding keeps the order; where the
    threshold lies exactly between is not claimed.) *)
Theorem X8_trigger_follows_equity t t' self (s : Q) info info' :
  _is_triggered self = false -> _is_initialized self = true ->
  _starting_equity self = Some (Num s) -> (0 < s)%Q ->
  account_info t = Some info -> account_info t' = Some info' ->
  ((equity info' <=? equity info)%F = true ->
   forall self1 calls,
     check t self = Ok (true, self1, calls) ->
     check t' self = Ok (true, set_triggered self, [AccountInfoCall])) /\
  ((of_Z 0 <? drawdown_limit self)%F = true ->
   (Num s <=? equity info)%F = true ->
   check t self = Ok (false, self, [AccountInfoCall])) /\
  ((drawdown_limit self <=? of_Z 1)%F = true ->
   (equity info <=? of_Z 0)%F = true ->
   check t self = Ok (true, set_triggered self, [AccountInfoCall])).
Proof.
  intros Htr Hinit Hstart Hs Hacc Hacc'.
  pose proof (check_armed t self s info Htr Hinit Hstart Hs Hacc) as Hc.
  pose proof (check_armed t' self s info' Htr Hinit Hstart Hs Hacc') as Hc'.
  assert (Hnz : Qeq_bool s 0 = false).
  { apply not_true_is_false. intros E. apply Qeq_bool_iff in E. lra. }
  cbv zeta in Hc, Hc'. split; [|split].
  - intros Hle self1 calls Hrun. rewrite Hc in Hrun.
    destruct ((Num s - equity info) / Num s >=? drawdown_limit self)%F eqn:Eb;
      [|by injection Hrun].
    rewrite Hc'.
    replace ((Num s - equity info') / Num s >=? drawdown_limit self)%F with true;
      [done|].
    symmetry. revert Hle Eb.
    destruct (equity info) as [|e], (equity info') as [|e']; try done.
    destruct (drawdown_limit self) as [|l]; unfold geb, leb, sub, div, lift2;
      rewrite ?Hnz; [done|].
    rewrite !Qle_bool_iff. intros Hle Hb.
    destruct (drawdown_order s e e' Hs) as (Hmono & _ & _).
    specialize (Hmono Hle). lra.
  - intros Hl Hge. rewrite Hc.
    replace ((Num s - equity info) / Num s >=? drawdown_limit self)%F with false;
      [done|].
    symmetry. revert Hl Hge.
    destruct (equity info) as [|e]; [done|].
    destruct (drawdown_limit self) as [|l];
      unfold geb, leb, ltb, sub, div, lift2, of_Z; rewrite ?Hnz; [done|].
    change (inject_Z 0) with 0%Q. rewrite negb_true_iff, Qle_bool_iff.
    intros Hl Hge. apply not_true_is_false. intros Hb%Qle_bool_iff.
    destruct (drawdown_order s e e Hs) as (_ & Hzero & _).
    specialize (Hzero Hge).
    assert (l <= 0)%Q by lra. apply Qle_bool_iff in H. congruence.
  - intros Hl Hle. rewrite Hc.
    replace ((Num s - equity info) / Num s >=? drawdown_limit self)%F with true;
      [done|].
    symmetry. revert Hl Hle.
    destruct (equity info) as [|e]; [done|].
    destruct (drawdown_limit self) as [|l];
      unfold geb, leb, sub, div, lift2, of_Z; rewrite ?Hnz; [done|].
    change (inject_Z 0) with 0%Q. change (inject_Z 1) with 1%Q.
    rewrite !Qle_bool_iff. intros Hl Hle.
    destruct (drawdown_order s e e Hs) as (_ & _ & Hone).
    specialize (Hone Hle). lra.
Qed.

Lemma X8_witness :
  (0 < 10000)%Q /\
  check (terminal (Some (of_Z 9000)) [] true []) armed
    = Ok (true, set_triggered armed, [AccountInfoCall]) /\
  check (terminal (Some (of_Z 10000)) [] true []) armed
    = Ok (false, armed, [AccountInfoCall]) /\
  check (terminal (Some (of_Z 0)) [] true []) armed
    = Ok (true, set_triggered armed, [AccountInfoCall]).
Proof.
  split; [reflexivity|].
  destruct (X8_trigger_follows_equity (terminal (Some (of_Z 9400)) [] true [])
              (terminal (Some (of_Z 9000)) [] true []) armed 10000
              {| equity := of_Z 9400 |} {| equity := of_Z 9000 |}
              eq_refl eq_refl eq_refl eq_refl eq_refl eq_refl) as (H1 & _ & _).
  destruct (X8_trigger_follows_equity (terminal (Some (of_Z 10000)) [] true [])
              (terminal (Some (of_Z 10000)) [] true []) armed 10000
              {| equity := of_Z 10000 |} {| equity := of_Z 10000 |}
              eq_refl eq_refl eq_refl eq_refl eq_refl eq_refl) as (_ & H2 & _).
  destruct (X8_trigger_follows_equity (terminal (Some (of_Z 0)) [] true [])
              (terminal (Some (of_Z 0)) [] true []) armed 10000
              {| equity := of_Z 0 |} {| equity := of_Z 0 |}
              eq_refl eq_refl eq_refl eq_refl eq_refl eq_refl) as (_ & _ & H3).
  split; [|split].
  - apply (H1 eq_refl (set_triggered armed) [AccountInfoCall]). reflexivity.
  - apply H2; reflexivity.
  - apply H3; reflexivity.
Defined.

(** X9.  Arming.  When the terminal reports an equity that is a number
    other than zero, [initialize] succeeds, records it, and clears the
    latch even of a switch that had triggered; with a positive limit a
    [check] against the same report then does not trigger.  When the
    terminal reports nothing, [initialize] fails and leaves the switch as
    it was. *)
Theorem X9_initialize_arms t self :
  (account_info t = None -> initialize t self = (false, self, [AccountInfoCall])) /\
  (forall info (e : Q),
     account_info t = Some info -> equity info = Num e -> ~ (e == 0)%Q ->
     (of_Z 0 <? drawdown_limit self)%F = true ->
     let self1 := (initialize t self).1.2 in
     (initialize t self).1.1 = true /\
     _starting_equity self1 = Some (Num e) /\
     _is_triggered self1 = false /\
     check t self1 = Ok (false, self1, [AccountInfoCall])).
Proof.
  split; [unfold initialize; by intros ->|].
  intros info e Hacc He Hnz Hl. unfold initialize. rewrite Hacc, He. simpl.
  split; [done|]. split; [done|]. split; [done|].
  unfold check. simpl. rewrite Hacc, He. unfold py_div.
  replace (Qeq_bool e 0) with false
    by (symmetry; apply not_true_is_false; by intros E%Qeq_bool_iff).
  rewrite bind_Ok.
  apply ltb_true in Hl as (z & l & Hz & Hlim & Hlt). injection Hz as <-.
  rewrite Hlim. unfold geb, leb, div, sub, lift2.
  replace (Qeq_bool e 0) with false
    by (symmetry; apply not_true_is_false; by intros E%Qeq_bool_iff).
  replace (Qle_bool l ((e - e) / e)) with false; [done|].
  symmetry. apply not_true_is_false. intros E. apply Qle_bool_iff in E.
  assert (H0 : ((e - e) / e == 0)%Q) by (field; done).
  rewrite H0 in E. change (inject_Z 0) with 0%Q in Hlt. lra.
Qed.

Lemma X9_witness :
  (of_Z 0 <? drawdown_limit triggered)%F = true /\
  _is_triggered triggered = true /\
  _is_triggered (initialize terminal_ticks triggered).1.2 = false /\
  check terminal_ticks (initialize terminal_ticks triggered).1.2
    = Ok (false, (initialize terminal_ticks triggered).1.2, [AccountInfoCall]).
Proof.
  split; [reflexivity|]. split; [reflexivity|].
  destruct (X9_initialize_arms terminal_ticks triggered) as [_ H].
  destruct (H {| equity := of_Z 9400 |} 9400%Q eq_refl eq_refl)
    as (_ & _ & H3 & H4); [done|reflexivity|].
  split; [exact H3|exact H4].
Defined.

End kill_more.

(** ** SignalGenerator and RiskManager: what a result guarantees *)

Section results.

Import indicators signals risk_manager scenarios.

(** X10.  A signal is emitted only on a genuine crossing under the trend
    filter.  A returned LONG or SHORT signal means: the history was
    sufficient; its EMA and RSI values are the last values of
    [calculate_ema] and [calculate_rsi] and its entry price the close
    used, none of them NaN; for LONG the entry price is strictly above the
    EMA, the previous RSI is at or below the oversold level and the current
    RSI strictly above it; for SHORT the entry price is strictly below the
    EMA, the previous RSI at or above the overbought level and the current
    RSI strictly below it. *)
Theorem X10_signal_sound self close cp sig :
  generate self close cp = Ok sig ->
  is_valid sig = true ->
  Z.max (ema_period self) (rsi_period self) + 2 <= len close /\
  isnan (entry_price sig) = false /\
  isnan (ema_value sig) = false /\
  isnan (rsi_value sig) = false /\
  exists ema rsi previous_rsi,
    calculate_ema close (ema_period self) = Ok ema /\
    calculate_rsi close (rsi_period self) = Ok rsi /\
    current_close_of close cp = Ok (entry_price sig) /\
    getitem ema (-1) = Ok (ema_value sig) /\
    getitem rsi (-1) = Ok (signals.rsi_value sig) /\
    getitem rsi (-2) = Ok previous_rsi /\
    match signal_type sig with
    | LONG =>
        (entry_price sig >? ema_value sig)%F = true /\
        (previous_rsi <=? rsi_oversold self)%F = true /\
        (rsi_oversold self <? signals.rsi_value sig)%F = true
    | SHORT =>
        (entry_price sig <? ema_value sig)%F = true /\
        (previous_rsi >=? rsi_overbought self)%F = true /\
        (signals.rsi_value sig <? rsi_overbought self)%F = true
    | NONE => False
    end.
Proof.
  unfold generate, is_valid. intros H Hvalid.
  destruct (len close <? _) eqn:Elen.
  { injection H as <-. done. }
  apply Z.ltb_ge in Elen. split; [done|].
  destruct (calculate_ema close (ema_period self)) as [ema|] eqn:Eema;
    [rewrite bind_Ok in H|done].
  destruct (calculate_rsi close (rsi_period self)) as [rsi|] eqn:Ersi;
    [rewrite bind_Ok in H|done].
  destruct (current_close_of close cp) as [c|] eqn:Ec; [rewrite bind_Ok in H|done].
  destruct (getitem ema (-1)) as [e|] eqn:Ee; [rewrite bind_Ok in H|done].
  destruct (getitem rsi (-1)) as [r|] eqn:Er; [rewrite bind_Ok in H|done].
  destruct (getitem rsi (-2)) as [r'|] eqn:Er'; [rewrite bind_Ok in H|done].
  destruct (isnan e || isnan r || isnan r') eqn:Enan.
  { injection H as <-. done. }
  apply orb_false_iff in Enan as [Enan _].
  apply orb_false_iff in Enan as [Ene Enr].
  destruct (c >? e)%F eqn:Egt.
  - destruct (_ && _) eqn:Ecross; injection H as <-; [|done]. simpl.
    apply andb_true_iff in Ecross as [? ?].
    split; [by apply ltb_not_nan_r in Egt|]. do 2 (split; [done|]).
    by exists ema, rsi, r'.
  - destruct (c <? e)%F eqn:Elt; [|injection H as <-; done].
    destruct (_ && _) eqn:Ecross; injection H as <-; [|done]. simpl.
    apply andb_true_iff in Ecross as [? ?].
    split; [by apply ltb_not_nan_l in Elt|]. do 2 (split; [done|]).
    by exists ema, rsi, r'.
Qed.

Lemma X10_witness :
  exists sig,
    generate generator_1 closes_312 (Some (dec 25 1)) = Ok sig /\
    is_valid sig = true /\
    signal_type sig = LONG /\
    (entry_price sig >? ema_value sig)%F = true.
Proof.
  destruct (generate generator_1 closes_312 (Some (dec 25 1))) as [sig|] eqn:E;
    [|by vm_compute in E].
  assert (Hv : is_valid sig = true) by (vm_compute in E; by injection E as <-).
  assert (Ht : signal_type sig = LONG) by (vm_compute in E; by injection E as <-).
  destruct (X10_signal_sound generator_1 closes_312 (Some (dec 25 1)) sig E Hv)
    as (_ & _ & _ & _ & ema & rsi & r' & _ & _ & _ & _ & _ & _ & Hm).
  exists sig. split; [reflexivity|]. split; [exact Hv|]. split; [exact Ht|].
  rewrite Ht in Hm. exact (proj1 Hm).
Defined.

(** X11.  The levels are never on the wrong side of the entry.  When
    [calculate_levels] returns levels for an entry price that is a (finite)
    number, with both multipliers positive: the ATR used is positive and the
    risk distance is not negative; for LONG the stop is at or below the
    entry and the target at or above it; for SHORT the stop is at or above
    the entry and the target at or below it.  (In binary64 a distance that
    is small against the entry is absorbed, and stop, entry and target can
    coincide; so no strict inequality is claimed.) *)
Theorem X11_levels_bracket_entry self st entry high low close levels :
  calculate_levels self st entry high low close = Ok (Some levels) ->
  isnan entry = false ->
  (of_Z 0 <? sl_multiplier self)%F = true ->
  (of_Z 0 <? tp_multiplier self)%F = true ->
  (of_Z 0 <? atr_value levels)%F = true /\
  (of_Z 0 <=? risk_distance levels)%F = true /\
  match st with
  | LONG =>
      (stop_loss levels <=? entry)%F = true /\
      (entry <=? take_profit levels)%F = true
  | SHORT =>
      (take_profit levels <=? entry)%F = true /\
      (entry <=? stop_loss levels)%F = true
  | NONE => False
  end.
Proof.
  unfold calculate_levels. intros H Hentry Hsl Htp.
  destruct st; [done|..];
    (destruct (indicators.calculate_atr high low close (atr_period self))
       as [atr|]; [rewrite bind_Ok in H|done]);
    (destruct (getitem atr (-1)) as [a|]; [rewrite bind_Ok in H|done]);
    (destruct (isnan a || (a <=? of_Z 0)%F) eqn:Ea; [done|]);
    apply orb_false_iff in Ea as [Ean Eap];
    pose proof (not_leb_zero_pos a Ean Eap) as Hpos;
    injection H as <-;
    apply ltb_true in Hpos as (z & x & Hz & -> & Hx); injection Hz as <-;
    apply ltb_true in Hsl as (z & y & Hz & -> & Hy); injection Hz as <-;
    apply ltb_true in Htp as (z & w & Hz & -> & Hw); injection Hz as <-;
    destruct entry as [|e]; try done;
    cbn -[Qabs Qplus Qminus Qmult Qopp Qle_bool Qeq];
    change (inject_Z 0) with 0%Q in *;
    pose proof (Qmult_lt_0_compat _ _ Hx Hy);
    pose proof (Qmult_lt_0_compat _ _ Hx Hw);
    rewrite ?negb_true_iff, ?Qle_bool_iff;
    repeat split;
    try lra;
    try (apply not_true_is_false; intros E%Qle_bool_iff; lra).
Qed.

Lemma X11_witness :
  exists levels,
    calculate_levels rm_default LONG (dec 110000 5)
      (mt5.rate_high <$> flat_bars) (mt5.rate_low <$> flat_bars)
      (mt5.rate_close <$> flat_bars) = Ok (Some levels) /\
    (stop_loss levels <=? dec 110000 5)%F = true /\
    (dec 110000 5 <=? take_profit levels)%F = true.
Proof.
  destruct (calculate_levels rm_default LONG (dec 110000 5)
      (mt5.rate_high <$> flat_bars) (mt5.rate_low <$> flat_bars)
      (mt5.rate_close <$> flat_bars)) as [[levels|]|] eqn:E;
    [|by vm_compute in E..].
  destruct (X11_levels_bracket_entry rm_default LONG (dec 110000 5)
      (mt5.rate_high <$> flat_bars) (mt5.rate_low <$> flat_bars)
      (mt5.rate_close <$> flat_bars) levels E)
    as (_ & _ & H); [reflexivity..|].
  exists levels. split; [reflexivity|]. exact H.
Defined.

End results.

(** ** The per-bar sequence: what it does and what it never does *)

Section bar_more.

Import indicators signals risk_manager mt5 main traces bar_trace updates scenarios.

Implicit Types (t : Terminal) (self : TradingBot).

Lemma opened_app c1 c2 : opened (c1 ++ c2) = opened c1 ++ opened c2.
Proof. apply omap_app. Qed.

Lemma modifications_app c1 c2 :
  modifications (c1 ++ c2) = modifications c1 ++ modifications c2.
Proof. apply omap_app. Qed.

Lemma fetched_app c1 c2 : fetched (c1 ++ c2) = fetched c1 || fetched c2.
Proof. apply existsb_app. Qed.

(** [check] asks for the account only, and returns the switch it was given
    unless it triggers. *)
Lemma check_shape t ks r ks' calls :
  kill_switch.check t ks = Ok (r, ks', calls) ->
  opened calls = [] /\ modifications calls = [] /\ fetched calls = false /\
  (r = false -> ks' = ks).
Proof.
  unfold kill_switch.check. intros H.
  repeat (case_match; simplify_eq; try done).
  all: try (destruct (py_div _ _) as [d|]; simpl in H; [|done]);
    repeat (case_match; simplify_eq; try done).
Qed.

(** [execute_kill] asks for positions and ticks and sends orders, nothing
    else. *)
Lemma kill_loop_shape t ks positions n calls :
  opened calls = [] -> modifications calls = [] -> fetched calls = false ->
  opened (foldl (kill_switch.kill_one t ks) (n, calls) positions).2 = [] /\
  modifications (foldl (kill_switch.kill_one t ks) (n, calls) positions).2 = [] /\
  fetched (foldl (kill_switch.kill_one t ks) (n, calls) positions).2 = false.
Proof.
  revert n calls. induction positions as [|pos ps IH]; intros n calls Ho Hm Hf;
    [done|].
  cbn [foldl]. unfold kill_switch.kill_one at 2 4 6.
  repeat case_match; apply IH;
    rewrite ?opened_app, ?modifications_app, ?fetched_app, ?Ho, ?Hm, ?Hf; done.
Qed.

Lemma execute_kill_shape t ks :
  opened (kill_switch.execute_kill t ks).2 = [] /\
  modifications (kill_switch.execute_kill t ks).2 = [] /\
  fetched (kill_switch.execute_kill t ks).2 = false.
Proof.
  unfold kill_switch.execute_kill.
  destruct (negb _); [done|]. destruct (positions_get t) as [ps|]; [|done].
  pose proof (kill_loop_shape t ks ps 0 [PositionsGetCall]) as H.
  destruct (foldl _ _ _) as [n calls]. by apply H.
Qed.

Lemma with_kill_switch_id self :
  with_kill_switch self (the_kill_switch self) (_is_running self) = self.
Proof. by destruct self. Qed.

(** X12.  The two early exits of [on_bar].  When [check] reports the kill
    switch triggered, [on_bar] runs [execute_kill], stops the bot and does
    nothing else: it asks for no bars, requests no stop modification,
    opens no position and leaves the trailing manager as it was.  When the
    switch is not triggered and the terminal returns no bars (nothing, or
    an empty array), the bot is left exactly as it was. *)
Theorem X12_on_bar_early_exits t self r ks' calls0 :
  kill_switch.check t (the_kill_switch self) = Ok (r, ks', calls0) ->
  (r = true ->
     exists calls,
       on_bar t self = Ok (with_kill_switch self ks' false, calls) /\
       calls = calls0 ++ (kill_switch.execute_kill t ks').2 /\
       fetched calls = false /\ modifications calls = [] /\ opened calls = []) /\
  (r = false -> fetch_ohlc_data t = None ->
     on_bar t self = Ok (self, calls0 ++ [CopyRatesCall])).
Proof.
  intros Hcheck. destruct (check_shape _ _ _ _ _ Hcheck) as (Ho & Hm & Hf & Hsame).
  pose proof (execute_kill_shape t ks') as (Ho' & Hm' & Hf').
  unfold on_bar. rewrite Hcheck, bind_Ok. split.
  - intros ->.
    destruct (kill_switch.execute_kill t ks') as [[n ks''] kcalls] eqn:E.
    assert (ks'' = ks') as ->.
    { revert E. unfold kill_switch.execute_kill.
      repeat case_match; by intros [= _ <- _]. }
    eexists. split; [done|]. simpl in *. split; [done|].
    by rewrite fetched_app, modifications_app, opened_app, Ho, Hm, Hf, Ho', Hm', Hf'.
  - intros -> Hfetch. rewrite Hfetch, (Hsame eq_refl).
    by rewrite with_kill_switch_id.
Qed.

Lemma X12_witness :
  exists ks' calls0,
    kill_switch.check terminal_no_ticks
      (the_kill_switch (with_kill_switch bot_trailing triggered true))
      = Ok (true, ks', calls0) /\
    exists calls,
      on_bar terminal_no_ticks (with_kill_switch bot_trailing triggered true)
        = Ok (with_kill_switch (with_kill_switch bot_trailing triggered true)
                ks' false, calls) /\
      fetched calls = false /\ modifications calls = [].
Proof.
  eexists _, _. split; [reflexivity|].
  destruct (X12_on_bar_early_exits terminal_no_ticks
              (with_kill_switch bot_trailing triggered true)
              true triggered [] eq_refl) as [H _].
  destruct (H eq_refl) as (calls & Hrun & _ & Hf & Hm & _).
  exists calls. split; [exact Hrun|]. split; [exact Hf|exact Hm].
Defined.

Lemma update_is_Some tm (tk : Z) p a l k :
  is_Some (get_state (update tm tk p a l).1.2 k) <-> is_Some (get_state tm k).
Proof.
  destruct (decide (k = tk)) as [->|Hne]; [|by rewrite update_other].
  unfold get_state, update.
  destruct (_positions tm !! tk) as [s|] eqn:E; [|simpl; by rewrite E].
  split; [by intros _; eexists|]. intros _.
  repeat case_match; simpl; rewrite ?lookup_insert_eq, ?E; by eexists.
Qed.

(** The position loop of step 3: it opens nothing and fetches nothing, it
    keeps the set of registered tickets, it leaves every position outside
    the list alone, and it requests modifications only for tickets of the
    list. *)
Lemma manage_loop price atr positions tm calls :
  let r := foldl (manage_one price atr) (tm, calls) positions in
  opened r.2 = opened calls /\
  (forall k, is_Some (get_state r.1 k) <-> is_Some (get_state tm k)) /\
  (forall k, k ∉ pi_ticket <$> positions -> get_state r.1 k = get_state tm k) /\
  exists ms,
    modifications r.2 = modifications calls ++ ms /\
    forall k v, (k, v) ∈ ms -> k ∈ pi_ticket <$> positions.
Proof.
  revert tm calls. induction positions as [|pos ps IH]; intros tm calls.
  - simpl. repeat split; try done. exists []. split; [by rewrite app_nil_r|].
    intros k v H. by apply elem_of_nil in H.
  - cbn [foldl]. unfold manage_one at 2 4 6 8.
    destruct (update tm (pi_ticket pos) price atr (is_long pos))
      as [[new_sl tm'] log] eqn:E.
    assert (Htm : tm' = (update tm (pi_ticket pos) price atr (is_long pos)).1.2)
      by by rewrite E.
    assert (Hsome : forall k, is_Some (get_state tm' k) <-> is_Some (get_state tm k)).
    { intros k. rewrite Htm. apply update_is_Some. }
    assert (Hother : forall k, k <> pi_ticket pos ->
                       get_state tm' k = get_state tm k).
    { intros k Hk. rewrite Htm. by apply update_other. }
    destruct new_sl as [v|].
    + destruct (IH tm' (calls ++ [ModifyPositionCall (pi_ticket pos) v]))
        as (Ho & Hs & Hno & ms & Hm & Hin).
      split; [by rewrite Ho, opened_app, app_nil_r|].
      split; [intros k; by rewrite Hs|]. split.
      * intros k Hk. rewrite fmap_cons, not_elem_of_cons in Hk.
        destruct Hk as [Hk1 Hk2]. rewrite Hno by done. by apply Hother.
      * exists ((pi_ticket pos, v) :: ms). split.
        { rewrite Hm, modifications_app. simpl. by rewrite <- app_assoc. }
        intros k w Hkw. rewrite fmap_cons. apply elem_of_cons in Hkw as [[= -> ->]|Hkw].
        -- apply elem_of_cons. by left.
        -- apply elem_of_cons. right. by eapply Hin.
    + destruct (IH tm' calls) as (Ho & Hs & Hno & ms & Hm & Hin).
      split; [done|]. split; [intros k; by rewrite Hs|]. split.
      * intros k Hk. rewrite fmap_cons, not_elem_of_cons in Hk.
        destruct Hk as [Hk1 Hk2]. rewrite Hno by done. by apply Hother.
      * exists ms. split; [done|]. intros k w Hkw. rewrite fmap_cons.
        apply elem_of_cons. right. by eapply Hin.
Qed.

(** X13.  No pyramiding, and no reach beyond the strategy.  When the
    executor reports at least one open position of the strategy, a bar
    that [on_bar] completes opens no position; it registers and
    unregisters no ticket; it leaves the trailing state of every ticket
    that is not among those positions as it was; and every stop
    modification it requests is for one of those positions. *)
Theorem X13_on_bar_no_pyramiding t self self' calls :
  on_bar t self = Ok (self', calls) ->
  open_tickets t self <> [] ->
  opened calls = [] /\
  (forall k, is_Some (get_state (trailing_manager self') k)
             <-> is_Some (get_state (trailing_manager self) k)) /\
  (forall k, k ∉ open_tickets t self ->
             get_state (trailing_manager self') k
             = get_state (trailing_manager self) k) /\
  (forall k v, (k, v) ∈ modifications calls -> k ∈ open_tickets t self).
Proof.
  unfold on_bar, open_tickets. intros H Hopen.
  destruct (kill_switch.check t (the_kill_switch self)) as [[[r ks'] calls0]|]
    eqn:Hcheck; [rewrite bind_Ok in H|done].
  destruct (check_shape _ _ _ _ _ Hcheck) as (Ho & Hm & Hf & Hsame).
  destruct r.
  { pose proof (execute_kill_shape t ks') as (Ho' & Hm' & _).
    destruct (kill_switch.execute_kill t ks') as [[n ks''] kcalls].
    injection H as <- <-. simpl in *.
    rewrite opened_app, modifications_app, Ho, Hm, Ho', Hm'.
    repeat split; try done. intros k v Hkv. by apply elem_of_nil in Hkv. }
  destruct (fetch_ohlc_data t) as [[[high low] close]|].
  2:{ injection H as <- <-. simpl.
      rewrite opened_app, modifications_app, Ho, Hm.
      repeat split; try done. intros k v Hkv. by apply elem_of_nil in Hkv. }
  destruct (getitem close (-1)) as [price|]; [rewrite bind_Ok in H|done].
  destruct (calculate_atr high low close config.ATR_PERIOD) as [atr|];
    [rewrite bind_Ok in H|done].
  destruct (current_atr_of atr) as [catr|]; [rewrite bind_Ok in H|done].
  pose proof (manage_loop price catr
                (get_open_positions t (executor_magic_number self) config.SYMBOL)
                (trailing_manager self)
                ((calls0 ++ [CopyRatesCall]) ++ [PositionsGetSymbolCall config.SYMBOL]))
    as Hloop.
  destruct (foldl _ _ _) as [tm' calls'] eqn:Efold. simpl in Hloop.
  destruct Hloop as (Ho' & Hs & Hno & ms & Hm' & Hin).
  replace (0 <? len _) with true in H.
  2:{ symmetry. apply Z.ltb_lt. unfold len.
      destruct (get_open_positions t _ _); [done|]. simpl. lia. }
  injection H as <- <-. simpl.
  split; [by rewrite Ho', !opened_app, Ho|]. split; [done|]. split; [done|].
  intros k v. rewrite Hm', !modifications_app, Hm. simpl. apply Hin.
Qed.

Lemma X13_witness :
  open_tickets terminal_three_bars bot_trailing <> [] /\
  exists self' calls,
    on_bar terminal_three_bars bot_trailing = Ok (self', calls) /\
    opened calls = [] /\
    get_state (trailing_manager self') 8 = get_state (trailing_manager bot_trailing) 8.
Proof.
  split; [by vm_compute|].
  destruct (on_bar terminal_three_bars bot_trailing) as [[self' calls]|] eqn:E;
    [|by vm_compute in E].
  destruct (X13_on_bar_no_pyramiding terminal_three_bars bot_trailing self' calls E)
    as (Ho & _ & Hno & _); [by vm_compute|].
  exists self', calls. split; [reflexivity|]. split; [exact Ho|].
  apply Hno. vm_compute. intros H. apply list_elem_of_singleton in H. done.
Defined.

(** The levels returned, in terms of a positive ATR. *)
Lemma levels_shape rm st entry high low close levels :
  calculate_levels rm st entry high low close = Ok (Some levels) ->
  st <> NONE /\
  exists x, (0 < x)%Q /\
    risk_distance levels = (Num x * sl_multiplier rm)%F /\
    stop_loss levels =
      match st with
      | LONG => (entry - Num x * sl_multiplier rm)%F
      | _ => (entry + Num x * sl_multiplier rm)%F
      end.
Proof.
  unfold calculate_levels. intros H.
  destruct st; [done|..]; (split; [done|]);
    (destruct (calculate_atr high low close (atr_period rm)) as [atr|];
       [rewrite bind_Ok in H|done]);
    (destruct (getitem atr (-1)) as [a|]; [rewrite bind_Ok in H|done]);
    (destruct (isnan a || (a <=? of_Z 0)%F) eqn:Ea; [done|]);
    apply orb_false_iff in Ea as [Ean Eap];
    pose proof (not_leb_zero_pos a Ean Eap) as Hpos;
    apply ltb_true in Hpos as (z & x & Hz & -> & Hx); injection Hz as <-;
    injection H as <-; exists x; by repeat split.
Qed.

(** The stop of returned levels is not on the profit side of an entry
    price that is a number, when the stop multiplier is positive. *)
Lemma levels_stop_side rm st entry high low close levels :
  calculate_levels rm st entry high low close = Ok (Some levels) ->
  isnan entry = false ->
  (of_Z 0 <? sl_multiplier rm)%F = true ->
  (of_Z 0 <=? risk_distance levels)%F = true /\
  not_behind (match st with LONG => true | _ => false end)
    (stop_loss levels) entry = true.
Proof.
  intros H Hentry Hsl.
  destruct (levels_shape _ _ _ _ _ _ _ H) as (Hst & x & Hx & -> & ->).
  apply ltb_true in Hsl as (z & y & Hz & -> & Hy). injection Hz as <-.
  change (inject_Z 0) with 0%Q in Hy.
  pose proof (Qmult_lt_0_compat _ _ Hx Hy) as Hxy.
  destruct entry as [|e]; [done|].
  destruct st; [done|..]; cbn -[Qplus Qminus Qmult Qle_bool];
    rewrite !Qle_bool_iff; change (inject_Z 0) with 0%Q; split; lra.
Qed.

(** X14.  Whatever [on_bar] registers is a sane position.  If a ticket that
    was not registered before a bar is registered after it, with a
    positive stop multiplier: no position of the strategy was open; the
    bar asked the executor for exactly one position, with the registered
    stop, and the executor returned this ticket; the position is stored as
    [register_position] stores it; its stop is a number that is not on the
    profit side of its entry price, for the direction of the order (at or
    below it for a long position, at or above it for a short one), and its
    risk distance is not negative.  (In binary64 a small stop distance is
    absorbed by the entry price and the stop can equal it; so no strict
    inequality is claimed.) *)
Theorem X14_on_bar_registers_sane t self self' calls (k : Z) s :
  on_bar t self = Ok (self', calls) ->
  (of_Z 0 <? sl_multiplier (the_risk_manager self))%F = true ->
  get_state (trailing_manager self) k = None ->
  get_state (trailing_manager self') k = Some s ->
  open_tickets t self = [] /\
  exists long tp,
    opened calls = [(config.SYMBOL, long, config.LOT_SIZE, initial_sl s, tp)] /\
    open_position t config.SYMBOL long config.LOT_SIZE (initial_sl s) tp = Some k /\
    s = fresh k (ts_entry_price s) (initial_sl s) (ts_risk_distance s) /\
    not_behind long (initial_sl s) (ts_entry_price s) = true /\
    isnan (initial_sl s) = false /\
    (of_Z 0 <=? ts_risk_distance s)%F = true.
Proof.
  unfold on_bar, open_tickets. intros H Hsl Hnone Hsome.
  destruct (kill_switch.check t (the_kill_switch self)) as [[[r ks'] calls0]|]
    eqn:Hcheck; [rewrite bind_Ok in H|done].
  destruct (check_shape _ _ _ _ _ Hcheck) as (Ho & _ & _ & _).
  destruct r.
  { destruct (kill_switch.execute_kill t ks') as [[n ks''] kcalls].
    injection H as <- <-. simpl in Hsome. congruence. }
  destruct (fetch_ohlc_data t) as [[[high low] close]|].
  2:{ injection H as <- <-. simpl in Hsome. congruence. }
  destruct (getitem close (-1)) as [price|]; [rewrite bind_Ok in H|done].
  destruct (calculate_atr high low close config.ATR_PERIOD) as [atr|];
    [rewrite bind_Ok in H|done].
  destruct (current_atr_of atr) as [catr|]; [rewrite bind_Ok in H|done].
  cbn [with_kill_switch executor_magic_number trailing_manager] in H.
  pose proof (manage_loop price catr
                (get_open_positions t (executor_magic_number self) config.SYMBOL)
                (trailing_manager self)
                ((calls0 ++ [CopyRatesCall]) ++ [PositionsGetSymbolCall config.SYMBOL]))
    as Hloop.
  destruct (get_open_positions t (executor_magic_number self) config.SYMBOL)
    as [|pos ps] eqn:Epos.
  2:{ destruct (foldl _ _ _) as [tm' calls'] eqn:Efold. simpl in Hloop.
      destruct Hloop as (_ & Hs & _). simpl in H. injection H as <- <-.
      simpl in Hsome. exfalso.
      assert (Hk : is_Some (get_state tm' k)) by by rewrite Hsome.
      apply Hs in Hk. rewrite Hnone in Hk. by destruct Hk. }
  clear Hloop. split; [done|]. simpl in H. unfold enter_trade in H.
  destruct (generate _ _ _) as [sig|] eqn:Hgen; [rewrite bind_Ok in H|done].
  destruct (is_valid sig) eqn:Hvalid; simpl in H;
    [|injection H as <- <-; simpl in Hsome; congruence].
  destruct (calculate_levels _ _ _ _ _ _) as [[levels|]|] eqn:Hlev;
    [rewrite bind_Ok in H| |done].
  2:{ rewrite bind_Ok in H. injection H as <- <-. simpl in Hsome. congruence. }
  destruct (open_position t _ _ _ _ _) as [ticket|] eqn:Hopen;
    [|injection H as <- <-; simpl in Hsome; congruence].
  destruct (ticket =? 0) eqn:Hzero;
    [injection H as <- <-; simpl in Hsome; congruence|].
  injection H as <- <-.
  revert Hsome. unfold get_state, register_position. simpl.
  destruct (decide (k = ticket)) as [->|Hne];
    [|rewrite lookup_insert_ne by done; intros Hsome; unfold get_state in Hnone;
      simpl in Hnone; congruence].
  rewrite lookup_insert_eq. intros [= <-]. simpl.
  assert (Hentry : isnan (entry_price sig) = false).
  { destruct (generate_inv _ _ _ _ Hgen)
      as [(_ & Hn & _)|(_ & ema & rsi & c & e & r & r' &
                        _ & _ & _ & _ & _ & _ & Hep & Hl & Hs)].
    - unfold is_valid in Hvalid. by rewrite Hn in Hvalid.
    - rewrite Hep. unfold is_valid in Hvalid. destruct (signal_type sig); [done|..].
      + destruct Hl as [Hl _]; [done|]. by apply ltb_not_nan_r in Hl.
      + destruct Hs as [Hs _]; [done|]. by apply ltb_not_nan_l in Hs. }
  destruct (levels_stop_side _ _ _ _ _ _ _ Hlev Hentry Hsl) as [Hrd Hside].
  eexists _, _. split.
  { rewrite !opened_app, Ho. simpl. reflexivity. }
  split; [done|]. split; [done|]. split; [done|]. split; [|done].
  revert Hside. unfold not_behind. destruct (stop_loss levels); [|done].
  destruct (match signal_type sig with LONG => true | _ => false end);
    by destruct (entry_price sig).
Qed.

Import more_scenarios.

Lemma X14_witness :
  (of_Z 0 <? sl_multiplier (the_risk_manager bot_short_periods))%F = true /\
  get_state (trailing_manager bot_short_periods) 42 = None /\
  exists self' calls s,
    on_bar terminal_four_bars bot_short_periods = Ok (self', calls) /\
    get_state (trailing_manager self') 42 = Some s /\
    not_behind true (initial_sl s) (ts_entry_price s) = true /\
    (of_Z 0 <=? ts_risk_distance s)%F = true.
Proof.
  split; [reflexivity|]. split; [reflexivity|].
  destruct (on_bar terminal_four_bars bot_short_periods) as [[self' calls]|] eqn:E;
    [|by vm_compute in E].
  destruct (get_state (trailing_manager self') 42) as [s|] eqn:Es.
  2:{ exfalso. vm_compute in E. injection E as <- _. by vm_compute in Es. }
  destruct (X14_on_bar_registers_sane terminal_four_bars bot_short_periods
              self' calls 42 s E)
    as (_ & long & tp & _ & _ & _ & Hside & _ & Hrd); [reflexivity..|exact Es|].
  assert (Hlong : long = true).
  { destruct long; [done|]. exfalso. revert Hside.
    vm_compute in E. injection E as <- _. vm_compute in Es.
    injection Es as <-. by vm_compute. }
  subst long. exists self', calls, s. by repeat split.
Defined.

(** The switch answers when its starting equity, if recorded, is not
    zero. *)
Lemma check_total t ks :
  (forall start, kill_switch._starting_equity ks = Some start ->
                 (start =? of_Z 0)%F = false) ->
  exists r ks' calls, kill_switch.check t ks = Ok (r, ks', calls).
Proof.
  intros Hstart. unfold kill_switch.check.
  destruct (kill_switch._is_triggered ks); [by eexists _, _, _|].
  destruct (kill_switch._is_initialized ks); [|by eexists _, _, _].
  destruct (kill_switch._starting_equity ks) as [start|]; [|by eexists _, _, _].
  destruct (account_info t) as [info|]; [|by eexists _, _, _].
  specialize (Hstart start eq_refl). unfold py_div.
  destruct start as [|q]; simpl.
  - destruct (_ >=? _)%F; by eexists _, _, _.
  - unfold eqb, of_Z in Hstart. change (inject_Z 0) with 0%Q in Hstart.
    rewrite Hstart. simpl. destruct (_ >=? _)%F; by eexists _, _, _.
Qed.

(** The columns [fetch_ohlc_data] returns have one length and are not
    empty. *)
Lemma fetch_shape t high low close :
  fetch_ohlc_data t = Some (high, low, close) ->
  len high = len close /\ len low = len close /\ 0 < len close.
Proof.
  unfold fetch_ohlc_data.
  destruct (copy_rates_from_pos t) as [[|r rates]|]; [done| |done].
  intros [= <- <- <-]. unfold len. simpl. rewrite !length_fmap. lia.
Qed.

Lemma calculate_levels_total rm st entry high low close :
  1 <= atr_period rm -> len high = len close -> len low = len close ->
  0 < len close ->
  exists r, calculate_levels rm st entry high low close = Ok r.
Proof.
  intros Hp Hh Hl Hne. unfold calculate_levels.
  destruct (calculate_atr_total high low close (atr_period rm) Hp Hh Hl)
    as (atr & -> & Hlen).
  destruct (getitem_neg atr (-1)) as (a & Ha & _); [lia|].
  destruct st; [by eexists|..]; rewrite bind_Ok, Ha, bind_Ok;
    destruct (isnan a || _); by eexists.
Qed.

(** X15.  [on_bar] raises nothing.  With periods of at least 1 in the
    signal generator and the risk manager, and a kill switch whose starting
    equity is not zero, [on_bar] returns, whatever the terminal answers and
    whatever positions are registered. *)
Theorem X15_on_bar_returns t self :
  1 <= ema_period (signal_generator self) ->
  1 <= rsi_period (signal_generator self) ->
  1 <= atr_period (the_risk_manager self) ->
  (forall start,
     kill_switch._starting_equity (the_kill_switch self) = Some start ->
     (start =? of_Z 0)%F = false) ->
  exists self' calls, on_bar t self = Ok (self', calls).
Proof.
  intros He Hr Ha Hstart. unfold on_bar.
  destruct (check_total t (the_kill_switch self) Hstart)
    as (r & ks' & calls0 & ->). rewrite bind_Ok.
  destruct r.
  { destruct (kill_switch.execute_kill t ks') as [[n ks''] kcalls].
    by eexists _, _. }
  destruct (fetch_ohlc_data t) as [[[high low] close]|] eqn:Hfetch;
    [|by eexists _, _].
  destruct (fetch_shape _ _ _ _ Hfetch) as (Hh & Hl & Hne).
  destruct (getitem_neg close (-1)) as (price & -> & _); [lia|].
  rewrite bind_Ok.
  destruct (calculate_atr_total high low close config.ATR_PERIOD)
    as (atr & -> & Hlen); [done..|].
  rewrite bind_Ok. unfold current_atr_of.
  destruct (getitem_neg atr (-1)) as (a & -> & _); [lia|].
  rewrite !bind_Ok.
  destruct (foldl _ _ _) as [tm' calls'].
  destruct (0 <? len _); [by eexists _, _|].
  unfold enter_trade.
  cbn [with_trailing with_kill_switch signal_generator the_risk_manager
       trailing_manager].
  destruct (generate_total (signal_generator self) close (Some price) He Hr)
    as [sig ->].
  rewrite bind_Ok. destruct (negb (is_valid sig)); [by eexists _, _|].
  destruct (calculate_levels_total (the_risk_manager self) (signal_type sig)
              (entry_price sig) high low close Ha Hh Hl Hne) as [lev ->].
  rewrite bind_Ok. destruct lev as [levels|]; [|by eexists _, _].
  destruct (open_position t _ _ _ _ _) as [ticket|]; [|by eexists _, _].
  destruct (ticket =? 0); by eexists _, _.
Qed.

Lemma X15_witness :
  1 <= ema_period (signal_generator bot_short_periods) /\
  1 <= rsi_period (signal_generator bot_short_periods) /\
  1 <= atr_period (the_risk_manager bot_short_periods) /\
  exists self' calls, on_bar terminal_no_ticks bot_short_periods = Ok (self', calls).
Proof.
  split; [by vm_compute|]. split; [by vm_compute|]. split; [by vm_compute|].
  apply (X15_on_bar_returns terminal_no_ticks bot_short_periods);
    [by vm_compute..|].
  intros start Hs. vm_compute in Hs. by injection Hs as <-.
Defined.

End bar_more.

(** ** More on the indicators *)

Section indicator_more.

Import indicators.

Implicit Types (data high low close : list float64) (p : Z) (v x y : float64).

Import ranges.

Lemma nonneg_num v : nonneg v <-> exists q, v = Num q /\ (0 <= q)%Q.
Proof.
  unfold nonneg. destruct v as [|q]; simpl.
  - split; [done|]. by intros (q & ? & _).
  - change (inject_Z 0) with 0%Q. rewrite Qle_bool_iff. split.
    + intros H. by exists q.
    + by intros (q' & [= ->] & H).
Qed.

Lemma nonneg_zero : nonneg (of_Z 0).
Proof. reflexivity. Qed.

Lemma nonneg_add x y : nonneg x -> nonneg y -> nonneg (x + y)%F.
Proof.
  rewrite !nonneg_num. intros (a & -> & Ha) (b & -> & Hb).
  exists (a + b)%Q. split; [done|]. lra.
Qed.

Lemma nonneg_mul_of_Z x n : 0 <= n -> nonneg x -> nonneg (x * of_Z n)%F.
Proof.
  rewrite !nonneg_num. intros Hn (a & -> & Ha).
  exists (a * inject_Z n)%Q. split; [done|].
  apply Qmult_le_0_compat; [done|].
  change 0%Q with (inject_Z 0). by rewrite <- Zle_Qle.
Qed.

Lemma div_of_Z_pos q n :
  0 < n -> (Num q / of_Z n)%F = Num (q / inject_Z n).
Proof.
  intros Hn. unfold div, of_Z.
  destruct (Qeq_bool (inject_Z n) 0) eqn:E; [|done].
  apply Qeq_bool_iff in E. unfold Qeq, inject_Z in E. simpl in E. lia.
Qed.

Lemma nonneg_div_of_Z x n : 0 < n -> nonneg x -> nonneg (x / of_Z n)%F.
Proof.
  rewrite !nonneg_num. intros Hn (a & -> & Ha). rewrite div_of_Z_pos by done.
  eexists. split; [done|]. apply Qle_shift_div_l.
  - change 0%Q with (inject_Z 0). by rewrite <- Zlt_Qlt.
  - lra.
Qed.

Lemma nonneg_foldl_add l acc :
  Forall nonneg l -> nonneg acc -> nonneg (foldl add acc l).
Proof.
  intros Hl. revert acc. induction Hl as [|x l Hx _ IH]; intros acc Hacc; simpl.
  - done.
  - apply IH. by apply nonneg_add.
Qed.

Lemma nonneg_mean l :
  l <> [] -> Forall nonneg l -> nonneg (np_mean l).
Proof.
  intros Hne Hl. unfold np_mean. apply nonneg_div_of_Z.
  - unfold len. destruct l; [done|]. simpl. lia.
  - by apply nonneg_foldl_add.
Qed.

(** Wilder's smoothing step keeps an average at or above zero. *)
Lemma nonneg_smooth avg x p :
  1 <= p -> nonneg avg -> nonneg x ->
  nonneg ((avg * of_Z (p - 1) + x) / of_Z p)%F.
Proof.
  intros Hp Havg Hx. apply nonneg_div_of_Z; [lia|].
  apply nonneg_add; [|done]. apply nonneg_mul_of_Z; [lia|done].
Qed.

Lemma rsi_value_range g l :
  nonneg g -> nonneg l ->
  nonneg (rsi_value g l) /\ (rsi_value g l <=? of_Z 100)%F = true.
Proof.
  intros (a & -> & Ha)%nonneg_num (b & -> & Hb)%nonneg_num.
  unfold rsi_value, nonneg, eqb, of_Z. change (inject_Z 0) with 0%Q.
  destruct (Qeq_bool b 0) eqn:Eb; [by vm_compute|].
  assert (Hd : (Num a / Num b)%F = Num (a / b)) by (unfold div; by rewrite Eb).
  rewrite Hd. apply Qeq_bool_neq in Eb.
  assert (Hb' : (0 < b)%Q) by (apply Qnot_le_lt; intros H; apply Eb; lra).
  assert (Hrs : (0 <= a / b)%Q) by (apply Qle_shift_div_l; lra).
  change (inject_Z 1) with 1%Q. change (inject_Z 100) with 100%Q.
  unfold add, lift2, div.
  destruct (Qeq_bool (1 + a / b) 0) eqn:E1.
  { apply Qeq_bool_iff in E1. lra. }
  assert (H1 : (0 <= 100 / (1 + a / b))%Q) by (apply Qle_shift_div_l; lra).
  assert (H2 : (100 / (1 + a / b) <= 100)%Q) by (apply Qle_shift_div_r; lra).
  unfold sub, lift2, leb. rewrite !Qle_bool_iff. split; lra.
Qed.

Lemma length_slice_to {A} (a : list A) n :
  0 <= n <= len a -> length (slice_to a n) = Z.to_nat n.
Proof.
  intros H. unfold slice_to, slice, slice_bound, len in *.
  rewrite length_take, length_drop.
  replace (0 <? 0) with false by done.
  replace (n <? 0) with false by (symmetry; apply Z.ltb_ge; lia). lia.
Qed.

Lemma Forall_slice {A} (P : A -> Prop) (a : list A) s e :
  Forall P a -> Forall P (slice a s e).
Proof. intros H. unfold slice. by apply Forall_take, Forall_drop. Qed.

Lemma lookup_full_nan {A} (a : list A) (k : nat) v :
  full_nan a !! k = Some v -> v = NaN.
Proof. unfold full_nan. by intros [-> _]%lookup_replicate. Qed.

Lemma gains_nonneg deltas :
  Forall nonneg ((fun d => if (d >? of_Z 0)%F then d else of_Z 0) <$> deltas).
Proof.
  apply Forall_fmap, Forall_forall. intros d _. simpl.
  destruct d as [|q]; [apply nonneg_zero|].
  unfold gtb, ltb, of_Z. change (inject_Z 0) with 0%Q.
  destruct (Qle_bool q 0) eqn:E; simpl; [apply nonneg_zero|].
  apply nonneg_num. exists q. split; [done|].
  apply Qlt_le_weak, Qnot_le_lt. intros H%Qle_bool_iff. congruence.
Qed.

Lemma losses_nonneg deltas :
  Forall nonneg ((fun d => if (d <? of_Z 0)%F then neg d else of_Z 0) <$> deltas).
Proof.
  apply Forall_fmap, Forall_forall. intros d _. simpl.
  destruct d as [|q]; [apply nonneg_zero|].
  unfold ltb, of_Z. change (inject_Z 0) with 0%Q.
  destruct (Qle_bool 0 q) eqn:E; simpl; [apply nonneg_zero|].
  apply nonneg_num. exists (- q)%Q. split; [done|].
  assert (q < 0)%Q; [|lra].
  apply Qnot_le_lt. intros H%Qle_bool_iff. congruence.
Qed.

(** The values of [calculate_rsi] on a series longer than the period. *)
Lemma calculate_rsi_shape data p :
  1 <= p -> p < len data ->
  exists rsi,
    calculate_rsi data p = Ok rsi /\ len rsi = len data /\
    forall (k : nat) v, rsi !! k = Some v ->
      (Z.of_nat k < p -> v = NaN) /\
      (p <= Z.of_nat k -> nonneg v /\ (v <=? of_Z 100)%F = true).
Proof.
  intros Hp Hlen. unfold calculate_rsi.
  replace (len data <? p + 1) with false by (symmetry; apply Z.ltb_ge; lia).
  rewrite setitem_nonneg by (rewrite len_full_nan; lia). rewrite bind_Ok.
  set (gains := (fun d => if (d >? of_Z 0)%F then d else of_Z 0) <$> np_diff data).
  set (losses := (fun d => if (d <? of_Z 0)%F then neg d else of_Z 0) <$> np_diff data).
  assert (Hg : Forall nonneg gains) by apply gains_nonneg.
  assert (Hl : Forall nonneg losses) by apply losses_nonneg.
  assert (Hlg : len gains = len data - 1).
  { unfold gains. rewrite len_fmap, len_np_diff. lia. }
  assert (Hll : len losses = len data - 1).
  { unfold losses. rewrite len_fmap, len_np_diff. lia. }
  assert (Hag : nonneg (np_mean (slice_to gains p))).
  { apply nonneg_mean; [|by apply Forall_slice].
    intros E. apply (f_equal length) in E.
    rewrite length_slice_to in E by lia. simpl in E. lia. }
  assert (Hal : nonneg (np_mean (slice_to losses p))).
  { apply nonneg_mean; [|by apply Forall_slice].
    intros E. apply (f_equal length) in E.
    rewrite length_slice_to in E by lia. simpl in E. lia. }
  match goal with
  | |- context [for_range ?a ?b ?f ?s] =>
      destruct (for_range_inv
                  (fun i st =>
                     nonneg st.1.1 /\ nonneg st.1.2 /\ len st.2 = len data /\
                     forall (k : nat) v, st.2 !! k = Some v ->
                       (Z.of_nat k < p -> v = NaN) /\
                       (p <= Z.of_nat k <= i ->
                          nonneg v /\ (v <=? of_Z 100)%F = true))
                  f a b s)
        as ([[ag al] rsi] & -> & Hag' & Hal' & Hlr & Hrsi)
  end.
  - rewrite len_np_diff. lia.
  - simpl. split; [done|]. split; [done|].
    split; [by rewrite len_insert, len_full_nan|].
    intros k v [(Hk & <- & _)|[Hk Hv]]%list_lookup_insert_Some.
    + split; [lia|]. intros _. by apply rsi_value_range.
    + apply lookup_full_nan in Hv. split; [done|lia].
  - intros i [[ag al] rsi] Hi (Hag' & Hal' & Hlr & Hrsi). simpl in *.
    rewrite len_np_diff in Hi.
    destruct (getitem_nonneg gains i) as (g & -> & Hgi); [lia|].
    destruct (getitem_nonneg losses i) as (l & -> & Hli); [lia|].
    rewrite !bind_Ok, setitem_nonneg by lia. rewrite bind_Ok.
    eexists. split; [done|]. simpl.
    assert (Hg' : nonneg g) by (eapply Forall_lookup in Hgi; [exact Hgi|done]).
    assert (Hl' : nonneg l) by (eapply Forall_lookup in Hli; [exact Hli|done]).
    split; [by apply nonneg_smooth|]. split; [by apply nonneg_smooth|].
    split; [by rewrite len_insert|].
    intros k v [(Hk & <- & _)|[Hk Hv]]%list_lookup_insert_Some.
    + split; [lia|]. intros _.
      apply rsi_value_range; by apply nonneg_smooth.
    + destruct (Hrsi k v Hv) as [H1 H2]. split; [done|]. intros H. apply H2. lia.
  - rewrite bind_Ok. exists rsi. split; [done|]. split; [done|].
    simpl in *. intros k v Hv. destruct (Hrsi k v Hv) as [H1 H2].
    split; [done|]. intros H. apply H2.
    apply lookup_lt_Some in Hv. rewrite len_np_diff. unfold len in *. lia.
Qed.

(** X16.  The RSI is NaN exactly during the warm-up and a percentage
    afterwards, whatever the prices (numbers or NaN).  For a period of at least 1, the value
    of [calculate_rsi] at an index below the period is NaN, as is every
    value when the series has no more elements than the period; on a longer
    series every value from index [period] on is a number between 0 and
    100.  This holds also when prices are NaN: a NaN difference counts as
    neither a gain nor a loss. *)
Theorem X16_rsi_range data p rsi (k : nat) v :
  1 <= p ->
  calculate_rsi data p = Ok rsi ->
  rsi !! k = Some v ->
  (Z.of_nat k < p \/ len data <= p -> v = NaN) /\
  (p <= Z.of_nat k -> p < len data ->
     (of_Z 0 <=? v)%F = true /\ (v <=? of_Z 100)%F = true).
Proof.
  intros Hp Hrun Hv. destruct (Z_lt_le_dec p (len data)) as [Hlong|Hshort].
  - destruct (calculate_rsi_shape data p Hp Hlong) as (rsi' & Hrun' & _ & Hshape).
    rewrite Hrun in Hrun'. injection Hrun' as <-.
    destruct (Hshape k v Hv) as [H1 H2]. split.
    + intros [H|H]; [by apply H1|lia].
    + intros H _. by apply H2.
  - unfold calculate_rsi in Hrun.
    replace (len data <? p + 1) with true in Hrun
      by (symmetry; apply Z.ltb_lt; lia).
    injection Hrun as <-. apply lookup_full_nan in Hv. split; [done|lia].
Qed.

Lemma X16_witness :
  1 <= 1 /\
  exists rsi v,
    calculate_rsi [of_Z 3; NaN; of_Z 1; of_Z 2] 1 = Ok rsi /\
    rsi !! 2%nat = Some v /\
    (of_Z 0 <=? v)%F = true /\ (v <=? of_Z 100)%F = true.
Proof.
  split; [lia|].
  destruct (calculate_rsi [of_Z 3; NaN; of_Z 1; of_Z 2] 1) as [rsi|] eqn:E;
    [|by vm_compute in E].
  destruct (rsi !! 2%nat) as [v|] eqn:Ev.
  2:{ exfalso. vm_compute in E. injection E as <-. by vm_compute in Ev. }
  exists rsi, v. split; [done|]. split; [done|].
  apply (X16_rsi_range [of_Z 3; NaN; of_Z 1; of_Z 2] 1 rsi 2 v);
    [lia|exact E|exact Ev|by vm_compute|by vm_compute].
Defined.

Lemma all_moderate_nan_free a : all_moderate a -> nan_free a.
Proof.
  intros H. eapply Forall_impl; [exact H|]. intros v. by destruct v.
Qed.

Lemma number_lookup a (k : nat) v :
  nan_free a -> a !! k = Some v -> exists q, v = Num q.
Proof.
  intros Ha Hk. eapply Forall_lookup in Ha; [|exact Hk].
  destruct v as [|q]; [done|]. by exists q.
Qed.

Lemma max2_nonneg_l a b : nonneg a -> nonneg (max2 a b).
Proof.
  intros (x & -> & Hx)%nonneg_num. unfold max2, gtb, ltb.
  destruct b as [|y]; [by apply nonneg_num; exists x|].
  destruct (Qle_bool y x) eqn:E; simpl; apply nonneg_num.
  - by exists x.
  - exists y. split; [done|].
    assert (x < y)%Q; [|lra].
    apply Qnot_le_lt. intros H%Qle_bool_iff. congruence.
Qed.

Lemma max2_nonneg_r (q : Q) b : nonneg b -> nonneg (max2 (Num q) b).
Proof.
  intros (r & -> & Hr)%nonneg_num. unfold max2, gtb, ltb.
  destruct (Qle_bool r q) eqn:E; simpl; apply nonneg_num.
  - exists q. split; [done|]. apply Qle_bool_iff in E. lra.
  - by exists r.
Qed.

Lemma length_slice {A} (a : list A) s e :
  0 <= s <= e -> e <= len a -> length (slice a s e) = Z.to_nat (e - s).
Proof.
  intros H He. unfold slice, slice_bound, len in *.
  rewrite length_take, length_drop.
  replace (s <? 0) with false by (symmetry; apply Z.ltb_ge; lia).
  replace (e <? 0) with false by (symmetry; apply Z.ltb_ge; lia). lia.
Qed.

(** The values of [calculate_atr] on NaN-free bars, more of them than the
    period. *)
Lemma calculate_atr_shape high low close p :
  1 <= p -> p < len close -> len high = len close -> len low = len close ->
  nan_free high -> nan_free low -> nan_free close ->
  exists atr,
    calculate_atr high low close p = Ok atr /\ len atr = len close /\
    forall (k : nat) v, atr !! k = Some v ->
      (Z.of_nat k < p -> v = NaN) /\ (p <= Z.of_nat k -> nonneg v).
Proof.
  intros Hp Hlen Hh Hl Nh Nl Nc. unfold calculate_atr.
  replace (len close <? p + 1) with false by (symmetry; apply Z.ltb_ge; lia).
  destruct (getitem_nonneg high 0) as (h0 & -> & _); [lia|].
  destruct (getitem_nonneg low 0) as (l0 & -> & _); [lia|].
  rewrite !bind_Ok, setitem_nonneg by (rewrite len_zeros; lia). rewrite bind_Ok.
  match goal with
  | |- context [for_range 1 ?b ?f ?s ≫= _] =>
      destruct (for_range_inv
                  (fun _ tr =>
                     len tr = len close /\
                     forall (k : nat) v, tr !! k = Some v -> (1 <= k)%nat -> nonneg v)
                  f 1 b s)
        as (tr & -> & Htr & Htrv)
  end.
  - lia.
  - split; [rewrite len_insert, len_zeros; lia|].
    intros k v [(Hk & _)|[_ Hv]]%list_lookup_insert_Some Hk1; [simpl in Hk; lia|].
    apply lookup_replicate in Hv as [-> _]. apply nonneg_zero.
  - intros i tr Hi (Htr & Htrv).
    destruct (getitem_nonneg high i) as (h & -> & Hhi); [lia|].
    destruct (getitem_nonneg low i) as (l & -> & Hli); [lia|].
    destruct (getitem_nonneg close (i - 1)) as (pc & -> & Hpc); [lia|].
    rewrite !bind_Ok, setitem_nonneg by lia.
    eexists. split; [done|]. split; [by rewrite len_insert|].
    intros k v [(Hk & <- & _)|[_ Hv]]%list_lookup_insert_Some Hk1;
      [|by eapply Htrv].
    destruct (number_lookup _ _ _ Nh Hhi) as [qh ->].
    destruct (number_lookup _ _ _ Nl Hli) as [ql ->].
    destruct (number_lookup _ _ _ Nc Hpc) as [qc ->].
    unfold max3. apply max2_nonneg_l. unfold abs, sub, lift2.
    apply max2_nonneg_r.
    apply nonneg_num. eexists. split; [done|]. apply Qabs_nonneg.
  - rewrite bind_Ok, setitem_nonneg by (rewrite len_full_nan; lia).
    rewrite bind_Ok.
    assert (Hseed : nonneg (np_mean (slice tr 1 (p + 1)))).
    { apply nonneg_mean.
      - intros E. apply (f_equal length) in E.
        rewrite length_slice in E by lia. simpl in E. lia.
      - unfold slice. apply Forall_take, Forall_lookup. intros i v.
        rewrite lookup_drop. intros Hv. apply (Htrv _ _ Hv).
        unfold slice_bound. replace (1 <? 0) with false by done. lia. }
    match goal with
    | |- context [for_range ?a ?b ?f ?s] =>
        destruct (for_range_inv
                    (fun i atr =>
                       len atr = len close /\
                       forall (k : nat) v, atr !! k = Some v ->
                         (Z.of_nat k < p -> v = NaN) /\
                         (p <= Z.of_nat k < i -> nonneg v))
                    f a b s)
          as (atr & -> & Hla & Hatr)
    end.
    + lia.
    + split; [by rewrite len_insert, len_full_nan|].
      intros k v [(Hk & <- & _)|[Hk Hv]]%list_lookup_insert_Some.
      * split; [lia|done].
      * apply lookup_full_nan in Hv. split; [done|lia].
    + intros i atr Hi (Hla & Hatr).
      destruct (getitem_nonneg atr (i - 1)) as (prev & -> & Hprev); [lia|].
      destruct (getitem_nonneg tr i) as (x & -> & Hx); [lia|].
      rewrite !bind_Ok, setitem_nonneg by lia.
      eexists. split; [done|]. split; [by rewrite len_insert|].
      intros k v [(Hk & <- & _)|[Hk Hv]]%list_lookup_insert_Some.
      * split; [lia|]. intros _. apply nonneg_smooth; [done|..].
        -- apply (Hatr _ _ Hprev). lia.
        -- apply (Htrv _ _ Hx). lia.
      * destruct (Hatr k v Hv) as [H1 H2]. split; [done|]. intros H. apply H2. lia.
    + exists atr. split; [done|]. split; [done|].
      intros k v Hv. destruct (Hatr k v Hv) as [H1 H2]. split; [done|].
      intros H. apply H2. apply lookup_lt_Some in Hv. unfold len in *. lia.
Qed.

(** X17.  The ATR of moderate bars is never negative.  For a period
    between 1 and 2^20 and high, low and close columns of one length whose
    values are finite numbers of magnitude at most 2^1000 (so that nothing
    in the computation overflows: prices near the largest binary64 would
    make true ranges infinite and the smoothing NaN), the value of
    [calculate_atr] at an index below the period is NaN, as is every value
    when there are no more bars than the period; with more bars, every
    value from index [period] on is a number at or above zero, also where a
    bar's high is below its low. *)
Theorem X17_atr_nonneg high low close p atr (k : nat) v :
  1 <= p <= period_bound -> len high = len close -> len low = len close ->
  all_moderate high -> all_moderate low -> all_moderate close ->
  calculate_atr high low close p = Ok atr ->
  atr !! k = Some v ->
  (Z.of_nat k < p \/ len close <= p -> v = NaN) /\
  (p <= Z.of_nat k -> p < len close -> (of_Z 0 <=? v)%F = true).
Proof.
  intros [Hp _] Hh Hl Nh%all_moderate_nan_free Nl%all_moderate_nan_free
    Nc%all_moderate_nan_free Hrun Hv.
  destruct (Z_lt_le_dec p (len close)) as [Hlong|Hshort].
  - destruct (calculate_atr_shape high low close p Hp Hlong Hh Hl Nh Nl Nc)
      as (atr' & Hrun' & _ & Hshape).
    rewrite Hrun in Hrun'. injection Hrun' as <-.
    destruct (Hshape k v Hv) as [H1 H2]. split.
    + intros [H|H]; [by apply H1|lia].
    + intros H _. by apply H2.
  - unfold calculate_atr in Hrun.
    replace (len close <? p + 1) with true in Hrun
      by (symmetry; apply Z.ltb_lt; lia).
    injection Hrun as <-. apply lookup_full_nan in Hv. split; [done|lia].
Qed.

Lemma X17_witness :
  exists atr v,
    calculate_atr [of_Z 1; of_Z 1; of_Z 1] [of_Z 2; of_Z 2; of_Z 2]
      [of_Z 5; of_Z 5; of_Z 5] 1 = Ok atr /\
    atr !! 2%nat = Some v /\ (of_Z 0 <=? v)%F = true.
Proof.
  destruct (calculate_atr [of_Z 1; of_Z 1; of_Z 1] [of_Z 2; of_Z 2; of_Z 2]
              [of_Z 5; of_Z 5; of_Z 5] 1) as [atr|] eqn:E;
    [|by vm_compute in E].
  destruct (atr !! 2%nat) as [v|] eqn:Ev.
  2:{ exfalso. vm_compute in E. injection E as <-. by vm_compute in Ev. }
  exists atr, v. split; [done|]. split; [done|].
  apply (X17_atr_nonneg [of_Z 1; of_Z 1; of_Z 1] [of_Z 2; of_Z 2; of_Z 2]
           [of_Z 5; of_Z 5; of_Z 5] 1 atr 2 v);
    [by vm_compute|reflexivity|reflexivity| | | |exact E|exact Ev|by vm_compute
    |by vm_compute];
    by repeat (constructor; [by vm_compute|]).
Defined.

Lemma foldl_add_NaN l : foldl add NaN l = NaN.
Proof. induction l as [|x l IH]; [done|]. exact IH. Qed.

Lemma foldl_add_has_NaN l acc : NaN ∈ l -> foldl add acc l = NaN.
Proof.
  revert acc. induction l as [|x l IH]; intros acc H.
  - by apply elem_of_nil in H.
  - apply elem_of_cons in H as [<-|H]; simpl.
    + destruct acc; apply foldl_add_NaN.
    + by apply IH.
Qed.

Lemma foldl_add_number l q :
  nan_free l -> exists q', foldl add (Num q) l = Num q'.
Proof.
  intros Hl. revert q. induction Hl as [|x l Hx _ IH]; intros q; simpl.
  - by exists q.
  - destruct x as [|y]; [done|]. apply IH.
Qed.

Lemma lookup_slice_to {A} (a : list A) n (j : nat) :
  0 <= n -> Z.of_nat j < n -> slice_to a n !! j = a !! j.
Proof.
  intros Hn Hj. unfold slice_to, slice, slice_bound.
  replace (0 <? 0) with false by done.
  replace (n <? 0) with false by (symmetry; apply Z.ltb_ge; lia).
  rewrite lookup_take. destruct (decide _) as [_|Hnot].
  - rewrite lookup_drop. f_equal. unfold len. lia.
  - symmetry. apply lookup_ge_None. unfold len in *. lia.
Qed.

(** The values of [calculate_ema] on a series of at least [period]
    elements. *)
Lemma calculate_ema_shape data p :
  1 <= p -> p <= len data ->
  exists ema,
    calculate_ema data p = Ok ema /\ len ema = len data /\
    forall (k : nat) v, ema !! k = Some v ->
      (Z.of_nat k < p - 1 -> v = NaN) /\
      (p - 1 <= Z.of_nat k -> nan_free data -> isnan v = false) /\
      (forall j : nat, data !! j = Some NaN -> (j <= k)%nat -> v = NaN).
Proof.
  intros Hp Hlen. unfold calculate_ema.
  replace (len data <? p) with false by (symmetry; apply Z.ltb_ge; lia).
  rewrite setitem_nonneg by (rewrite len_full_nan; lia). rewrite bind_Ok.
  rewrite py_div_of_Z by lia. rewrite bind_Ok.
  change (of_Z 2) with (Num 2). rewrite div_of_Z_pos by lia.
  set (m := (2 / inject_Z (p + 1))%Q).
  match goal with
  | |- context [for_range ?a ?b ?f ?s] =>
      destruct (for_range_inv
                  (fun i ema =>
                     len ema = len data /\
                     forall (k : nat) v, ema !! k = Some v ->
                       (Z.of_nat k < p - 1 \/ i <= Z.of_nat k -> v = NaN) /\
                       (p - 1 <= Z.of_nat k < i -> nan_free data -> isnan v = false) /\
                       (forall j : nat, data !! j = Some NaN -> (j <= k)%nat -> v = NaN))
                  f a b s)
        as (ema & Hrun & Hle & Hema)
  end.
  - done.
  - split; [by rewrite len_insert, len_full_nan|].
    intros k v [(Hk & <- & _)|[Hk Hv]]%list_lookup_insert_Some.
    + split; [lia|]. split.
      * intros _ Nd. unfold np_mean, np_sum. change (of_Z 0) with (Num 0).
        destruct (foldl_add_number (slice_to data p) 0) as [q ->];
          [by apply Forall_slice|].
        rewrite div_of_Z_pos; [done|].
        unfold len. rewrite length_slice_to by lia. lia.
      * intros j Hj Hjk. unfold np_mean, np_sum.
        rewrite foldl_add_has_NaN; [done|].
        apply list_elem_of_lookup. exists j. rewrite lookup_slice_to by lia. done.
    + apply lookup_full_nan in Hv. split; [done|]. split; [lia|done].
  - intros i ema Hi (Hle & Hema).
    destruct (getitem_nonneg data i) as (d & -> & Hd); [lia|].
    destruct (getitem_nonneg ema (i - 1)) as (prev & -> & Hprev); [lia|].
    rewrite !bind_Ok, setitem_nonneg by lia.
    eexists. split; [done|]. split; [by rewrite len_insert|].
    destruct (Hema _ _ Hprev) as (_ & Pnum & Pnan).
    intros k v [(Hk & <- & _)|[Hk Hv]]%list_lookup_insert_Some.
    + split; [lia|]. split.
      * intros _ Nd. destruct (number_lookup _ _ _ Nd Hd) as [qd ->].
        destruct prev as [|qp]; [|done].
        exfalso. assert (isnan NaN = false); [|done]. apply Pnum; [lia|done].
      * intros j Hj Hjk.
        destruct (decide (j = Z.to_nat i)) as [->|Hne].
        -- rewrite Hd in Hj. injection Hj as ->. done.
        -- rewrite (Pnan j Hj) by lia. by destruct d.
    + destruct (Hema k v Hv) as (H1 & H2 & H3).
      split; [intros H; apply H1; lia|]. split; [|done].
      intros H. apply H2. lia.
  - exists ema. split; [done|]. split; [done|].
    intros k v Hv. destruct (Hema k v Hv) as (H1 & H2 & H3).
    split; [intros H; apply H1; lia|]. split; [|done].
    intros H. apply H2. apply lookup_lt_Some in Hv. unfold len in *. lia.
Qed.

(** X18.  On moderate prices the EMA is NaN exactly during the warm-up.
    For a period between 1 and 2^20 and a series of finite numbers of
    magnitude at most 2^1000 (so that nothing in the computation overflows:
    prices near the largest binary64 would make the seed infinite and the
    next value NaN), a value of [calculate_ema] is NaN if and only if its
    index is below [period - 1] or the series has fewer elements than the
    period. *)
Theorem X18_ema_warm_up data p ema (k : nat) v :
  1 <= p <= period_bound -> all_moderate data ->
  calculate_ema data p = Ok ema ->
  ema !! k = Some v ->
  isnan v = true <-> Z.of_nat k < p - 1 \/ len data < p.
Proof.
  intros [Hp _] Nd%all_moderate_nan_free Hrun Hv.
  destruct (Z_lt_le_dec (len data) p) as [Hshort|Hlong].
  - unfold calculate_ema in Hrun.
    replace (len data <? p) with true in Hrun by (symmetry; apply Z.ltb_lt; lia).
    injection Hrun as <-. apply lookup_full_nan in Hv. subst v.
    split; [by right|done].
  - destruct (calculate_ema_shape data p Hp Hlong) as (ema' & Hrun' & _ & Hshape).
    rewrite Hrun in Hrun'. injection Hrun' as <-.
    destruct (Hshape k v Hv) as (H1 & H2 & _). split.
    + intros Hnan. destruct (Z_lt_le_dec (Z.of_nat k) (p - 1)) as [?|Hk];
        [by left|].
      rewrite H2 in Hnan by done. done.
    + intros [H|H]; [by rewrite H1|lia].
Qed.

Lemma X18_witness :
  exists ema v,
    calculate_ema [of_Z 3; of_Z 3; of_Z 1; of_Z 2] 2 = Ok ema /\
    ema !! 0%nat = Some v /\ isnan v = true.
Proof.
  destruct (calculate_ema [of_Z 3; of_Z 3; of_Z 1; of_Z 2] 2) as [ema|] eqn:E;
    [|by vm_compute in E].
  destruct (ema !! 0%nat) as [v|] eqn:Ev.
  2:{ exfalso. vm_compute in E. injection E as <-. by vm_compute in Ev. }
  exists ema, v. split; [done|]. split; [done|].
  apply (X18_ema_warm_up [of_Z 3; of_Z 3; of_Z 1; of_Z 2] 2 ema 0 v);
    [by vm_compute|by repeat (constructor; [by vm_compute|])|exact E|exact Ev
    |left; lia].
Defined.

(** A NaN in the series is a NaN in the EMA from its index on. *)
Lemma ema_nan_from data p ema (j k : nat) v :
  1 <= p ->
  data !! j = Some NaN ->
  calculate_ema data p = Ok ema ->
  ema !! k = Some v ->
  (j <= k)%nat ->
  v = NaN.
Proof.
  intros Hp Hj Hrun Hv Hjk. destruct (Z_lt_le_dec (len data) p) as [Hshort|Hlong].
  - unfold calculate_ema in Hrun.
    replace (len data <? p) with true in Hrun by (symmetry; apply Z.ltb_lt; lia).
    injection Hrun as <-. by apply lookup_full_nan in Hv.
  - destruct (calculate_ema_shape data p Hp Hlong) as (ema' & Hrun' & _ & Hshape).
    rewrite Hrun in Hrun'. injection Hrun' as <-.
    destruct (Hshape k v Hv) as (_ & _ & H3). by apply (H3 j).
Qed.

(** X19.  One NaN price poisons the EMA for good.  For a period of at least
    1, if the series holds a NaN at index [j], every value of
    [calculate_ema] from index [j] on is NaN, and so is the last value. *)
Theorem X19_ema_nan_poisons data p ema (j : nat) :
  1 <= p ->
  data !! j = Some NaN ->
  calculate_ema data p = Ok ema ->
  (forall (k : nat) v, ema !! k = Some v -> (j <= k)%nat -> v = NaN) /\
  getitem ema (-1) = Ok NaN.
Proof.
  intros Hp Hj Hrun. split.
  - intros k v Hv Hk. by apply (ema_nan_from data p ema j k v).
  - destruct (calculate_ema_total data p Hp) as (ema' & Hrun' & Hle).
    rewrite Hrun in Hrun'. injection Hrun' as <-.
    assert (Hjl : Z.of_nat j < len data).
    { apply lookup_lt_Some in Hj. unfold len. lia. }
    destruct (getitem_neg ema (-1)) as (x & -> & Hlook); [lia|].
    f_equal. apply (ema_nan_from data p ema j _ x Hp Hj Hrun Hlook).
    unfold len in *. lia.
Qed.

Lemma X19_witness :
  exists ema,
    calculate_ema [of_Z 3; NaN; of_Z 1; of_Z 2] 1 = Ok ema /\
    getitem ema (-1) = Ok NaN.
Proof.
  destruct (calculate_ema [of_Z 3; NaN; of_Z 1; of_Z 2] 1) as [ema|] eqn:E;
    [|by vm_compute in E].
  exists ema. split; [done|].
  apply (X19_ema_nan_poisons [of_Z 3; NaN; of_Z 1; of_Z 2] 1 ema 1);
    [lia|reflexivity|exact E].
Defined.

End indicator_more.

(** ** Signals on damaged price series *)

Section signal_more.

Import indicators signals scenarios.

(** X20.  A NaN anywhere in the close prices silences the generator.  For
    an EMA period of at least 1, if the close prices hold a NaN at some
    index, [generate] returns no LONG and no SHORT signal, whatever the
    current price passed: the NaN reaches the last EMA value. *)
Theorem X20_nan_close_no_signal (self : SignalGenerator)
    (close : list float64) (cp : option float64) (j : nat) (sig : Signal) :
  1 <= ema_period self ->
  close !! j = Some NaN ->
  generate self close cp = Ok sig ->
  signal_type sig = NONE.
Proof.
  intros Hp Hj Hrun.
  destruct (generate_inv self close cp sig Hrun)
    as [(_ & H & _)|(Hlen & ema & rsi & c & e & r & r' & Hema & _ & _ & He & _ & _
                      & _ & Hlong & Hshort)]; [done|].
  destruct (calculate_ema_total close (ema_period self) Hp) as (ema' & Hema' & Hle).
  rewrite Hema in Hema'. injection Hema' as <-.
  assert (Hjl : Z.of_nat j < len close).
  { apply lookup_lt_Some in Hj. unfold len. lia. }
  destruct (getitem_neg ema (-1)) as (x & Hx & Hlook); [lia|].
  rewrite He in Hx. injection Hx as <-.
  assert (e = NaN) as ->.
  { apply (ema_nan_from close (ema_period self) ema j _ e Hp Hj Hema Hlook).
    unfold len in *. lia. }
  destruct (signal_type sig); [done|..].
  - by destruct (Hlong eq_refl) as [H _]; destruct c.
  - by destruct (Hshort eq_refl) as [H _]; destruct c.
Qed.

Lemma X20_witness :
  exists sig,
    generate generator_1 [of_Z 3; NaN; of_Z 1; of_Z 2] (Some (of_Z 5)) = Ok sig /\
    signal_type sig = NONE.
Proof.
  destruct (generate generator_1 [of_Z 3; NaN; of_Z 1; of_Z 2] (Some (of_Z 5)))
    as [sig|] eqn:E; [|by vm_compute in E].
  exists sig. split; [done|].
  apply (X20_nan_close_no_signal generator_1 [of_Z 3; NaN; of_Z 1; of_Z 2]
           (Some (of_Z 5)) 1 sig); [by vm_compute|reflexivity|exact E].
Defined.

End signal_more.

(** ** The executor *)

Section executor_facts.

Import mt5 executor executor_scenarios.

Implicit Types (b : Broker) (self : MT5Executor) (h : list query).

Lemma orders_app h1 h2 : orders (h1 ++ h2) = orders h1 ++ orders h2.
Proof. unfold orders. apply omap_app. Qed.

(** Unfolds the sequencing of calls. *)
Ltac run_calls := unfold mbind, M_bind, mret, M_ret, mt5_call in *.

(** X21.  What [open_position] sends and returns.  The calls it makes are
    appended to the history, with one order at most.  An order it sends is a
    deal on the symbol passed, with the volume, stop loss and take profit
    passed and the magic number of the executor, naming no position; it is a
    buy for a long entry and a sell for a short one.  A ticket is returned
    only as the order number of the one order sent, when the terminal
    answered it "done".  Every failure before the order sends none and
    returns None: a symbol the terminal does not know, a hidden symbol
    that [symbol_select] fails to select, a symbol without a tick.  When
    the symbol is known, visible or selected, and has a tick, the order is
    sent, at the ask of that tick for a long entry and at its bid for a
    short one, and what is returned is the order number if the terminal
    answers that order "done" and None if it answers anything else or
    nothing. *)
Theorem X21_open_position b self sym long vol sl tp cm h r h' :
  open_position b self sym long vol sl tp cm h = (r, h') ->
  exists new,
    h' = h ++ new /\ (length (orders new) <= 1)%nat /\
    (forall req, req ∈ orders new ->
       rq_action req = TRADE_ACTION_DEAL /\ rq_position req = None /\
       rq_symbol req = sym /\ rq_volume req = Some vol /\
       rq_sl req = Some sl /\ rq_tp req = Some tp /\
       rq_magic req = Some (magic_number self) /\
       rq_type req = Some (if long then ORDER_TYPE_BUY else ORDER_TYPE_SELL)) /\
    (forall ticket, r = Some ticket ->
       exists req res hq,
         orders new = [req] /\ order_send b hq req = Some res /\
         res_retcode res = TRADE_RETCODE_DONE /\ res_order res = ticket) /\
    (symbol_info b h sym = None -> r = None /\ orders new = []) /\
    (forall info,
       symbol_info b h sym = Some info ->
       let asked :=
         SymbolInfoQuery sym
           :: (if visible info then [] else [SymbolSelectQuery sym true]) in
       (visible info = false ->
        symbol_select b (h ++ [SymbolInfoQuery sym]) sym true = false ->
        r = None /\ orders new = []) /\
       (visible info = true \/
        symbol_select b (h ++ [SymbolInfoQuery sym]) sym true = true ->
        match symbol_info_tick b (h ++ asked) sym with
        | None => r = None /\ orders new = []
        | Some tick =>
            exists req,
              new = asked ++ [TickQuery sym; OrderSendQuery req] /\
              rq_price req = Some (if long then ask tick else bid tick) /\
              r = match order_send b (h ++ asked ++ [TickQuery sym]) req with
                  | Some res =>
                      if res_retcode res =? TRADE_RETCODE_DONE
                      then Some (res_order res) else None
                  | None => None
                  end
        end)).
Proof.
  unfold open_position. run_calls. intros H.
  destruct (symbol_info b h sym) as [info|] eqn:Einfo.
  2:{ injection H as <- <-. eexists. split; [reflexivity|]. simpl.
      split; [lia|]. split; [by intros ? ?%elem_of_nil|].
      split; [done|]. split; [done|]. by intros info [=]. }
  destruct (visible info) eqn:Evis; cbn [negb] in H;
    [|destruct (symbol_select b _ sym true) eqn:Esel; cbn [negb] in H].
  3:{ injection H as <- <-. eexists.
      split; [rewrite <- ?app_assoc; reflexivity|]. simpl.
      split; [lia|]. split; [by intros ? ?%elem_of_nil|].
      split; [done|]. split; [done|].
      intros info' [= <-]. rewrite Evis. split; [done|].
      intros [?|?]; congruence. }
  all: match type of H with
       | context [symbol_info_tick ?b' ?hq ?s'] =>
           destruct (symbol_info_tick b' hq s') as [tick|] eqn:Etick
       end.
  2,4: injection H as <- <-; eexists;
         (split; [rewrite <- ?app_assoc; reflexivity|]); simpl;
         (split; [lia|]); (split; [by intros ? ?%elem_of_nil|]);
         (split; [done|]); (split; [done|]);
         intros info' [= <-]; rewrite Evis;
         (split; [intros; congruence|]); intros _;
         rewrite <- ?app_assoc in Etick; simpl in Etick; simpl;
         by rewrite Etick.
  all: match type of H with
       | context [order_send ?b' ?hq ?q] =>
           destruct (order_send b' hq q) as [res|] eqn:Esend
       end.
  all: try (destruct (res_retcode _ =? TRADE_RETCODE_DONE) eqn:Edone;
            cbn [negb] in H).
  all: injection H as <- <-; eexists;
         (split; [rewrite <- ?app_assoc; reflexivity|]);
         simpl; (split; [lia|]); split;
         [by intros req ->%list_elem_of_singleton|].
  all: split;
         [first [done
                |intros ticket [= <-]; eexists _, _, _; split; [done|];
                 split; [exact Esend|]; split; [by apply Z.eqb_eq|done]]|].
  all: split; [congruence|].
  all: intros info' [= <-]; rewrite Evis; (split; [intros; congruence|]);
         intros _; rewrite <- ?app_assoc in Etick; rewrite <- ?app_assoc in Esend;
         simpl in Etick, Esend; simpl; rewrite Etick;
         eexists; split; [reflexivity|]; split; [done|];
         rewrite Esend; by rewrite ?Edone.
Qed.

Lemma X21_witness :
  exists h',
    open_position (broker [] false) the_executor "EURUSD" true (Num (1 # 100))
      (of_Z 1) (of_Z 2) "LONG RSI+EMA" [] = (Some 42, h') /\
    length (orders h') = 1%nat.
Proof.
  destruct (open_position (broker [] false) the_executor "EURUSD" true
              (Num (1 # 100)) (of_Z 1) (of_Z 2) "LONG RSI+EMA" [])
    as [r h'] eqn:E.
  destruct (X21_open_position _ _ _ _ _ _ _ _ _ _ _ E)
    as (new & -> & Hlen & _ & Hticket & _).
  assert (Hr : r = Some 42) by (vm_compute in E; by injection E as <- _).
  destruct (Hticket 42 Hr) as (req & res & hq & Hone & _).
  exists ([] ++ new). split; [by rewrite Hr|]. simpl. by rewrite Hone.
Defined.

(** X22.  What [modify_position] sends and returns.  It sends one order
    at most, and none when it finds no position under the ticket (it then
    returns False) or when the levels asked for equal the position's (it
    then returns True).  An order it sends only sets levels: its action is
    TRADE_ACTION_SLTP on the ticket and the symbol of the position found,
    with no volume, type or price; a level that was not passed keeps the
    value the position has, so a call that passes a stop loss only never
    changes the take profit; and the order differs from the position in at
    least one level.  True is returned only when nothing had to change or
    the terminal answered the order "done". *)
Theorem X22_modify_position b self ticket sl tp h ok h' :
  modify_position b self ticket sl tp h = (ok, h') ->
  exists new,
    h' = h ++ new /\ (length (orders new) <= 1)%nat /\
    (forall req, req ∈ orders new ->
       rq_action req = TRADE_ACTION_SLTP /\ rq_position req = Some ticket /\
       rq_volume req = None /\ rq_type req = None /\ rq_price req = None /\
       exists pos rest,
         positions_get_ticket b h ticket = Some (pos :: rest) /\
         rq_symbol req = pos_symbol pos /\
         (forall v, sl = Some v -> rq_sl req = Some v) /\
         (sl = None -> rq_sl req = Some (pos_sl pos)) /\
         (forall v, tp = Some v -> rq_tp req = Some v) /\
         (tp = None -> rq_tp req = Some (pos_tp pos)) /\
         (or_current sl (pos_sl pos) =? pos_sl pos)%F
           && (or_current tp (pos_tp pos) =? pos_tp pos)%F = false) /\
    (forall pos rest,
       positions_get_ticket b h ticket = Some (pos :: rest) ->
       (or_current sl (pos_sl pos) =? pos_sl pos)%F
         && (or_current tp (pos_tp pos) =? pos_tp pos)%F = true ->
       ok = true /\ orders new = []) /\
    (positions_get_ticket b h ticket = None \/
     positions_get_ticket b h ticket = Some [] ->
       ok = false /\ orders new = []) /\
    (ok = true ->
       orders new = [] \/
       exists req res hq,
         orders new = [req] /\ order_send b hq req = Some res /\
         res_retcode res = TRADE_RETCODE_DONE).
Proof.
  unfold modify_position. run_calls. intros H.
  destruct (positions_get_ticket b h ticket) as [[|pos rest]|] eqn:Epos.
  1,3: injection H as <- <-; eexists; (split; [reflexivity|]); simpl;
         (split; [lia|]); (split; [by intros ? ?%elem_of_nil|]);
         (split; [done|]); split; [done|by left].
  destruct (_ && _) eqn:Esame.
  { injection H as <- <-. eexists. split; [reflexivity|]. simpl.
    split; [lia|]. split; [by intros ? ?%elem_of_nil|].
    split; [done|]. split; [by intros [?|?]|by left]. }
  match type of H with
  | context [order_send ?b' ?hq ?q] =>
      destruct (order_send b' hq q) as [res|] eqn:Esend
  end.
  all: try (destruct (res_retcode _ =? TRADE_RETCODE_DONE) eqn:Edone;
            cbn [negb] in H).
  all: injection H as <- <-; eexists;
         (split; [rewrite <- ?app_assoc; reflexivity|]);
         simpl; (split; [lia|]); split;
         [intros req ->%list_elem_of_singleton; do 5 (split; [done|]);
          exists pos, rest; split; [done|]; split; [done|];
          split; [by intros v ->|]; split; [by intros ->|];
          split; [by intros v ->|]; split; [by intros ->|done]|].
  all: split; [intros pos' rest' [= <- <-] Hsame; congruence|].
  all: split; [by intros [?|?]|].
  all: try done.
  intros _. right. eexists _, _, _. split; [done|].
  split; [exact Esend|by apply Z.eqb_eq].
Qed.

Lemma X22_witness :
  exists h',
    modify_position (broker three_positions true) the_executor 11
      (Some (of_Z 1)) None [] = (true, h') /\
    exists req, orders h' = [req] /\ rq_tp req = Some (scenarios.dec 110400 5).
Proof.
  destruct (modify_position (broker three_positions true) the_executor 11
              (Some (of_Z 1)) None []) as [ok h'] eqn:E.
  destruct (X22_modify_position _ _ _ _ _ _ _ _ E)
    as (new & -> & _ & Hreq & _ & _ & Hok).
  assert (Hr : ok = true) by (vm_compute in E; by injection E as <- _).
  destruct (Hok Hr) as [Hnone|(req & res & hq & Hone & _)].
  { exfalso. vm_compute in E. injection E as _ E.
    apply (f_equal orders) in E. rewrite Hnone in E. by vm_compute in E. }
  exists ([] ++ new). split; [by rewrite Hr|]. exists req. split; [done|].
  destruct (Hreq req) as (_ & _ & _ & _ & _ & pos & rest & Hpos & _ & _ & _ & _ & Htp & _).
  { rewrite Hone. apply list_elem_of_singleton. done. }
  rewrite (Htp eq_refl). vm_compute in Hpos. by injection Hpos as <- _.
Defined.

(** X23.  What [close_position] sends and returns.  It sends one order at
    most, and none when it finds no position under the ticket or no tick
    for its symbol.  An order it sends closes the position found: a deal on
    the ticket and the symbol of the position for its whole volume, on the
    opposite side (a sell at the bid for a buy position, a buy at the ask
    for any other), with the magic number of the executor and no levels.
    True is returned only when that order was answered "done".  The kill
    switch builds the same order for a position and a tick, up to
    deviation, magic number and comment. *)
Theorem X23_close_position b self ticket h ok h' :
  close_position b self ticket h = (ok, h') ->
  exists new,
    h' = h ++ new /\ (length (orders new) <= 1)%nat /\
    (forall req, req ∈ orders new ->
       rq_action req = TRADE_ACTION_DEAL /\ rq_position req = Some ticket /\
       rq_sl req = None /\ rq_tp req = None /\
       rq_magic req = Some (magic_number self) /\
       exists pos rest tick hq,
         positions_get_ticket b h ticket = Some (pos :: rest) /\
         symbol_info_tick b hq (pos_symbol pos) = Some tick /\
         rq_symbol req = pos_symbol pos /\
         rq_volume req = Some (pos_volume pos) /\
         (pos_type pos = ORDER_TYPE_BUY ->
            rq_type req = Some ORDER_TYPE_SELL /\ rq_price req = Some (bid tick)) /\
         (pos_type pos <> ORDER_TYPE_BUY ->
            rq_type req = Some ORDER_TYPE_BUY /\ rq_price req = Some (ask tick)) /\
         let kill := kill_switch.close_request pos tick in
         rq_action req = req_action kill /\
         rq_symbol req = req_symbol kill /\
         rq_volume req = Some (req_volume kill) /\
         rq_type req = Some (req_type kill) /\
         rq_price req = Some (req_price kill) /\
         rq_type_time req = Some (req_type_time kill) /\
         rq_type_filling req = Some (req_type_filling kill)) /\
    (ok = true ->
       exists req res hq,
         orders new = [req] /\ order_send b hq req = Some res /\
         res_retcode res = TRADE_RETCODE_DONE).
Proof.
  unfold close_position. run_calls. intros H.
  destruct (positions_get_ticket b h ticket) as [[|pos rest]|] eqn:Epos.
  1,3: injection H as <- <-; eexists; (split; [reflexivity|]); simpl;
         (split; [lia|]); (split; [by intros ? ?%elem_of_nil|done]).
  match type of H with
  | context [symbol_info_tick ?b' ?hq ?s'] =>
      destruct (symbol_info_tick b' hq s') as [tick|] eqn:Etick
  end.
  2:{ injection H as <- <-. eexists.
      split; [rewrite <- ?app_assoc; reflexivity|]. simpl.
      split; [lia|]. split; [by intros ? ?%elem_of_nil|done]. }
  match type of H with
  | context [order_send ?b' ?hq ?q] =>
      destruct (order_send b' hq q) as [res|] eqn:Esend
  end.
  all: try (destruct (res_retcode _ =? TRADE_RETCODE_DONE) eqn:Edone;
            cbn [negb] in H).
  all: injection H as <- <-; eexists;
         (split; [rewrite <- ?app_assoc; reflexivity|]);
         simpl; (split; [lia|]); split;
         [intros req ->%list_elem_of_singleton; do 5 (split; [done|]);
          exists pos, rest, tick; eexists; split; [done|];
          split; [exact Etick|]; split; [done|]; split; [done|];
          unfold close_request, kill_switch.close_request; simpl;
          split; [by intros ->|];
          split; [intros Hne; by apply Z.eqb_neq in Hne as ->|done]|].
  all: try done.
  intros _. eexists _, _, _. split; [done|].
  split; [exact Esend|by apply Z.eqb_eq].
Qed.

Lemma X23_witness :
  exists h' req,
    close_position (broker three_positions true) the_executor 11 [] = (true, h') /\
    orders h' = [req] /\ rq_position req = Some 11.
Proof.
  destruct (close_position (broker three_positions true) the_executor 11 [])
    as [ok h'] eqn:E.
  destruct (X23_close_position _ _ _ _ _ _ E) as (new & -> & _ & Hreq & Hok).
  assert (Hr : ok = true) by (vm_compute in E; by injection E as <- _).
  destruct (Hok Hr) as (req & res & hq & Hone & _).
  exists ([] ++ new), req. split; [by rewrite Hr|]. split; [done|].
  apply Hreq. rewrite Hone. by apply list_elem_of_singleton.
Defined.

(** One turn of the closing loop: the orders of [close_position]. *)
Lemma close_position_shape b self ticket h ok h' :
  close_position b self ticket h = (ok, h') ->
  exists new,
    h' = h ++ new /\
    (orders new = [] /\ ok = false \/
     exists req,
       orders new = [req] /\ rq_action req = TRADE_ACTION_DEAL /\
       rq_position req = Some ticket /\
       rq_magic req = Some (magic_number self)).
Proof.
  unfold close_position. run_calls. intros H.
  destruct (positions_get_ticket b h ticket) as [[|pos rest]|] eqn:Epos.
  1,3: injection H as <- <-; eexists; split; [reflexivity|by left].
  match type of H with
  | context [symbol_info_tick ?b' ?hq ?s'] =>
      destruct (symbol_info_tick b' hq s') as [tick|] eqn:Etick
  end.
  2:{ injection H as <- <-. eexists.
      split; [rewrite <- ?app_assoc; reflexivity|by left]. }
  match type of H with
  | context [order_send ?b' ?hq ?q] =>
      destruct (order_send b' hq q) as [res|] eqn:Esend
  end.
  all: try (destruct (res_retcode _ =? TRADE_RETCODE_DONE) eqn:Edone;
            cbn [negb] in H).
  all: injection H as <- <-; eexists;
         (split; [rewrite <- ?app_assoc; reflexivity|]);
         right; eexists; by repeat split.
Qed.

Lemma close_each_shape b self positions :
  forall count h n h',
    close_each b self positions count h = (n, h') ->
    exists new,
      h' = h ++ new /\
      count <= n <= count + Z.of_nat (length (orders new)) /\
      (length (orders new) <= length positions)%nat /\
      forall req, req ∈ orders new ->
        rq_action req = TRADE_ACTION_DEAL /\
        rq_magic req = Some (magic_number self) /\
        exists p, p ∈ positions /\ rq_position req = Some (info_ticket p).
Proof.
  induction positions as [|p ps IH]; intros count h n h' H.
  - injection H as <- <-. exists []. rewrite app_nil_r. split; [done|].
    simpl. split; [lia|]. split; [lia|]. by intros ? ?%elem_of_nil.
  - cbn [close_each] in H. unfold mbind, M_bind in H.
    destruct (close_position b self (info_ticket p) h) as [closed h1] eqn:E1.
    destruct (close_position_shape _ _ _ _ _ _ E1) as (n1 & -> & Hone).
    destruct (IH _ _ _ _ H) as (n2 & -> & Hn & Hlen & Hreq).
    exists (n1 ++ n2). rewrite app_assoc, orders_app, length_app.
    split; [done|].
    assert (Hin : forall req, req ∈ orders n2 ->
              rq_action req = TRADE_ACTION_DEAL /\
              rq_magic req = Some (magic_number self) /\
              exists p0, p0 ∈ p :: ps /\ rq_position req = Some (info_ticket p0)).
    { intros req Hr. destruct (Hreq req Hr) as (Ha & Hm & p0 & Hp0 & Ht).
      split; [done|]. split; [done|]. exists p0. split; [|done].
      by apply elem_of_cons; right. }
    destruct Hone as [[-> ->]|(req1 & -> & Ha & Ht & Hm)]; simpl.
    + split; [lia|]. split; [lia|done].
    + split; [destruct closed; lia|]. split; [lia|].
      intros req [->|Hr]%elem_of_cons; [|by apply Hin].
      split; [done|]. split; [done|]. exists p. split; [|done].
      by apply elem_of_cons; left.
Qed.

(** What [get_open_positions] returns: one call, no order, and the
    positions of the answer that carry the magic number of the executor. *)
Lemma get_open_positions_shape b self symbol h :
  exists q answer,
    get_open_positions b self symbol h =
      (position_info
         <$> filter (fun pos => pos_magic pos = magic_number self)
               (default [] answer),
       h ++ [q]) /\
    orders [q] = [] /\
    (q = PositionsQuery /\ answer = positions_get b h \/
     exists sym, symbol = Some sym /\ sym <> EmptyString /\
       q = PositionsOfSymbolQuery sym /\ answer = positions_get_symbol b h sym).
Proof.
  unfold get_open_positions. run_calls.
  destruct symbol as [[|c s]|].
  - exists PositionsQuery, (positions_get b h).
    split; [by destruct (positions_get b h)|]. split; [done|by left].
  - exists (PositionsOfSymbolQuery (String c s)),
      (positions_get_symbol b h (String c s)).
    split; [by destruct (positions_get_symbol b h (String c s))|].
    split; [done|]. right. by exists (String c s).
  - exists PositionsQuery, (positions_get b h).
    split; [by destruct (positions_get b h)|]. split; [done|by left].
Qed.

(** X24.  [close_all_positions] closes positions of the strategy only.  It
    asks the terminal once for the positions (of the symbol when one is
    given, of all symbols for None or the empty string) and keeps those
    with the magic number of the executor; when the terminal answers None
    it sends nothing and returns 0.  Every order it then sends is a closing
    deal for the ticket of one of the positions kept, with the magic number
    of the executor; it sends one order at most for each; and the count it
    returns is between 0 and the number of orders sent. *)
Theorem X24_close_all_positions b self symbol h n h' :
  close_all_positions b self symbol h = (n, h') ->
  exists q answer new,
    h' = h ++ [q] ++ new /\
    (q = PositionsQuery /\ answer = positions_get b h \/
     exists sym, symbol = Some sym /\ sym <> EmptyString /\
       q = PositionsOfSymbolQuery sym /\ answer = positions_get_symbol b h sym) /\
    let own :=
      filter (fun pos => pos_magic pos = magic_number self) (default [] answer) in
    get_open_positions b self symbol h = (position_info <$> own, h ++ [q]) /\
    0 <= n <= Z.of_nat (length (orders new)) /\
    (length (orders new) <= length own)%nat /\
    (forall req, req ∈ orders new ->
       rq_action req = TRADE_ACTION_DEAL /\
       rq_magic req = Some (magic_number self) /\
       exists pos, pos ∈ default [] answer /\
         pos_magic pos = magic_number self /\
         rq_position req = Some (pos_ticket pos)) /\
    (answer = None -> n = 0 /\ new = []).
Proof.
  unfold close_all_positions, mbind, M_bind. intros H.
  destruct (get_open_positions_shape b self symbol h) as (q & answer & Hget & _ & Hq).
  rewrite Hget in H.
  destruct (close_each_shape _ _ _ _ _ _ _ H) as (new & -> & Hn & Hlen & Hreq).
  exists q, answer, new. split; [by rewrite app_assoc|]. split; [done|].
  split; [done|]. split; [lia|].
  split; [by rewrite length_fmap in Hlen|]. split.
  - intros req Hr. destruct (Hreq req Hr) as (Ha & Hm & p & Hp & Ht).
    split; [done|]. split; [done|].
    apply list_elem_of_fmap in Hp as (pos & -> & Hpos).
    apply list_elem_of_filter in Hpos as [Hmagic Hpos]. by exists pos.
  - intros ->. simpl in H. injection H as <- Hh. split; [done|].
    apply (f_equal length) in Hh. rewrite !length_app in Hh.
    destruct new; [done|simpl in Hh; lia].
Qed.

Lemma X24_witness :
  exists h',
    close_all_positions (broker three_positions true) the_executor
      (Some "EURUSD") [] = (1, h') /\
    (length (orders h') <= 2)%nat.
Proof.
  destruct (close_all_positions (broker three_positions true) the_executor
              (Some "EURUSD") []) as [n h'] eqn:E.
  destruct (X24_close_all_positions _ _ _ _ _ _ E)
    as (q & answer & new & -> & Hq & _ & _ & Hlen & _).
  assert (Hn : n = 1) by (vm_compute in E; by injection E as <- _).
  assert (Ha : answer = Some three_positions).
  { destruct Hq as [[-> ->]|(sym & [= <-] & _ & -> & ->)]; by vm_compute. }
  exists ([] ++ [q] ++ new). split; [by rewrite Hn|].
  rewrite Ha in Hlen. simpl in Hlen. simpl.
  destruct Hq as [[-> _]|(sym & _ & _ & -> & _)]; simpl; lia.
Defined.

End executor_facts.

(** ** The polling loop *)

Section loop_facts.

Import mt5 main bar_trace main_loop scenarios loop_scenarios.

Lemma check_true t ks ks' calls :
  kill_switch.check t ks = Ok (true, ks', calls) ->
  kill_switch._is_triggered ks' = true.
Proof.
  unfold kill_switch.check. intros H.
  repeat (case_match; simplify_eq; try done).
  all: try (destruct (py_div _ _) as [d|]; simpl in H; [|done]);
    repeat (case_match; simplify_eq; try done).
Qed.

Lemma execute_kill_same t ks :
  (kill_switch.execute_kill t ks).1.2 = ks.
Proof. unfold kill_switch.execute_kill. by repeat case_match. Qed.

(** A bar either leaves the run flag and the latch as they were, or it is
    a bar of the kill switch: the flag is cleared, the latch set, and no
    bars were fetched and no position opened. *)
Lemma on_bar_running t self self' calls :
  on_bar t self = Ok (self', calls) ->
  (_is_running self' = _is_running self /\
   kill_switch._is_triggered (the_kill_switch self')
     = kill_switch._is_triggered (the_kill_switch self)) \/
  (_is_running self' = false /\
   kill_switch._is_triggered (the_kill_switch self') = true /\
   opened calls = [] /\ fetched calls = false).
Proof.
  unfold on_bar. intros H.
  destruct (kill_switch.check t (the_kill_switch self)) as [[[r ks'] calls0]|] eqn:Ec;
    [rewrite bind_Ok in H|done].
  destruct (check_shape _ _ _ _ _ Ec) as (Ho & _ & Hf & Hsame).
  destruct r.
  - right. pose proof (execute_kill_shape t ks') as (Ho' & _ & Hf').
    pose proof (execute_kill_same t ks') as Hks.
    destruct (kill_switch.execute_kill t ks') as [[n ks''] kcalls].
    simpl in *. subst ks''. injection H as <- <-. simpl.
    split; [done|]. split; [by eapply check_true|].
    by rewrite opened_app, fetched_app, Ho, Ho', Hf, Hf'.
  - left. rewrite (Hsame eq_refl), with_kill_switch_id in H. clear Ec Hsame.
    unfold enter_trade in H.
    repeat match type of H with
    | (?m ≫= _) = Ok _ => destruct m eqn:?; [rewrite bind_Ok in H|discriminate H]
    | Ok _ = Ok _ => injection H as <- <-
    | context [match ?x with _ => _ end] => destruct x eqn:?
    end; done.
Qed.

Lemma run_loop_stopped polls self last bars :
  _is_running self = false -> run_loop polls self last bars = Ok (self, last, bars).
Proof. intros H. destruct polls; simpl; by rewrite H. Qed.

Lemma run_loop_cons p polls self last bars :
  _is_running self = true ->
  run_loop (p :: polls) self last bars =
    if is_new_bar (get_current_bar_time (newest p)) last then
      '(self, calls) ← on_bar (at_bar p) self;
      run_loop polls self (get_current_bar_time (newest p)) (bars ++ [calls])
    else run_loop polls self last bars.
Proof. intros H. simpl. by rewrite H. Qed.

Lemma is_new_bar_same current : is_new_bar current current = false.
Proof.
  destruct current as [t|]; [|done]. simpl.
  rewrite bool_decide_eq_true_2 by done. by rewrite andb_false_r.
Qed.

(** From a running bot the loop ends running, with the latch as it was, or
    stopped by a bar of the kill switch, which is the last bar processed. *)
Lemma run_loop_inv polls :
  forall self last bars self' last' bars',
    run_loop polls self last bars = Ok (self', last', bars') ->
    _is_running self = true ->
    exists new,
      bars' = bars ++ new /\ (length new <= length polls)%nat /\
      ((_is_running self' = true /\
        kill_switch._is_triggered (the_kill_switch self')
          = kill_switch._is_triggered (the_kill_switch self)) \/
       (_is_running self' = false /\
        kill_switch._is_triggered (the_kill_switch self') = true /\
        exists pre kill,
          new = pre ++ [kill] /\ opened kill = [] /\ fetched kill = false)).
Proof.
  induction polls as [|p ps IH]; intros self last bars self' last' bars' H Hrun.
  - simpl in H. rewrite Hrun in H. injection H as <- <- <-.
    exists []. rewrite app_nil_r. split; [done|]. split; [done|]. by left.
  - rewrite run_loop_cons in H by done.
    destruct (is_new_bar _ _).
    + destruct (on_bar (at_bar p) self) as [[self1 calls]|] eqn:Ebar; [|done].
      rewrite bind_Ok in H.
      destruct (on_bar_running _ _ _ _ Ebar) as [[Hr Ht]|(Hr & Ht & Ho & Hf)].
      * destruct (IH _ _ _ _ _ _ H) as (new & -> & Hlen & Hend); [congruence|].
        exists (calls :: new). rewrite <- app_assoc. split; [done|].
        split; [simpl; lia|].
        destruct Hend as [[Hr' Ht']|(Hr' & Ht' & pre & kill & -> & Hk)].
        -- left. split; [done|congruence].
        -- right. split; [done|]. split; [done|]. by exists (calls :: pre), kill.
      * rewrite run_loop_stopped in H by done. injection H as <- <- <-.
        exists [calls]. split; [done|]. split; [simpl; lia|].
        right. split; [done|]. split; [done|]. by exists [], calls.
    + destruct (IH _ _ _ _ _ _ H Hrun) as (new & -> & Hlen & Hend).
      exists new. split; [done|]. split; [simpl; lia|done].
Qed.

(** A loop that has stopped does not look at further turns. *)
Lemma run_loop_final polls :
  forall self last bars self' last' bars',
    run_loop polls self last bars = Ok (self', last', bars') ->
    _is_running self' = false ->
    forall more, run_loop (polls ++ more) self last bars = Ok (self', last', bars').
Proof.
  induction polls as [|p ps IH]; intros self last bars self' last' bars' H Hstop more;
    destruct (_is_running self) eqn:Hrun.
  - simpl in H. rewrite Hrun in H. injection H as <- _ _. congruence.
  - rewrite run_loop_stopped in * by done. done.
  - rewrite run_loop_cons in H by done.
    change ((p :: ps) ++ more) with (p :: (ps ++ more)).
    rewrite run_loop_cons by done.
    destruct (is_new_bar _ _); [|by apply IH].
    destruct (on_bar (at_bar p) self) as [[self1 calls]|]; [|done].
    rewrite bind_Ok in *. by apply IH.
  - rewrite run_loop_stopped in * by done. done.
Qed.

(** X25.  Only the kill switch stops the loop, and it stops it for good.
    When the loop of [run], started with the bot running, ends with
    [_is_running] False: the kill switch is triggered; the last bar
    processed is the bar on which it triggered, and on that bar no bars
    were fetched and no position was opened; and whatever turns would have
    followed are not looked at: the loop gives the same result for every
    continuation of the turns. *)
Theorem X25_loop_stops_on_kill polls self last bars self' last' bars' :
  run_loop polls self last bars = Ok (self', last', bars') ->
  _is_running self = true ->
  _is_running self' = false ->
  kill_switch._is_triggered (the_kill_switch self') = true /\
  (exists pre kill,
     bars' = bars ++ pre ++ [kill] /\ opened kill = [] /\ fetched kill = false) /\
  forall more, run_loop (polls ++ more) self last bars = Ok (self', last', bars').
Proof.
  intros H Hrun Hstop. split; [|split].
  - destruct (run_loop_inv _ _ _ _ _ _ _ H Hrun)
      as (new & _ & _ & [[Hr _]|(_ & Ht & _)]); [congruence|done].
  - destruct (run_loop_inv _ _ _ _ _ _ _ H Hrun)
      as (new & -> & _ & [[Hr _]|(_ & _ & pre & kill & -> & Ho & Hf)]);
      [congruence|]. by exists pre, kill.
  - by apply run_loop_final.
Qed.

(** X26.  A bar is processed once.  A turn of the loop that finds the bar
    time of the turn before it changes nothing: the loop over the turns
    with one turn repeated gives what it gives without the repetition.
    The loop processes at most one bar for each turn, and only adds to the
    bars processed. *)
Theorem X26_bar_processed_once p polls self last bars :
  run_loop (p :: p :: polls) self last bars = run_loop (p :: polls) self last bars /\
  forall self' last' bars',
    run_loop polls self last bars = Ok (self', last', bars') ->
    exists new, bars' = bars ++ new /\ (length new <= length polls)%nat.
Proof.
  split.
  - destruct (_is_running self) eqn:Hrun;
      [|by rewrite !run_loop_stopped by done].
    rewrite (run_loop_cons p (p :: polls)), (run_loop_cons p polls) by done.
    destruct (is_new_bar _ last) eqn:Hnew.
    + destruct (on_bar (at_bar p) self) as [[self1 calls]|]; [|done].
      rewrite !bind_Ok. destruct (_is_running self1) eqn:Hrun1.
      * rewrite run_loop_cons by done. by rewrite is_new_bar_same.
      * by rewrite !run_loop_stopped by done.
    + by rewrite ?Hnew.
  - intros self' last' bars' H. destruct (_is_running self) eqn:Hrun.
    + destruct (run_loop_inv _ _ _ _ _ _ _ H Hrun) as (new & -> & Hlen & _).
      by exists new.
    + rewrite run_loop_stopped in H by done. injection H as <- <- <-.
      exists []. rewrite app_nil_r. split; [done|simpl; lia].
Qed.

(** X27.  [run] from start to end.  When the terminal has no account
    information, [run] processes no bar and leaves the bot as it was.  When
    it has, and [run] ends without an exception: the bot is not running;
    it processed at most one bar for each turn of the loop; and if its
    kill switch is triggered, the last bar processed is the bar on which
    it triggered, on which no bars were fetched and no position was
    opened. *)
Theorem X27_run t first polls self :
  (account_info t = None -> run t first polls self = Ok (self, [])) /\
  (forall info self' bars,
     account_info t = Some info ->
     run t first polls self = Ok (self', bars) ->
     _is_running self' = false /\
     (length bars <= length polls)%nat /\
     (kill_switch._is_triggered (the_kill_switch self') = true ->
      exists pre kill,
        bars = pre ++ [kill] /\ opened kill = [] /\ fetched kill = false)).
Proof.
  unfold run, kill_switch.initialize. split.
  - intros ->. simpl. by rewrite with_kill_switch_id.
  - intros info self' bars -> H. simpl in H.
    match type of H with
    | context [run_loop polls ?s ?l []] =>
        destruct (run_loop polls s l []) as [[[self1 last1] bars1]|] eqn:Eloop;
          [|done]
    end.
    rewrite bind_Ok in H. injection H as <- <-.
    destruct (run_loop_inv _ _ _ _ _ _ _ Eloop eq_refl)
      as (new & Hbars & Hlen & Hend).
    simpl in Hbars. subst bars1. split; [done|]. split; [done|].
    simpl. intros Ht.
    destruct Hend as [[_ Ht']|(_ & _ & pre & kill & -> & Hk)].
    + simpl in Ht'. congruence.
    + by exists pre, kill.
Qed.

Lemma X25_witness :
  exists self' last' bars',
    run_loop [poll_drawdown; poll_quiet] bot_trailing None []
      = Ok (self', last', bars') /\
    _is_running bot_trailing = true /\
    kill_switch._is_triggered (the_kill_switch self') = true /\
    run_loop ([poll_drawdown; poll_quiet] ++ [poll_quiet]) bot_trailing None []
      = Ok (self', last', bars').
Proof.
  destruct (run_loop [poll_drawdown; poll_quiet] bot_trailing None [])
    as [[[self' last'] bars']|] eqn:E; [|by vm_compute in E].
  assert (Hstop : _is_running self' = false).
  { vm_compute in E. by injection E as <- _ _. }
  destruct (X25_loop_stops_on_kill _ _ _ _ _ _ _ E eq_refl Hstop)
    as (Ht & _ & Hmore).
  exists self', last', bars'. split; [done|]. split; [reflexivity|].
  split; [exact Ht|]. apply Hmore.
Defined.

Lemma X26_witness :
  exists self' last' bars' new,
    run_loop [poll_quiet; poll_quiet] bot_trailing None []
      = Ok (self', last', bars') /\
    bars' = [] ++ new /\ (length new <= 2)%nat.
Proof.
  destruct (run_loop [poll_quiet; poll_quiet] bot_trailing None [])
    as [[[self' last'] bars']|] eqn:E; [|by vm_compute in E].
  destruct (X26_bar_processed_once poll_quiet [poll_quiet; poll_quiet]
              bot_trailing None []) as [_ H].
  destruct (H self' last' bars' E) as (new & Hnew & Hlen).
  by exists self', last', bars', new.
Defined.

Lemma X27_witness :
  exists self' bars,
    run terminal_three_bars None [poll_drawdown; poll_quiet] new
      = Ok (self', bars) /\
    _is_running self' = false /\ (length bars <= 2)%nat.
Proof.
  destruct (run terminal_three_bars None [poll_drawdown; poll_quiet] new)
    as [[self' bars]|] eqn:E; [|by vm_compute in E].
  destruct (X27_run terminal_three_bars None [poll_drawdown; poll_quiet] new)
    as [_ H].
  destruct (H {| equity := of_Z 10000 |} self' bars eq_refl E) as (Hr & Hlen & _).
  by exists self', bars.
Defined.

End loop_facts.
